(** * hawk-tui Python client: a shallow embedding and its checked properties

    The development follows the two source files of the client library:

    - [examples/python/hawk.py]: [HawkConfig], [HawkMessage], [HawkClient]
      (the bounded transport queue, the batch flusher and the public
      emitters [log], [progress], [event]);
    - [examples/python/hawk_advanced.py]: [ProgressTracker], [Dashboard],
      [ConfigPanel] and [AuditLogger].

    Conventions of the embedding.

    - A Python [str] is a Rocq [string] read as a sequence of code points
      below 256.
    - A Python [int] is a [Z].  A finite Python [float] is the rational
      ([Q]) it stands for, with the two infinities and NaN added; [float()]
      of a string or of an [int] rounds to the nearest binary64 float, the
      arithmetic on clock readings is exact.  Clock readings
      ([time.time()], [datetime.now()]) are rationals, in seconds since the
      epoch, and are arguments of the functions that read the clock: one
      reading per call.
    - A [dict] is an association list in insertion order with unique keys.
    - A method that can raise returns a [result]; a method that mutates
      [self] returns the new object next to its result.  The messages of
      the exceptions that the interpreter raises itself are those of
      CPython 3.11. *)

From Stdlib Require Import ZArith QArith Qround Qabs String Ascii List Bool Lia DecimalString.
From Stdlib Require DecimalPos DecimalFacts.
From stdpp Require Import gmap strings list.

(** ** Python values and the builtins the client relies on *)
Module Py.
Local Open Scope Z_scope.

Inductive pyfloat : Type :=
| Fin (q : Q)
| Inf (negative : bool)
| NaN.

#[local] Unset Elimination Schemes.
Inductive pyval : Type :=
| PNone
| PBool (b : bool)
| PInt (z : Z)
| PFloat (f : pyfloat)
| PStr (s : string)
| PList (l : list pyval)
| PDict (d : list (string * pyval))
| PDatetime (t : Q)                          (* a [datetime] object *)
| PObject (attrs : list (string * pyval))    (* an instance with a [__dict__] *)
| PSet (l : list pyval).                     (* a [set]: no JSON form, no [__dict__] *)
#[local] Set Elimination Schemes.

Inductive exn : Type :=
| TypeError (msg : string)
| ValueError (msg : string)
| OverflowError (msg : string)
| AttributeError (msg : string)
| KeyError (msg : string)
| ZeroDivisionError (msg : string)
| NameError (msg : string)
| RecursionError.

Inductive result (A : Type) : Type :=
| Ok (a : A)
| Raise (e : exn).
Arguments Ok {A} a.
Arguments Raise {A} e.

Definition is_ok {A} (r : result A) : bool :=
  match r with Ok _ => true | Raise _ => false end.

(** Truth value of an object, as [if x:] tests it. *)
Definition truthy (v : pyval) : bool :=
  match v with
  | PNone => false
  | PBool b => b
  | PInt z => negb (z =? 0)%Z
  | PFloat (Fin q) => negb (Qeq_bool q 0)
  | PFloat _ => true
  | PStr s => negb (String.eqb s "")
  | PList l | PSet l => match l with [] => false | _ => true end
  | PDict d => match d with [] => false | _ => true end
  | PDatetime _ | PObject _ => true
  end.

Definition str_truthy (s : string) : bool := negb (String.eqb s "").

(** *** Dictionaries *)

Definition dict (A : Type) : Type := list (string * A).

Fixpoint dict_get {A} (d : dict A) (k : string) : option A :=
  match d with
  | [] => None
  | (k', v) :: r => if String.eqb k' k then Some v else dict_get r k
  end.

Definition dict_mem {A} (d : dict A) (k : string) : bool :=
  match dict_get d k with Some _ => true | None => false end.

(** [d[k] = v]: an existing key keeps its place, a new key goes last. *)
Fixpoint dict_set {A} (d : dict A) (k : string) (v : A) : dict A :=
  match d with
  | [] => [(k, v)]
  | (k', v') :: r =>
      if String.eqb k' k then (k', v) :: r else (k', v') :: dict_set r k v
  end.

Fixpoint dict_del {A} (d : dict A) (k : string) : dict A :=
  match d with
  | [] => []
  | (k', v') :: r => if String.eqb k' k then r else (k', v') :: dict_del r k
  end.

(** [d.update(e)] *)
Definition dict_update {A} (d e : dict A) : dict A :=
  fold_left (fun acc kv => dict_set acc (fst kv) (snd kv)) e d.

(** [d1 == d2] on dictionaries does not look at the order of the keys. *)
Definition dict_eqb (d1 d2 : dict Z) : bool :=
  bool_decide ((list_to_map d1 : gmap string Z) = list_to_map d2).

(** *** Characters and strings *)

Definition code (c : ascii) : Z := Z.of_N (N_of_ascii c).
Definition chr (n : Z) : ascii := ascii_of_N (Z.to_N n).

Definition chars (s : string) : list ascii := list_ascii_of_string s.
Definition str_of (l : list ascii) : string := string_of_list_ascii l.

(** The characters [str.strip()] removes (those with [str.isspace()]). *)
Definition is_space (c : ascii) : bool :=
  let n := code c in
  ((9 <=? n) && (n <=? 13) || (28 <=? n) && (n <=? 32)
   || (n =? 133) || (n =? 160))%Z.

Fixpoint lstrip (l : list ascii) : list ascii :=
  match l with
  | c :: r => if is_space c then lstrip r else l
  | [] => []
  end.

Definition strip_chars (l : list ascii) : list ascii :=
  rev (lstrip (rev (lstrip l))).

Definition strip (s : string) : string := str_of (strip_chars (chars s)).

Definition lower_char (c : ascii) : ascii :=
  let n := code c in
  if ((65 <=? n) && (n <=? 90)
      || (192 <=? n) && (n <=? 222) && negb (n =? 215))%Z
  then chr (n + 32) else c.

Definition lower (s : string) : string := str_of (map lower_char (chars s)).

Definition is_digit (c : ascii) : bool :=
  let n := code c in ((48 <=? n) && (n <=? 57))%Z.

Definition digit_val (c : ascii) : Z := code c - 48.

(** [str(z)] for an [int]. *)
Definition str_int (z : Z) : string := NilZero.string_of_int (Z.to_int z).

(** The value of a run of decimal digits. *)
Definition digits_val (l : list ascii) : Z :=
  fold_left (fun acc c => 10 * acc + digit_val c)%Z l 0%Z.

(** Digits with single underscores between them, as the literals accepted by
    [int()] and [float()]: the digits without the underscores, or [None]. *)
Fixpoint digit_run (l : list ascii) (after_digit : bool) : option (list ascii) :=
  match l with
  | [] => if after_digit then Some [] else None
  | c :: r =>
      if is_digit c then option_map (cons c) (digit_run r true)
      else if Ascii.eqb c "_" then
        if after_digit then
          match r with
          | c' :: _ => if is_digit c' then digit_run r false else None
          | [] => None
          end
        else None
      else None
  end.

Definition split_sign (l : list ascii) : bool * list ascii :=
  match l with
  | c :: r =>
      if Ascii.eqb c "-" then (true, r)
      else if Ascii.eqb c "+" then (false, r)
      else (false, l)
  | [] => (false, [])
  end.

(** [repr(s)] for a string: single quotes unless the string holds a single
    quote and no double quote; the backslash, the quote in use, the control
    characters and the code points that are not printable are escaped. *)
Definition hex_lower (n : Z) : ascii := chr (if n <? 10 then 48 + n else 87 + n)%Z.

Definition repr_char (quote : ascii) (c : ascii) : list ascii :=
  let n := code c in
  if Ascii.eqb c quote || (n =? 92)%Z then ["\"%char; c]
  else if (n =? 9)%Z then ["\"%char; "t"%char]
  else if (n =? 10)%Z then ["\"%char; "n"%char]
  else if (n =? 13)%Z then ["\"%char; "r"%char]
  else if (n <? 32)%Z || (127 <=? n)%Z && (n <=? 160)%Z || (n =? 173)%Z
  then ["\"%char; "x"%char; hex_lower (n / 16); hex_lower (n mod 16)]
  else [c].

Definition repr_str (s : string) : string :=
  let l := chars s in
  let quote := if existsb (Ascii.eqb "'") l && negb (existsb (Ascii.eqb "034") l)
               then "034"%char else "'"%char in
  str_of (quote :: flat_map (repr_char quote) l ++ [quote]).

(** The limit of the interpreter on the digits of an [int] literal. *)
Definition int_max_str_digits : nat := 4300.

(** The longest prefix of digits and underscores, and what follows it. *)
Fixpoint digit_span (l : list ascii) : list ascii * list ascii :=
  match l with
  | c :: r =>
      if is_digit c || Ascii.eqb c "_"
      then let '(a, b) := digit_span r in (c :: a, b)
      else ([], l)
  | [] => ([], [])
  end.

(** [int(s)] for a string, base 10: white space around the literal is
    dropped; the digits are counted, leading zeros included, and a literal
    of more than 4300 digits is refused before anything that follows the
    digits is looked at.  The message of an invalid literal shows the first
    200 characters of its [repr]. *)
Definition int_of_str (s : string) : result Z :=
  let invalid := ValueError ("invalid literal for int() with base 10: "
                             +:+ str_of (take 200 (chars (repr_str s)))) in
  let '(neg, body) := split_sign (strip_chars (chars s)) in
  let '(run, rest) := digit_span body in
  match digit_run run false with
  | Some ds =>
      if (int_max_str_digits <? length ds)%nat then
        Raise (ValueError
                 ("Exceeds the limit (4300 digits) for integer string conversion: value has "
                  +:+ str_int (Z.of_nat (length ds))
                  +:+ " digits; use sys.set_int_max_str_digits() to increase the limit"))
      else match rest with
           | [] => Ok (if neg then - digits_val ds else digits_val ds)%Z
           | _ :: _ => Raise invalid
           end
  | None => Raise invalid
  end.

(** *** Numbers *)

Inductive number : Type :=
| NInt (z : Z)
| NFloat (f : pyfloat).

Definition number_val (n : number) : pyval :=
  match n with NInt z => PInt z | NFloat f => PFloat f end.

(** [float(n)] *)
Definition float_of_number (n : number) : pyfloat :=
  match n with NInt z => Fin (inject_Z z) | NFloat f => f end.

(** The number an object is for the arithmetic comparisons: [bool] is a
    subclass of [int]. *)
Definition as_number (v : pyval) : option number :=
  match v with
  | PBool b => Some (NInt (if b then 1 else 0))
  | PInt z => Some (NInt z)
  | PFloat f => Some (NFloat f)
  | _ => None
  end.

Definition Qlt_bool (a b : Q) : bool := negb (Qle_bool b a).

(** [a < b] on floats; every comparison with NaN is false. *)
Definition float_ltb (a b : pyfloat) : bool :=
  match a, b with
  | NaN, _ | _, NaN => false
  | Fin x, Fin y => Qlt_bool x y
  | Inf na, Inf nb => na && negb nb
  | Inf na, Fin _ => na
  | Fin _, Inf nb => negb nb
  end.

Definition number_ltb (a b : number) : bool :=
  float_ltb (float_of_number a) (float_of_number b).

Definition type_name (v : pyval) : string :=
  match v with
  | PNone => "NoneType" | PBool _ => "bool" | PInt _ => "int"
  | PFloat _ => "float" | PStr _ => "str" | PList _ => "list"
  | PDict _ => "dict" | PDatetime _ => "datetime" | PObject _ => "object"
  | PSet _ => "set"
  end.

(** [v < bound] and [v > bound] where [bound] is an [int] or a [float]:
    a [TypeError] unless [v] is a number. *)
Definition lt_number (v : pyval) (bound : number) : result bool :=
  match as_number v with
  | Some n => Ok (number_ltb n bound)
  | None => Raise (TypeError ("'<' not supported between instances of '"
                              +:+ type_name v +:+ "' and a number"))
  end.

Definition gt_number (v : pyval) (bound : number) : result bool :=
  match as_number v with
  | Some n => Ok (number_ltb bound n)
  | None => Raise (TypeError ("'>' not supported between instances of '"
                              +:+ type_name v +:+ "' and a number"))
  end.

Definition pow10 (e : Z) : Q :=
  if (0 <=? e)%Z then inject_Z (10 ^ e) else 1 # Z.to_pos (10 ^ (- e)).

(** Rounding to the nearest integer, ties to even. *)
Definition round_half_even (q : Q) : Z :=
  let f := Qfloor q in
  let r := (q - inject_Z f)%Q in
  match Qcompare r (1 # 2) with
  | Lt => f
  | Gt => (f + 1)%Z
  | Eq => if Z.even f then f else (f + 1)%Z
  end.

(** [int(f)] for a float: truncation towards zero. *)
Definition int_of_float (f : pyfloat) : result Z :=
  match f with
  | Fin q => Ok (if Qle_bool 0 q then Qfloor q else Qceiling q)
  | Inf _ => Raise (OverflowError "cannot convert float infinity to integer")
  | NaN => Raise (ValueError "cannot convert float NaN to integer")
  end.

Fixpoint split_at (p : ascii -> bool) (l : list ascii)
  : list ascii * option (list ascii) :=
  match l with
  | [] => ([], None)
  | c :: r =>
      if p c then ([], Some r)
      else let '(a, b) := split_at p r in (c :: a, b)
  end.

Definition opt_digit_run (l : list ascii) : option (list ascii) :=
  match l with [] => Some [] | _ => digit_run l false end.

(** The decimal literals of [float()]: digits, an optional fraction and an
    optional exponent, at least one digit in the mantissa. *)
Definition decimal_of_chars (body : list ascii) : option Q :=
  let '(mant, ex) :=
    split_at (fun c => Ascii.eqb c "e" || Ascii.eqb c "E") body in
  let '(ip, fp) := split_at (fun c => Ascii.eqb c ".") mant in
  let frac := match fp with Some f => f | None => [] end in
  match ip, frac with
  | [], [] => None
  | _, _ =>
      match opt_digit_run ip, opt_digit_run frac with
      | Some i, Some f =>
          let m := digits_val (i ++ f) in
          let scale := (- Z.of_nat (length f))%Z in
          match ex with
          | None => Some (inject_Z m * pow10 scale)%Q
          | Some e =>
              let '(eneg, ebody) := split_sign e in
              match digit_run ebody false with
              | Some ed =>
                  let ev := digits_val ed in
                  Some (inject_Z m
                        * pow10 (scale + (if eneg then - ev else ev)))%Q
              | None => None
              end
          end
      | _, _ => None
      end
  end.

Definition pow2 (e : Z) : Q :=
  if (0 <=? e)%Z then inject_Z (2 ^ e) else 1 # Z.to_pos (2 ^ (- e)).

(** The float nearest to a rational: binary64, 53 bits of precision, the
    smallest exponent -1074, ties to the even mantissa; what rounds to
    [2 ^ 1024] or beyond is an infinity. *)
Definition round_double (q : Q) : pyfloat :=
  if Qeq_bool q 0 then Fin 0
  else
    let a := Qabs q in
    let e0 := (Z.log2 (Qnum a) - Z.log2 (Zpos (Qden a)))%Z in
    let e := if Qle_bool (pow2 e0) a then e0 else (e0 - 1)%Z in
    let p := Z.max (e - 52) (-1074) in
    let r := (inject_Z (round_half_even (a / pow2 p)) * pow2 p)%Q in
    if Qle_bool (pow2 1024) r then Inf (Qlt_bool q 0)
    else Fin (Qred (if Qlt_bool q 0 then - r else r)).

(** [float(s)] for a string: the literal is rounded to the nearest float. *)
Definition float_of_str (s : string) : result pyfloat :=
  let '(neg, body) := split_sign (strip_chars (chars s)) in
  let word := lower (str_of body) in
  if String.eqb word "inf" || String.eqb word "infinity" then Ok (Inf neg)
  else if String.eqb word "nan" then Ok NaN
  else match decimal_of_chars body with
       | Some q => Ok (round_double (if neg then - q else q))
       | None => Raise (ValueError ("could not convert string to float: " +:+ repr_str s))
       end.

(** *** Printing floats and datetimes *)

Fixpoint strip_zeros_rev (l : list ascii) : list ascii :=
  match l with
  | c :: r => if Ascii.eqb c "0" then strip_zeros_rev r else l
  | [] => []
  end.

Definition zeros (n : Z) : string := str_of (repeat "0"%char (Z.to_nat n)).

Definition pad_left (width : nat) (s : string) : string :=
  zeros (Z.of_nat width - Z.of_nat (String.length s)) +:+ s.

(** The significant digits of a positive rational, at most seventeen, and the
    position of its decimal point: [q = 0.d1d2...dn * 10 ^ decpt]. *)
Definition sig_digits (q : Q) : list ascii * Z :=
  let n := Qnum q in
  let d := Zpos (Qden q) in
  let e0 := (Z.of_nat (String.length (str_int n))
             - Z.of_nat (String.length (str_int d)))%Z in
  let e := if Qle_bool (pow10 e0) q then (e0 + 1)%Z else e0 in
  let m := round_half_even (q * pow10 (17 - e)) in
  let '(m, e) := if (10 ^ 17 <=? m)%Z then ((m / 10)%Z, (e + 1)%Z) else (m, e) in
  (rev (strip_zeros_rev (rev (chars (str_int m)))), e).

(** [repr(f)] in Python's short format: fixed notation when the decimal point
    falls within the digits or close to them, scientific notation otherwise. *)
Definition float_repr (f : pyfloat) : string :=
  match f with
  | NaN => "nan"
  | Inf neg => if neg then "-inf" else "inf"
  | Fin q =>
      if Qeq_bool q 0 then "0.0"
      else
        let sign := if Qlt_bool q 0 then "-" else "" in
        let '(ds, decpt) := sig_digits (Qabs q) in
        let n := Z.of_nat (length ds) in
        sign +:+
        (if ((-4 <? decpt) && (decpt <=? 16))%Z then
           if (decpt <=? 0)%Z then "0." +:+ zeros (- decpt) +:+ str_of ds
           else if (n <=? decpt)%Z then str_of ds +:+ zeros (decpt - n) +:+ ".0"
           else str_of (take (Z.to_nat decpt) ds) +:+ "."
                +:+ str_of (drop (Z.to_nat decpt) ds)
         else
           let ex := (decpt - 1)%Z in
           str_of (take 1%nat ds)
           +:+ (match drop 1%nat ds with [] => "" | r => "." +:+ str_of r end)
           +:+ "e" +:+ (if (ex <? 0)%Z then "-" else "+")
           +:+ pad_left 2%nat (str_int (Z.abs ex)))
  end.

(** [str(n)] as an f-string prints a number. *)
Definition str_number (n : number) : string :=
  match n with NInt z => str_int z | NFloat f => float_repr f end.

(** The civil date of a day count from 1970-01-01 (proleptic Gregorian). *)
Definition civil_from_days (days : Z) : Z * Z * Z :=
  let z := (days + 719468)%Z in
  let era := (z / 146097)%Z in
  let doe := (z - era * 146097)%Z in
  let yoe := ((doe - doe / 1460 + doe / 36524 - doe / 146096) / 365)%Z in
  let doy := (doe - (365 * yoe + yoe / 4 - yoe / 100))%Z in
  let mp := ((5 * doy + 2) / 153)%Z in
  let d := (doy - (153 * mp + 2) / 5 + 1)%Z in
  let m := (if mp <? 10 then mp + 3 else mp - 9)%Z in
  ((yoe + era * 400 + (if m <=? 2 then 1 else 0))%Z, m, d).

(** [datetime.isoformat()] of the UTC datetime at [t] seconds since the
    epoch, at microsecond resolution. *)
Definition isoformat (t : Q) : string :=
  let us := round_half_even (t * inject_Z 1000000) in
  let days := (us / 86400000000)%Z in
  let rest := (us mod 86400000000)%Z in
  let '(y, m, d) := civil_from_days days in
  let secs := (rest / 1000000)%Z in
  let micro := (rest mod 1000000)%Z in
  let two z := pad_left 2%nat (str_int z) in
  pad_left 4%nat (str_int y) +:+ "-" +:+ two m +:+ "-" +:+ two d +:+ "T"
  +:+ two (secs / 3600) +:+ ":" +:+ two ((secs / 60) mod 60) +:+ ":"
  +:+ two (secs mod 60)
  +:+ (if (micro =? 0)%Z then "" else "." +:+ pad_left 6%nat (str_int micro))
  +:+ "+00:00".

(** [int(v)] and [float(v)] for an object of the model. *)
Definition py_int (v : pyval) : result Z :=
  match v with
  | PBool b => Ok (if b then 1 else 0)
  | PInt z => Ok z
  | PFloat f => int_of_float f
  | PStr s => int_of_str s
  | _ => Raise (TypeError ("int() argument must be a string, a bytes-like object "
                           +:+ "or a real number, not '" +:+ type_name v +:+ "'"))
  end.

Definition py_float (v : pyval) : result pyfloat :=
  match v with
  | PBool b => Ok (Fin (if b then 1 else 0))
  | PInt z =>
      match round_double (inject_Z z) with
      | Inf _ => Raise (OverflowError "int too large to convert to float")
      | f => Ok f
      end
  | PFloat f => Ok f
  | PStr s => float_of_str s
  | _ => Raise (TypeError ("float() argument must be a string or a real number, not '"
                           +:+ type_name v +:+ "'"))
  end.

(** [isinstance(v, int)], [isinstance(v, (int, float))], [isinstance(v, bool)] *)
Definition isinstance_int (v : pyval) : bool :=
  match v with PBool _ | PInt _ => true | _ => false end.

Definition isinstance_int_or_float (v : pyval) : bool :=
  match v with PBool _ | PInt _ | PFloat _ => true | _ => false end.

Definition isinstance_bool (v : pyval) : bool :=
  match v with PBool _ => true | _ => false end.

(** *** Float arithmetic, as far as the progress estimates need it *)

(** [a - b] on floats. *)
Definition float_sub (a b : pyfloat) : pyfloat :=
  match a, b with
  | NaN, _ | _, NaN => NaN
  | Fin x, Fin y => Fin (x - y)
  | Inf s, Inf s' => if Bool.eqb s s' then NaN else Inf s
  | Inf s, Fin _ => Inf s
  | Fin _, Inf s => Inf (negb s)
  end.

(** [a / b] on floats. *)
Definition float_div (a b : pyfloat) : result pyfloat :=
  match a, b with
  | _, Fin y =>
      if Qeq_bool y 0 then Raise (ZeroDivisionError "float division by zero")
      else match a with
           | Fin x => Ok (Fin (x / y))
           | Inf s => Ok (Inf (xorb s (Qlt_bool y 0)))
           | NaN => Ok NaN
           end
  | NaN, _ | _, NaN => Ok NaN
  | Fin _, Inf _ => Ok (Fin 0)
  | Inf _, Inf _ => Ok NaN
  end.

(** [a - b] on numbers: an [int] when both are, a [float] otherwise. *)
Definition number_sub (a b : number) : number :=
  match a, b with
  | NInt x, NInt y => NInt (x - y)
  | _, _ => NFloat (float_sub (float_of_number a) (float_of_number b))
  end.

(** The seconds of [timedelta(seconds=f)]. *)
Definition timedelta_seconds (f : pyfloat) : result Q :=
  match f with
  | Fin q => Ok q
  | Inf _ => Raise (OverflowError "cannot convert float infinity to integer")
  | NaN => Raise (ValueError "cannot convert float NaN to integer")
  end.

End Py.

(** ** [hashlib.sha256], after FIPS 180-4 *)
Module Sha256.
Import Py.
Local Open Scope Z_scope.

(** [str.encode()]: UTF-8, for the characters of the model (below U+0100). *)
Definition encode_utf8 (s : string) : list Z :=
  flat_map (fun c => let n := code c in
                     if n <? 128 then [n]
                     else [Z.lor 192 (Z.shiftr n 6); Z.lor 128 (Z.land n 63)])
           (chars s).

Definition word (x : Z) : Z := Z.land x 4294967295.

Definition add (x y : Z) : Z := word (x + y).

Definition rotr (n x : Z) : Z :=
  Z.lor (Z.shiftr x n) (word (Z.shiftl x (32 - n))).

Definition Ch (x y z : Z) : Z :=
  Z.lxor (Z.land x y) (Z.land (Z.lxor x 4294967295) z).

Definition Maj (x y z : Z) : Z :=
  Z.lxor (Z.lxor (Z.land x y) (Z.land x z)) (Z.land y z).

Definition Sigma0 (x : Z) : Z := Z.lxor (Z.lxor (rotr 2 x) (rotr 13 x)) (rotr 22 x).
Definition Sigma1 (x : Z) : Z := Z.lxor (Z.lxor (rotr 6 x) (rotr 11 x)) (rotr 25 x).
Definition sigma0 (x : Z) : Z := Z.lxor (Z.lxor (rotr 7 x) (rotr 18 x)) (Z.shiftr x 3).
Definition sigma1 (x : Z) : Z := Z.lxor (Z.lxor (rotr 17 x) (rotr 19 x)) (Z.shiftr x 10).

(** The constants are the first 32 bits of the fractional parts of the
    square roots (for the initial hash value) and of the cube roots (for the
    round constants) of the first primes. *)
Definition is_prime (n : Z) : bool :=
  (1 <? n) && forallb (fun d => negb (n mod Z.of_nat d =? 0)) (seq 2 (Z.to_nat n - 2)).

Definition primes (count : nat) : list Z :=
  firstn count (filter is_prime (map Z.of_nat (seq 2 400))).

(** The integer [k]-th root of [n], bit by bit from bit [bits - 1] down. *)
Fixpoint root_bits (k : Z) (bits : nat) (n r : Z) : Z :=
  match bits with
  | O => r
  | S b =>
      let r' := r + 2 ^ Z.of_nat b in
      root_bits k b n (if r' ^ k <=? n then r' else r)
  end.

Definition fractional_bits (k p : Z) : Z :=
  word (root_bits k 40 (p * 2 ^ (32 * k)) 0).

Definition K : list Z := Eval vm_compute in map (fractional_bits 3) (primes 64).

Definition H0 : list Z := Eval vm_compute in map (fractional_bits 2) (primes 8).

(** The message, the bit [1], zeros up to 56 bytes modulo 64, and the
    length in bits on 8 bytes. *)
Definition big_endian (bytes_ : nat) (x : Z) : list Z :=
  map (fun i => Z.land (Z.shiftr x (8 * Z.of_nat i)) 255) (rev (seq 0 bytes_)).

Definition pad (message : list Z) : list Z :=
  let len := Z.of_nat (length message) in
  let zeros := Z.to_nat ((55 - len) mod 64) in
  message ++ [128] ++ repeat 0 zeros ++ big_endian 8 (8 * len).

Fixpoint words_of_bytes (bytes_ : list Z) : list Z :=
  match bytes_ with
  | a :: b :: c :: d :: r =>
      (Z.shiftl a 24 + Z.shiftl b 16 + Z.shiftl c 8 + d) :: words_of_bytes r
  | _ => []
  end.

(** One round: the working variables and the sixteen words of the message
    schedule from the current one on. *)
Definition round (st : list Z * list Z) (k : Z) : list Z * list Z :=
  match st with
  | ([a; b; c; d; e; f; g; h], w) =>
      let w0 := nth 0 w 0 in
      let t1 := add (add (add (add h (Sigma1 e)) (Ch e f g)) k) w0 in
      let t2 := add (Sigma0 a) (Maj a b c) in
      let next := add (add (add (sigma1 (nth 14 w 0)) (nth 9 w 0))
                         (sigma0 (nth 1 w 0))) w0 in
      ([add t1 t2; a; b; c; add d t1; e; f; g], tl w ++ [next])
  | _ => st
  end.

Fixpoint add_words (x y : list Z) : list Z :=
  match x, y with
  | a :: x', b :: y' => add a b :: add_words x' y'
  | _, _ => []
  end.

Definition compress (h block : list Z) : list Z :=
  add_words h (fst (fold_left round K (h, block))).

Fixpoint process (blocks : nat) (h words : list Z) : list Z :=
  match blocks with
  | O => h
  | S n => process n (compress h (firstn 16 words)) (skipn 16 words)
  end.

Definition digest_words (message : list Z) : list Z :=
  let words := words_of_bytes (pad message) in
  process (length words / 16)%nat H0 words.

Definition hex_digit (n : Z) : ascii := chr (if n <? 10 then 48 + n else 87 + n).

Definition hex_word (x : Z) : string :=
  string_of_list_ascii
    (map (fun i => hex_digit (Z.land (Z.shiftr x (4 * Z.of_nat i)) 15))
         (rev (seq 0 8))).

(** [hashlib.sha256(message).hexdigest()] *)
Definition hexdigest (message : list Z) : string :=
  String.concat "" (map hex_word (digest_words message)).

End Sha256.

(** ** [json.dumps], as the client calls it *)
Module Json.
Import Py.
Local Open Scope Z_scope.

Definition dquote : string := String "034"%char "".

Definition hex_digit (n : Z) : ascii := chr (if n <? 10 then 48 + n else 87 + n).

(** One character of a JSON string with [ensure_ascii=True]: the quote, the
    backslash and everything outside [' '..'~'] are escaped. *)
Definition escape_char (c : ascii) : string :=
  let n := code c in
  if n =? 34 then "\" +:+ dquote
  else if n =? 92 then "\\"
  else if n =? 10 then "\n"
  else if n =? 13 then "\r"
  else if n =? 9 then "\t"
  else if n =? 8 then "\b"
  else if n =? 12 then "\f"
  else if (n <? 32) || (126 <? n) then
    "\u00" +:+ String (hex_digit (n / 16)) (String (hex_digit (n mod 16)) "")
  else String c "".

Definition encode_str (s : string) : string :=
  dquote +:+ String.concat "" (map escape_char (chars s)) +:+ dquote.

Definition encode_float (f : pyfloat) : string :=
  match f with
  | NaN => "NaN"
  | Inf neg => if neg then "-Infinity" else "Infinity"
  | Fin _ => float_repr f
  end.

(** [sorted(d.items())] for [sort_keys=True]: keys are unique, so the order is
    that of the keys. *)
Fixpoint insert_item {A} (kv : string * A) (l : list (string * A)) : list (string * A) :=
  match l with
  | [] => [kv]
  | kv' :: r =>
      if String.leb (fst kv) (fst kv') then kv :: l else kv' :: insert_item kv r
  end.

Definition sort_items {A} (d : list (string * A)) : list (string * A) :=
  fold_right insert_item [] d.

Fixpoint sequence {A} (l : list (result A)) : result (list A) :=
  match l with
  | [] => Ok []
  | Ok a :: r => match sequence r with Ok r' => Ok (a :: r') | Raise e => Raise e end
  | Raise e :: _ => Raise e
  end.

(** The encoder.  [default] is the hook of [json.dumps(obj, default=...)]:
    called on an object with no JSON form, its result is encoded in turn.
    The fuel stands for the interpreter's recursion limit. *)
Fixpoint encode (fuel : nat) (default : option (pyval -> result pyval))
    (sort_keys : bool) (v : pyval) : result string :=
  match fuel with
  | O => Raise RecursionError
  | S n =>
      match v with
      | PNone => Ok "null"
      | PBool b => Ok (if b then "true" else "false")
      | PInt z => Ok (str_int z)
      | PFloat f => Ok (encode_float f)
      | PStr s => Ok (encode_str s)
      | PList l =>
          match sequence (map (encode n default sort_keys) l) with
          | Ok parts => Ok ("[" +:+ String.concat ", " parts +:+ "]")
          | Raise e => Raise e
          end
      | PDict d =>
          let items := if sort_keys then sort_items d else d in
          match sequence
                  (map (fun kv =>
                          match encode n default sort_keys (snd kv) with
                          | Ok s => Ok (encode_str (fst kv) +:+ ": " +:+ s)
                          | Raise e => Raise e
                          end) items) with
          | Ok parts => Ok ("{" +:+ String.concat ", " parts +:+ "}")
          | Raise e => Raise e
          end
      | PDatetime _ | PObject _ | PSet _ =>
          match default with
          | Some f =>
              match f v with
              | Ok v' => encode n default sort_keys v'
              | Raise e => Raise e
              end
          | None =>
              Raise (TypeError ("Object of type " +:+ type_name v
                                +:+ " is not JSON serializable"))
          end
      end
  end.

Definition recursion_limit : nat := 1000.

(** [json.dumps(v, default=default, sort_keys=sort_keys)] *)
Definition dumps (default : option (pyval -> result pyval)) (sort_keys : bool)
    (v : pyval) : result string :=
  encode recursion_limit default sort_keys v.

(** *** [json.loads] *)

(** The outcomes of the scanner. *)
Inductive scanned (A : Type) : Type :=
| Scanned (a : A) (rest : list ascii)
| StopIteration                  (* no value starts here *)
| DecodeError                    (* [json.JSONDecodeError] *)
| Fails (e : exn)                (* another exception *)
| Unmodelled                     (* an escape for a character above U+00FF *)
| NoFuel.

Arguments Scanned {A} a rest.
Arguments StopIteration {A}.
Arguments DecodeError {A}.
Arguments Fails {A} e.
Arguments Unmodelled {A}.
Arguments NoFuel {A}.

Definition is_json_space (c : ascii) : bool :=
  let n := code c in (n =? 32) || (n =? 9) || (n =? 10) || (n =? 13).

Fixpoint skip_whitespace (s : list ascii) : list ascii :=
  match s with
  | c :: r => if is_json_space c then skip_whitespace r else s
  | [] => []
  end.

Definition hex_val (c : ascii) : option Z :=
  let n := code c in
  if (48 <=? n) && (n <=? 57) then Some (n - 48)
  else if (97 <=? n) && (n <=? 102) then Some (n - 87)
  else if (65 <=? n) && (n <=? 70) then Some (n - 55)
  else None.

Definition hex4 (a b c d : ascii) : option Z :=
  match hex_val a, hex_val b, hex_val c, hex_val d with
  | Some x, Some y, Some z, Some w => Some (((x * 16 + y) * 16 + z) * 16 + w)
  | _, _, _, _ => None
  end.

(** The character of a one-letter escape. *)
Definition unescape (c : ascii) : option ascii :=
  let n := code c in
  if (n =? 34) || (n =? 92) || (n =? 47) then Some c
  else if n =? 98 then Some (chr 8)
  else if n =? 102 then Some (chr 12)
  else if n =? 110 then Some (chr 10)
  else if n =? 114 then Some (chr 13)
  else if n =? 116 then Some (chr 9)
  else None.

(** The string that starts after an opening quote (strict mode: a control
    character is an error); [acc] holds the characters read, last first. *)
Fixpoint scanstring (s : list ascii) (acc : list ascii) : scanned string :=
  match s with
  | [] => DecodeError
  | c :: r =>
      if code c =? 34 then Scanned (str_of (rev acc)) r
      else if code c =? 92 then
        match r with
        | [] => DecodeError
        | e :: r' =>
            if code e =? 117 then
              match r' with
              | h1 :: h2 :: h3 :: h4 :: r'' =>
                  match hex4 h1 h2 h3 h4 with
                  | Some n => if n <? 256 then scanstring r'' (chr n :: acc)
                              else Unmodelled
                  | None => DecodeError
                  end
              | _ => DecodeError
              end
            else
              match unescape e with
              | Some ch => scanstring r' (ch :: acc)
              | None => DecodeError
              end
        end
      else if code c <? 32 then DecodeError
      else scanstring r (c :: acc)
  end.

Fixpoint span_digits (s : list ascii) : list ascii * list ascii :=
  match s with
  | c :: r => if is_digit c then let '(d, rest) := span_digits r in (c :: d, rest)
              else ([], s)
  | [] => ([], [])
  end.

(** A number: an optional minus sign, then [0] or a run of digits that does
    not start with [0], then an optional fraction (a point and digits) and an
    optional exponent ([e] or [E], an optional sign, digits); an [int] unless
    it has a fraction or an exponent. *)
Definition match_number (s : list ascii) : scanned pyval :=
  let '(neg, s1) := match s with
                    | c :: r => if code c =? 45 then (true, r) else (false, s)
                    | [] => (false, s)
                    end in
  let integer :=
    match s1 with
    | c :: r => if code c =? 48 then Some ([c], r)
                else if is_digit c then Some (span_digits s1)
                else None
    | [] => None
    end in
  match integer with
  | None => StopIteration
  | Some (ip, s2) =>
      let '(frac, s3) :=
        match s2 with
        | c :: r => if code c =? 46 then
                      match span_digits r with
                      | ([], _) => ([], s2)
                      | (f, rest) => (f, rest)
                      end
                    else ([], s2)
        | [] => ([], s2)
        end in
      let '(ex, s4) :=
        match s3 with
        | c :: r =>
            if (code c =? 101) || (code c =? 69) then
              let '(eneg, r1) :=
                match r with
                | sg :: r' => if code sg =? 45 then (true, r')
                              else if code sg =? 43 then (false, r')
                              else (false, r)
                | [] => (false, r)
                end in
              match span_digits r1 with
              | ([], _) => (None, s3)
              | (e, rest) => (Some (eneg, e), rest)
              end
            else (None, s3)
        | [] => (None, s3)
        end in
      match frac, ex with
      | [], None =>
          if (int_max_str_digits <? length ip)%nat then
            Fails (ValueError
                     ("Exceeds the limit (4300 digits) for integer string conversion: value has "
                      +:+ str_int (Z.of_nat (length ip))
                      +:+ " digits; use sys.set_int_max_str_digits() to increase the limit"))
          else Scanned (PInt (if neg then - digits_val ip else digits_val ip)) s4
      | _, _ =>
          let m := inject_Z (digits_val (ip ++ frac)) in
          let scale := - Z.of_nat (length frac) in
          let e := match ex with
                   | Some (eneg, ed) => if eneg then - digits_val ed else digits_val ed
                   | None => 0
                   end in
          let q := (m * pow10 (scale + e))%Q in
          Scanned (PFloat (Fin (Qred (if neg then - q else q)%Q))) s4
      end
  end.

Fixpoint starts_with (word s : list ascii) : option (list ascii) :=
  match word, s with
  | [], _ => Some s
  | w :: word', c :: r => if Ascii.eqb w c then starts_with word' r else None
  | _ :: _, [] => None
  end.

(** The values that are neither a string, an object nor an array. *)
Definition scan_atom (s : list ascii) : scanned pyval :=
  match starts_with (chars "null") s with
  | Some r => Scanned PNone r
  | None =>
  match starts_with (chars "true") s with
  | Some r => Scanned (PBool true) r
  | None =>
  match starts_with (chars "false") s with
  | Some r => Scanned (PBool false) r
  | None =>
  match starts_with (chars "NaN") s with
  | Some r => Scanned (PFloat NaN) r
  | None =>
  match starts_with (chars "Infinity") s with
  | Some r => Scanned (PFloat (Inf false)) r
  | None =>
  match starts_with (chars "-Infinity") s with
  | Some r => Scanned (PFloat (Inf true)) r
  | None => match_number s
  end end end end end end.

Definition string_value (r : scanned string) : scanned pyval :=
  match r with
  | Scanned k rest => Scanned (PStr k) rest
  | StopIteration => StopIteration
  | DecodeError => DecodeError
  | Fails e => Fails e
  | Unmodelled => Unmodelled
  | NoFuel => NoFuel
  end.

(** A value that is required: [StopIteration] becomes "Expecting value". *)
Definition expecting_value (r : scanned pyval) : scanned pyval :=
  match r with StopIteration => DecodeError | other => other end.

(** [scan_once], with the loops of [JSONObject] and [JSONArray].  [depth] is
    what is left of the recursion limit; the fuel bounds the steps. *)
Fixpoint scan_once (fuel depth : nat) (s : list ascii) {struct fuel} : scanned pyval :=
  match fuel with
  | O => NoFuel
  | S fuel' =>
      match s with
      | [] => StopIteration
      | c :: r =>
          if code c =? 34 then string_value (scanstring r [])
          else if code c =? 123 then
            match depth with
            | O => Fails RecursionError
            | S depth' =>
                match skip_whitespace r with
                | c1 :: r1 =>
                    if code c1 =? 125 then Scanned (PDict []) r1
                    else scan_object fuel' depth' (c1 :: r1) []
                | [] => DecodeError
                end
            end
          else if code c =? 91 then
            match depth with
            | O => Fails RecursionError
            | S depth' =>
                match skip_whitespace r with
                | c1 :: r1 =>
                    if code c1 =? 93 then Scanned (PList []) r1
                    else scan_array fuel' depth' (c1 :: r1) []
                | [] => DecodeError
                end
            end
          else scan_atom s
      end
  end
with scan_object (fuel depth : nat) (s : list ascii) (pairs : dict pyval)
       {struct fuel} : scanned pyval :=
  match fuel with
  | O => NoFuel
  | S fuel' =>
      match s with
      | c :: r =>
          if code c =? 34 then
            match scanstring r [] with
            | Scanned k r1 =>
                match skip_whitespace r1 with
                | c2 :: r2 =>
                    if code c2 =? 58 then
                      match expecting_value
                              (scan_once fuel' depth (skip_whitespace r2)) with
                      | Scanned v r3 =>
                          let pairs' := dict_set pairs k v in
                          match skip_whitespace r3 with
                          | c4 :: r4 =>
                              if code c4 =? 125 then Scanned (PDict pairs') r4
                              else if code c4 =? 44
                              then scan_object fuel' depth (skip_whitespace r4) pairs'
                              else DecodeError
                          | [] => DecodeError
                          end
                      | other => other
                      end
                    else DecodeError
                | [] => DecodeError
                end
            | other => string_value other
            end
          else DecodeError
      | [] => DecodeError
      end
  end
with scan_array (fuel depth : nat) (s : list ascii) (values : list pyval)
       {struct fuel} : scanned pyval :=
  match fuel with
  | O => NoFuel
  | S fuel' =>
      match expecting_value (scan_once fuel' depth s) with
      | Scanned v r1 =>
          match skip_whitespace r1 with
          | c2 :: r2 =>
              if code c2 =? 93 then Scanned (PList (rev (v :: values))) r2
              else if code c2 =? 44
              then scan_array fuel' depth (skip_whitespace r2) (v :: values)
              else DecodeError
          | [] => DecodeError
          end
      | other => other
      end
  end.

(** The result of [json.loads]. *)
Inductive loaded : Type :=
| Loaded (v : pyval)
| JSONDecodeError
| LoadRaises (e : exn)
| NotModelled.

(** [json.loads(s)] *)
Definition loads (s : string) : loaded :=
  let text := chars s in
  match scan_once (2 * length text + 2) recursion_limit (skip_whitespace text) with
  | Scanned v rest =>
      match skip_whitespace rest with
      | [] => Loaded v
      | _ :: _ => JSONDecodeError   (* Extra data *)
      end
  | StopIteration | DecodeError => JSONDecodeError
  | Fails e => LoadRaises e
  | Unmodelled | NoFuel => NotModelled
  end.

End Json.

(** ** [hawk.py]: the client, its transport queue and its batch flusher *)
Module Hawk.
Import Py.
Local Open Scope Z_scope.

Record HawkConfig : Type := {
  app_name : string;
  buffer_size : Z;
  flush_interval : Q;
  auto_detect : bool;
  graceful_fallback : bool;
  thread_safe : bool;
  debug : bool
}.

(** The defaults of the dataclass. *)
Definition default_config : HawkConfig :=
  {| app_name := "python-app"; buffer_size := 100; flush_interval := 1 # 10;
     auto_detect := true; graceful_fallback := true; thread_safe := true;
     debug := false |}.

Record HawkMessage : Type := {
  method : string;
  params : dict pyval;
  message_id : option string;
  timestamp : Q
}.

(** [HawkMessage.to_jsonrpc] *)
Definition to_jsonrpc (m : HawkMessage) (app session : string) (seq : Z) : pyval :=
  PDict ([("jsonrpc", PStr "2.0"); ("method", PStr (method m));
          ("params", PDict (params m))]
         ++ match message_id m with
            | Some i => if str_truthy i then [("id", PStr i)] else []
            | None => []
            end
         ++ [("hawk_meta",
              PDict [("app_name", PStr app); ("session_id", PStr session);
                     ("sequence", PInt seq);
                     ("timestamp", PStr (isoformat (timestamp m)))])]).

(** *** [queue.Queue(maxsize)], without the waiting operations *)

Definition put_nowait {A} (maxsize : Z) (q : list A) (x : A) : option (list A) :=
  if (0 <? maxsize) && (maxsize <=? Z.of_nat (length q)) then None (* queue.Full *)
  else Some (q ++ [x]).

Definition get_nowait {A} (q : list A) : option (A * list A) :=
  match q with
  | [] => None (* queue.Empty *)
  | x :: r => Some (x, r)
  end.

(** *** The client object.  [_config] is the configuration object, which
    [hawk.configure] and [hawk.batch] change in place; [maxsize] is the
    capacity the queue [_buffer] was created with, which nothing changes.
    [stdout] and [stderr] are the lines printed so far; [_context_stack] is
    the module-level list of [hawk.py], carried with the client. *)
Record HawkClient : Type := {
  _config : HawkConfig;
  session_id : string;
  sequence : Z;
  _buffer : list HawkMessage;
  maxsize : Z;
  _shutdown : bool;
  _context_stack : list string;
  stdout : list string;
  stderr : list string
}.

(** [HawkClient(config)], created when the clock reads [now]. *)
Definition new_client (config : HawkConfig) (now : Q) : HawkClient :=
  {| _config := config;
     session_id := "sess_" +:+ str_int (if Qle_bool 0 now then Qfloor now else Qceiling now);
     sequence := 0; _buffer := []; maxsize := buffer_size config * 2;
     _shutdown := false; _context_stack := [];
     stdout := []; stderr := [] |}.

(** An assignment to an attribute of [client._config], as [hawk.configure]
    makes it: the queue keeps the capacity it was created with. *)
Definition with_config (c : HawkClient) (config : HawkConfig) : HawkClient :=
  {| _config := config; session_id := session_id c; sequence := sequence c;
     _buffer := _buffer c; maxsize := maxsize c; _shutdown := _shutdown c;
     _context_stack := _context_stack c; stdout := stdout c; stderr := stderr c |}.

Definition with_sequence (c : HawkClient) (n : Z) : HawkClient :=
  {| _config := _config c; session_id := session_id c; sequence := n;
     _buffer := _buffer c; maxsize := maxsize c; _shutdown := _shutdown c;
     _context_stack := _context_stack c; stdout := stdout c; stderr := stderr c |}.

Definition with_buffer (c : HawkClient) (b : list HawkMessage) : HawkClient :=
  {| _config := _config c; session_id := session_id c; sequence := sequence c;
     _buffer := b; maxsize := maxsize c; _shutdown := _shutdown c;
     _context_stack := _context_stack c; stdout := stdout c; stderr := stderr c |}.

Definition with_shutdown (c : HawkClient) (b : bool) : HawkClient :=
  {| _config := _config c; session_id := session_id c; sequence := sequence c;
     _buffer := _buffer c; maxsize := maxsize c; _shutdown := b;
     _context_stack := _context_stack c; stdout := stdout c; stderr := stderr c |}.

(** [print(line, flush=True)] *)
Definition print (c : HawkClient) (line : string) : HawkClient :=
  {| _config := _config c; session_id := session_id c; sequence := sequence c;
     _buffer := _buffer c; maxsize := maxsize c; _shutdown := _shutdown c;
     _context_stack := _context_stack c; stdout := stdout c ++ [line];
     stderr := stderr c |}.

(** [print(line, file=sys.stderr)] *)
Definition print_err (c : HawkClient) (line : string) : HawkClient :=
  {| _config := _config c; session_id := session_id c; sequence := sequence c;
     _buffer := _buffer c; maxsize := maxsize c; _shutdown := _shutdown c;
     _context_stack := _context_stack c; stdout := stdout c;
     stderr := stderr c ++ [line] |}.

Definition exn_str (e : exn) : string :=
  match e with
  | TypeError m | ValueError m | OverflowError m | AttributeError m
  | ZeroDivisionError m | NameError m => m
  | KeyError m => "'" +:+ m +:+ "'"
  | RecursionError => "maximum recursion depth exceeded"
  end.

Definition _get_next_sequence (c : HawkClient) : Z * HawkClient :=
  (sequence c + 1, with_sequence c (sequence c + 1)).

(** [HawkClient._json_serializer], the [default] hook of the client's
    [json.dumps] calls. *)
Definition _json_serializer (obj : pyval) : result pyval :=
  match obj with
  | PDatetime t => Ok (PStr (isoformat t))
  | PObject attrs => Ok (PDict attrs)
  | _ => Raise (TypeError ("Object of type <class '" +:+ type_name obj
                           +:+ "'> is not JSON serializable"))
  end.

(** The loop of [_flush_batch] over a batch: one sequence number and one
    envelope per message. *)
Fixpoint batch_jsonrpc (c : HawkClient) (messages : list HawkMessage)
  : list pyval * HawkClient :=
  match messages with
  | [] => ([], c)
  | msg :: r =>
      let '(n, c1) := _get_next_sequence c in
      let '(js, c2) := batch_jsonrpc c1 r in
      (to_jsonrpc msg (app_name (_config c)) (session_id c) n :: js, c2)
  end.

(** What [_flush_batch] serializes: the envelope itself for one message, the
    list of the envelopes for several. *)
Definition flush_payload (c : HawkClient) (messages : list HawkMessage)
  : pyval * HawkClient :=
  match messages with
  | [msg] =>
      let '(n, c1) := _get_next_sequence c in
      (to_jsonrpc msg (app_name (_config c)) (session_id c) n, c1)
  | _ =>
      let '(batch, c1) := batch_jsonrpc c messages in (PList batch, c1)
  end.

(** [HawkClient._flush_batch] *)
Definition _flush_batch (c : HawkClient) (messages : list HawkMessage)
  : result unit * HawkClient :=
  match messages with
  | [] => (Ok tt, c)
  | _ =>
      let '(payload, c1) := flush_payload c messages in
      match Json.dumps (Some _json_serializer) false payload with
      | Ok json_str => (Ok tt, print c1 json_str)
      | Raise e =>
          let c2 := if debug (_config c1)
                    then print_err c1 ("Hawk flush error: " +:+ exn_str e)
                    else c1 in
          if graceful_fallback (_config c2) then (Ok tt, c2) else (Raise e, c2)
      end
  end.

(** [HawkClient._send_message_async]; [now] is the clock reading that stamps
    the message. *)
Definition _send_message_async (c : HawkClient) (now : Q) (method_ : string)
    (params_ : dict pyval) (message_id_ : option string)
  : result unit * HawkClient :=
  if _shutdown c then (Ok tt, c)
  else
    let message := {| method := method_; params := params_;
                      message_id := message_id_; timestamp := now |} in
    let '(r, c1) :=
      if thread_safe (_config c) then
        match put_nowait (maxsize c) (_buffer c) message with
        | Some b => (Ok tt, with_buffer c b)
        | None =>
            (* Buffer full, drop oldest and try again *)
            match get_nowait (_buffer c) with
            | Some (_, b1) =>
                match put_nowait (maxsize c) b1 message with
                | Some b2 => (Ok tt, with_buffer c b2)
                | None => (Ok tt, with_buffer c b1)
                end
            | None => (Ok tt, c)
            end
        end
      else _flush_batch c [message] in
    match r with
    | Ok _ => (Ok tt, c1)
    | Raise e =>
        let c2 := if debug (_config c1)
                  then print_err c1 ("Hawk send error: " +:+ exn_str e)
                  else c1 in
        if graceful_fallback (_config c2) then (Ok tt, c2) else (Raise e, c2)
    end.

(** [HawkClient._send_message_sync] *)
Definition _send_message_sync (c : HawkClient) (now : Q) (method_ : string)
    (params_ : dict pyval) (message_id_ : option string)
  : result unit * HawkClient :=
  _flush_batch c [ {| method := method_; params := params_;
                      message_id := message_id_; timestamp := now |} ].

(** [HawkClient.shutdown], up to the join of the worker thread: the flag
    is set, then the queue is emptied and what it held is flushed.  The
    other threads may run between the two. *)
Definition shutdown_drain (c : HawkClient) : result unit * HawkClient :=
  match _buffer c with
  | [] => (Ok tt, c)
  | remaining => _flush_batch (with_buffer c []) remaining
  end.

Definition shutdown (c : HawkClient) : result unit * HawkClient :=
  if _shutdown c then (Ok tt, c)
  else shutdown_drain (with_shutdown c true).

(** *** The worker thread.  Its locals are [batch] and [last_flush];
    [flushes] records the arguments of its calls of [_flush_batch], oldest
    first (a trace, not a variable of the program). *)
Record worker : Type := {
  batch : list HawkMessage;
  last_flush : Q;
  flushes : list (list HawkMessage)
}.

(** The locals when [_message_worker] starts, the clock reading [now]. *)
Definition worker_start (now : Q) : worker :=
  {| batch := []; last_flush := now; flushes := [] |}.

Definition nonempty {A} (l : list A) : bool :=
  match l with [] => false | _ => true end.

(** The flush condition of the loop, for the batch at hand. *)
Definition should_flush (c : HawkClient) (w : worker)
    (batch1 : list HawkMessage) (current_time : Q) : bool :=
  (buffer_size (_config c) <=? Z.of_nat (length batch1))
  || (nonempty batch1
      && Qle_bool (flush_interval (_config c)) (current_time - last_flush w))
  || _shutdown c.

(** The body of the [while not self._shutdown] loop of [_message_worker] is
    not atomic: the other threads run between the test of the loop, the
    [get] and the flush conditions, which read [self._shutdown] again.  The
    two steps of the body follow. *)

(** [message = self._buffer.get(timeout=0.05); batch.append(message)]: the
    oldest queued message if there is one, the time-out ([Empty]) if not. *)
Definition worker_get (c : HawkClient) (w : worker) : HawkClient * worker :=
  match get_nowait (_buffer c) with
  | Some (message, rest) =>
      (with_buffer c rest,
       {| batch := batch w ++ [message]; last_flush := last_flush w;
          flushes := flushes w |})
  | None => (c, w)
  end.

(** From [# Flush conditions] to the end of the body, handler included;
    [current_time] is the clock reading. *)
Definition worker_flush (c : HawkClient) (w : worker) (current_time : Q)
  : HawkClient * worker :=
  if should_flush c w (batch w) current_time && nonempty (batch w) then
    match _flush_batch c (batch w) with
    | (Ok _, c2) =>
        (c2, {| batch := []; last_flush := current_time;
                flushes := flushes w ++ [batch w] |})
    | (Raise e, c2) =>
        (* Clear the batch to prevent infinite errors *)
        (if debug (_config c2)
         then print_err c2 ("Hawk worker error: " +:+ exn_str e)
         else c2,
         {| batch := []; last_flush := last_flush w;
            flushes := flushes w ++ [batch w] |})
    end
  else (c, w).

(** One turn of the loop during which no other thread runs: the test, the
    [get], the flush.  [None]: the loop has ended. *)
Definition worker_turn (c : HawkClient) (w : worker) (current_time : Q)
  : option (HawkClient * worker) :=
  if _shutdown c then None
  else
    let '(c1, w1) := worker_get c w in
    Some (worker_flush c1 w1 current_time).

(** [HawkClient._message_worker] over the turns whose clock readings are
    [times], no other thread running meanwhile. *)
Fixpoint _message_worker (c : HawkClient) (w : worker) (times : list Q)
  : HawkClient * worker :=
  match times with
  | [] => (c, w)
  | t :: r =>
      match worker_turn c w t with
      | Some (c', w') => _message_worker c' w' r
      | None => (c, w)
      end
  end.

(** *** The worker next to the other threads.  [at_] is where the worker
    thread stands in its loop. *)
Inductive worker_at : Type :=
| AtTest        (* about to test [not self._shutdown] *)
| AtGet         (* in the body, about to call [get] *)
| AtFlush       (* in the body, about to evaluate the flush conditions *)
| Returned.     (* the loop has ended *)

Record threads : Type := {
  shared : HawkClient;
  locals : worker;
  at_ : worker_at
}.

(** What happens next, as the scheduler decides. *)
Inductive action : Type :=
| WorkerStep (clock : Q)      (* the worker takes its next step *)
| Send (m : HawkMessage)      (* a thread calls [_send_message_async] *)
| SetShutdown                 (* [shutdown]: [self._shutdown = True] *)
| DrainAndFlush.              (* [shutdown]: the queue is emptied and flushed *)

Definition step (s : threads) (a : action) : threads :=
  match a with
  | WorkerStep clock =>
      match at_ s with
      | AtTest =>
          {| shared := shared s; locals := locals s;
             at_ := if _shutdown (shared s) then Returned else AtGet |}
      | AtGet =>
          let '(c, w) := worker_get (shared s) (locals s) in
          {| shared := c; locals := w; at_ := AtFlush |}
      | AtFlush =>
          let '(c, w) := worker_flush (shared s) (locals s) clock in
          {| shared := c; locals := w; at_ := AtTest |}
      | Returned => s
      end
  | Send m =>
      {| shared := snd (_send_message_async (shared s) (timestamp m) (method m)
                          (params m) (message_id m));
         locals := locals s; at_ := at_ s |}
  | SetShutdown =>
      {| shared := with_shutdown (shared s) true; locals := locals s; at_ := at_ s |}
  | DrainAndFlush =>
      {| shared := snd (shutdown_drain (shared s)); locals := locals s; at_ := at_ s |}
  end.

(** A run: the actions in the order the scheduler takes them. *)
Definition run (s : threads) (schedule : list action) : threads :=
  fold_left step schedule s.

(** *** The public emitters *)

Definition upper_char (c : ascii) : ascii :=
  let n := code c in
  if ((97 <=? n) && (n <=? 122)
      || (224 <=? n) && (n <=? 254) && negb (n =? 247))%Z
  then chr (n - 32) else c.

(** [str.upper()], on the letters whose capital is a code point below 256. *)
Definition upper (s : string) : string := str_of (map upper_char (chars s)).

(** [HawkClient.log]; [None] stands for an argument left at its default. *)
Definition log (c : HawkClient) (now : Q) (message level : string)
    (context : option (dict pyval)) (tags : option (list string))
    (component : option string) (kwargs : dict pyval)
  : result unit * HawkClient :=
  let params0 := [("message", PStr message); ("level", PStr (upper level));
                  ("timestamp", PStr (isoformat now))] in
  let context1 :=
    match _context_stack c with
    | [] => context
    | stack =>
        Some (dict_set (match context with Some d => d | None => [] end)
                "hawk_context" (PStr (String.concat " > " stack)))
    end in
  let params1 :=
    match context1 with
    | Some (_ :: _ as d) => dict_set params0 "context" (PDict d)
    | _ => params0
    end in
  let params2 :=
    match tags with
    | Some (_ :: _ as t) => dict_set params1 "tags" (PList (map PStr t))
    | _ => params1
    end in
  let params3 :=
    match component with
    | Some comp => if str_truthy comp then dict_set params2 "component" (PStr comp)
                   else params2
    | None => params2
    end in
  _send_message_async c now "hawk.log" (dict_update params3 kwargs) None.

(** [HawkClient.warn] and [HawkClient.error], as the advanced features call
    them: with the message alone. *)
Definition warn (c : HawkClient) (now : Q) (message : string) :=
  log c now message "WARN" None None None [].

Definition error (c : HawkClient) (now : Q) (message : string) :=
  log c now message "ERROR" None None None [].

(** The parameters of [progress] and of [event] that a call may give by
    position. *)
Definition progress_parameters : list string :=
  ["progress_id"; "label"; "current"; "total"; "unit"; "status"; "details"].

Definition event_parameters : list string :=
  ["event_type"; "title"; "message"; "severity"; "data"].

(** Python's rule for a call [f(a1, ..., an, k1=v1, ...)]: a keyword that
    names one of the parameters already given by position is a [TypeError]. *)
Definition bind_keywords (fname : string) (given_by_position : list string)
    (keywords : dict pyval) : result unit :=
  match List.find (fun p => dict_mem keywords p) given_by_position with
  | Some p => Raise (TypeError (fname +:+ "() got multiple values for argument '"
                                +:+ p +:+ "'"))
  | None => Ok tt
  end.

(** The keywords of a call [f(..., k1=v1, ..., **starred)]: a key of
    [starred] that repeats an explicit keyword is a [TypeError]. *)
Definition call_keywords (fname : string) (explicit starred : dict pyval)
  : result (dict pyval) :=
  match List.find (fun kv => dict_mem explicit (fst kv)) starred with
  | Some kv => Raise (TypeError (fname +:+ "() got multiple values for keyword argument '"
                                 +:+ fst kv +:+ "'"))
  | None => Ok (explicit ++ starred)
  end.

(** The body of [HawkClient.progress], its parameters bound. *)
Definition progress_body (c : HawkClient) (now : Q) (progress_id label : string)
    (current total : number) (unit_ status details : pyval) (kwargs : dict pyval)
  : result unit * HawkClient :=
  let params0 := [("id", PStr progress_id); ("label", PStr label);
                  ("current", PFloat (float_of_number current));
                  ("total", PFloat (float_of_number total));
                  ("status", status)] in
  let params1 := if truthy unit_ then dict_set params0 "unit" unit_ else params0 in
  let params2 := if truthy details then dict_set params1 "details" details else params1 in
  _send_message_async c now "hawk.progress" (dict_update params2 kwargs) None.

Definition keyword_or (keywords : dict pyval) (name : string) (default : pyval) : pyval :=
  match dict_get keywords name with Some v => v | None => default end.

(** A call [client.progress(progress_id, label, current, total, **keywords)]:
    the first four parameters are given by position, [unit], [status] and
    [details] are taken from the keywords or left at their defaults, and the
    other keywords go to [**kwargs]. *)
Definition progress (c : HawkClient) (now : Q) (progress_id label : string)
    (current total : number) (keywords : dict pyval)
  : result unit * HawkClient :=
  match bind_keywords "HawkClient.progress" ["progress_id"; "label"; "current"; "total"] keywords with
  | Raise e => (Raise e, c)
  | Ok _ =>
      progress_body c now progress_id label current total
        (keyword_or keywords "unit" (PStr ""))
        (keyword_or keywords "status" (PStr "in_progress"))
        (keyword_or keywords "details" PNone)
        (filter (fun kv => negb (existsb (String.eqb (fst kv)) progress_parameters))
           keywords)
  end.

(** [HawkClient.event], called as
    [client.event(event_type, title, severity=..., data=...)]. *)
Definition event (c : HawkClient) (now : Q) (event_type title : string)
    (message : option string) (severity : string) (data : option (dict pyval))
    (kwargs : dict pyval) : result unit * HawkClient :=
  let params0 := [("type", PStr event_type); ("title", PStr title);
                  ("severity", PStr severity);
                  ("timestamp", PStr (isoformat now))] in
  let params1 :=
    match message with
    | Some m => if str_truthy m then dict_set params0 "message" (PStr m) else params0
    | None => params0
    end in
  let params2 :=
    match data with
    | Some (_ :: _ as d) => dict_set params1 "data" (PDict d)
    | _ => params1
    end in
  _send_message_async c now "hawk.event" (dict_update params2 kwargs) None.

End Hawk.

(** ** [hawk_advanced.py]: [ConfigField] and [ConfigPanel] *)
Module ConfigPanel.
Import Py Hawk.
Local Open Scope Z_scope.

(** The dataclass [ConfigField].  [default] is [PNone] when not given;
    [validation_func] returns the truth value of its result, or raises. *)
Record ConfigField : Type := {
  key : string;
  field_type : string;
  description : string;
  default : pyval;
  required : bool;
  min_value : option number;
  max_value : option number;
  options : option (list string);
  restart_required : bool;
  validation_func : option (pyval -> result bool);
  category : string
}.

(** A change callback, called with [(key, old_value, new_value)]. *)
Definition callback : Type := string -> pyval -> pyval -> result unit.

(** The panel.  [files] is the file system as the panel sees it: for a path,
    the mapping that [json.dump] last wrote there.  The panel's lock is not
    modelled: no method takes it twice. *)
Record ConfigPanel : Type := {
  name : string;
  client : HawkClient;
  _fields : gmap string ConfigField;
  _values : gmap string pyval;
  _callbacks : gmap string callback;
  _categories : gset string;
  _config_file : option string;
  _auto_save : bool;
  files : gmap string (gmap string pyval)
}.

(** [ConfigPanel(name, client)] *)
Definition new_panel (name_ : string) (client_ : HawkClient) : ConfigPanel :=
  {| name := name_; client := client_; _fields := ∅; _values := ∅;
     _callbacks := ∅; _categories := ∅; _config_file := None;
     _auto_save := true; files := ∅ |}.

Definition with_client (p : ConfigPanel) (c : HawkClient) : ConfigPanel :=
  {| name := name p; client := c; _fields := _fields p; _values := _values p;
     _callbacks := _callbacks p; _categories := _categories p;
     _config_file := _config_file p; _auto_save := _auto_save p;
     files := files p |}.

Definition with_values (p : ConfigPanel) (v : gmap string pyval) : ConfigPanel :=
  {| name := name p; client := client p; _fields := _fields p; _values := v;
     _callbacks := _callbacks p; _categories := _categories p;
     _config_file := _config_file p; _auto_save := _auto_save p;
     files := files p |}.

Definition with_field (p : ConfigPanel) (f : ConfigField) : ConfigPanel :=
  {| name := name p; client := client p;
     _fields := <[key f := f]> (_fields p); _values := _values p;
     _callbacks := _callbacks p;
     _categories := {[category f]} ∪ _categories p;
     _config_file := _config_file p; _auto_save := _auto_save p;
     files := files p |}.

Definition with_file (p : ConfigPanel) (path : option string)
    (fs : gmap string (gmap string pyval)) : ConfigPanel :=
  {| name := name p; client := client p; _fields := _fields p;
     _values := _values p; _callbacks := _callbacks p;
     _categories := _categories p; _config_file := path;
     _auto_save := _auto_save p; files := fs |}.

(** [value in field.options], the options being strings. *)
Definition in_options (value : pyval) (opts : list string) : bool :=
  match value with
  | PStr s => existsb (String.eqb s) opts
  | _ => false
  end.

Definition options_truthy (f : ConfigField) : bool :=
  match options f with Some (_ :: _) => true | _ => false end.

Definition options_list (f : ConfigField) : list string :=
  match options f with Some l => l | None => [] end.

(** The [if]/[elif] chain under the comment [# Type validation] of
    [_validate_value]: the value the later checks see, or [None] where the
    source returns [False]. *)
Definition type_validation (field : ConfigField) (value : pyval) : option pyval :=
  if String.eqb (field_type field) "integer" && negb (isinstance_int value) then
    match py_int value with
    | Ok z => Some (PInt z)
    | Raise _ => None
    end
  else if String.eqb (field_type field) "float"
          && negb (isinstance_int_or_float value) then
    match py_float value with
    | Ok f => Some (PFloat f)
    | Raise _ => None
    end
  else if String.eqb (field_type field) "boolean" && negb (isinstance_bool value) then
    match value with
    | PStr s => Some (PBool (existsb (String.eqb (lower s)) ["true"; "1"; "yes"; "on"]))
    | _ => None
    end
  else if String.eqb (field_type field) "enum" && options_truthy field
          && negb (in_options value (options_list field)) then None
  else Some value.

(** The two tests under [# Range validation]; a comparison that raises is
    caught by the enclosing [except Exception] and the value is refused. *)
Definition range_validation (field : ConfigField) (value : pyval) : bool :=
  match min_value field with
  | Some lo =>
      match lt_number value lo with
      | Ok below => negb below
      | Raise _ => false
      end
  | None => true
  end
  &&
  match max_value field with
  | Some hi =>
      match gt_number value hi with
      | Ok above => negb above
      | Raise _ => false
      end
  | None => true
  end.

(** The test under [# Custom validation]. *)
Definition custom_validation (field : ConfigField) (value : pyval) : bool :=
  match validation_func field with
  | Some f =>
      match f value with
      | Ok accepted => accepted
      | Raise _ => false
      end
  | None => true
  end.

(** [ConfigPanel._validate_value] *)
Definition _validate_value (field : ConfigField) (value : pyval) : bool :=
  match type_validation field value with
  | None => false
  | Some value' =>
      if negb (range_validation field value') then false
      else if negb (custom_validation field value') then false
      else true
  end.

(** [ConfigPanel._send_config_field] *)
Definition _send_config_field (p : ConfigPanel) (now : Q) (field : ConfigField)
  : result unit * ConfigPanel :=
  let params0 := [("key", PStr (key field)); ("type", PStr (field_type field));
                  ("description", PStr (description field));
                  ("default", default field);
                  ("required", PBool (required field));
                  ("category", PStr (category field));
                  ("panel", PStr (name p))] in
  let params1 := match min_value field with
                 | Some lo => dict_set params0 "min" (number_val lo)
                 | None => params0
                 end in
  let params2 := match max_value field with
                 | Some hi => dict_set params1 "max" (number_val hi)
                 | None => params1
                 end in
  let params3 := if options_truthy field
                 then dict_set params2 "options" (PList (map PStr (options_list field)))
                 else params2 in
  let params4 := if restart_required field
                 then dict_set params3 "restart_required" (PBool true)
                 else params3 in
  let params5 := match _values p !! key field with
                 | Some v => dict_set params4 "value" v
                 | None => params4
                 end in
  let '(r, c) := _send_message_async (client p) now "hawk.config" params5 None in
  (r, with_client p c).

(** [ConfigPanel._send_config_update] *)
Definition _send_config_update (p : ConfigPanel) (now : Q) (key_ : string)
    (value : pyval) : result unit * ConfigPanel :=
  let '(r, c) := _send_message_async (client p) now "hawk.config"
                   [("key", PStr key_); ("value", value); ("panel", PStr (name p))]
                   None in
  (r, with_client p c).

(** [ConfigPanel._save_to_file]; the write itself is taken to succeed. *)
Definition _save_to_file (p : ConfigPanel) : ConfigPanel :=
  match _config_file p with
  | None => p
  | Some path => with_file p (Some path) (<[path := _values p]> (files p))
  end.

(** [ConfigPanel.save_to_file] *)
Definition save_to_file (p : ConfigPanel) (filename : string) : ConfigPanel :=
  _save_to_file (with_file p (Some filename) (files p)).

(** [ConfigPanel.add_field]: the arguments are those of the dataclass, so
    the field is given as the record the method builds first. *)
Definition add_field (p : ConfigPanel) (now : Q) (field : ConfigField)
  : result ConfigField * ConfigPanel :=
  let p1 := with_field p field in
  (* Set default value if not already set *)
  let p2 :=
    match _values p1 !! key field, default field with
    | Some _, _ => p1
    | None, PNone => p1
    | None, d => with_values p1 (<[key field := d]> (_values p1))
    end in
  match _send_config_field p2 now field with
  | (Ok _, p3) => (Ok field, p3)
  | (Raise e, p3) => (Raise e, p3)
  end.

(** [ConfigPanel.set_value] *)
Definition set_value (p : ConfigPanel) (now : Q) (key_ : string) (value : pyval)
    (validate : bool) : result bool * ConfigPanel :=
  match _fields p !! key_ with
  | None => (Raise (ValueError ("Unknown configuration key: " +:+ key_)), p)
  | Some field =>
      if validate && negb (_validate_value field value) then (Ok false, p)
      else
        let old_value := match _values p !! key_ with Some v => v | None => PNone end in
        let p1 := with_values p (<[key_ := value]> (_values p)) in
        match _send_config_update p1 now key_ value with
        | (Raise e, p2) => (Raise e, p2)
        | (Ok _, p2) =>
            let '(r, p3) :=
              match _callbacks p2 !! key_ with
              | Some cb =>
                  match cb key_ old_value value with
                  | Ok _ => (Ok tt, p2)
                  | Raise e =>
                      let '(r, c) :=
                        error (client p2) now
                          ("Config callback error for " +:+ key_ +:+ ": "
                           +:+ exn_str e) in
                      (r, with_client p2 c)
                  end
              | None => (Ok tt, p2)
              end in
            match r with
            | Raise e => (Raise e, p3)
            | Ok _ =>
                let p4 := if _auto_save p3 then _save_to_file p3 else p3 in
                (Ok true, p4)
            end
        end
  end.

(** [ConfigPanel.get_value] *)
Definition get_value (p : ConfigPanel) (key_ : string) (default_ : pyval) : pyval :=
  match _values p !! key_ with
  | Some v => v
  | None => default_
  end.

(** [ConfigPanel.on_change] *)
Definition on_change (p : ConfigPanel) (key_ : string) (cb : callback) : ConfigPanel :=
  {| name := name p; client := client p; _fields := _fields p;
     _values := _values p; _callbacks := <[key_ := cb]> (_callbacks p);
     _categories := _categories p; _config_file := _config_file p;
     _auto_save := _auto_save p; files := files p |}.

End ConfigPanel.

(** ** [hawk_advanced.py]: [WidgetConfig], the widgets and [Dashboard] *)
Module Dashboard.
Import Py Hawk.
Local Open Scope Z_scope.

(** The dataclass [WidgetConfig]. *)
Record WidgetConfig : Type := {
  widget_id : string;
  title : string;
  widget_type : string;
  refresh_rate : Q;
  layout : dict Z;
  enabled : bool
}.

(** The layout that [__post_init__] gives when none is passed, which is also
    the constant [_add_widget] compares with. *)
Definition default_layout : dict Z :=
  [("row", 0); ("col", 0); ("width", 4); ("height", 3)].

(** [WidgetConfig(widget_id=..., ..., layout=layout)], [__post_init__]
    included; [enabled] keeps its default. *)
Definition new_config (widget_id_ title_ widget_type_ : string) (refresh_rate_ : Q)
    (layout_ : option (dict Z)) : WidgetConfig :=
  {| widget_id := widget_id_; title := title_; widget_type := widget_type_;
     refresh_rate := refresh_rate_;
     layout := match layout_ with Some l => l | None => default_layout end;
     enabled := true |}.

(** The subclasses of [DashboardWidget], with the attributes they add. *)
Inductive widget_class : Type :=
| MetricWidget (unit_ : string)
| StatusWidget
| ChartWidget (chart_type : string)
| TableWidget
| CustomWidget.

(** A widget.  [data_func] is the caller's function: it is given the clock
    reading of its call and returns a value or raises. *)
Record DashboardWidget : Type := {
  config : WidgetConfig;
  data_func : Q -> result pyval;
  class : widget_class
}.

Definition with_layout (w : DashboardWidget) (l : dict Z) : DashboardWidget :=
  {| config := {| widget_id := widget_id (config w); title := title (config w);
                  widget_type := widget_type (config w);
                  refresh_rate := refresh_rate (config w); layout := l;
                  enabled := enabled (config w) |};
     data_func := data_func w; class := class w |}.

(** [DashboardWidget.__init__]: [layout_kwargs] are the keyword arguments left
    over from the [add_*] call. *)
Definition new_widget (widget_id_ title_ widget_type_ : string)
    (data_func_ : Q -> result pyval) (refresh_rate_ : Q)
    (layout_kwargs : dict Z) (class_ : widget_class) : DashboardWidget :=
  let layout_ := match layout_kwargs with
                 | [] => [("width", 4); ("height", 3)]
                 | _ => layout_kwargs
                 end in
  {| config := new_config widget_id_ title_ widget_type_ refresh_rate_ (Some layout_);
     data_func := data_func_; class := class_ |}.

(** [get_data] of each subclass. *)
Definition get_data (w : DashboardWidget) (now : Q) : result pyval :=
  match class w with
  | MetricWidget unit_ =>
      match data_func w now with
      | Ok value => Ok (PDict [("value", value); ("unit", PStr unit_);
                               ("timestamp", PStr (isoformat now))])
      | Raise e => Raise e
      end
  | ChartWidget chart_type =>
      match data_func w now with
      | Ok (PDict data) => Ok (PDict (dict_set data "chart_type" (PStr chart_type)))
      | Ok other =>
          Raise (TypeError ("'" +:+ type_name other
                            +:+ "' object does not support item assignment"))
      | Raise e => Raise e
      end
  | StatusWidget | TableWidget | CustomWidget => data_func w now
  end.

Record refresh_stat : Type := {
  last_refresh : Q;
  refresh_duration : Q;
  refresh_count : Z
}.

(** The dashboard.  [started] lists the widgets whose refresh thread was
    started, oldest first: a thread is not an entry of [_refresh_threads], it
    runs on when the entry is deleted. *)
Record Dashboard : Type := {
  name : string;
  client : HawkClient;
  _widgets : gmap string DashboardWidget;
  _refresh_threads : gset string;
  _shutdown : bool;
  _next_row : Z;
  _next_col : Z;
  _max_cols : Z;
  _refresh_stats : gmap string refresh_stat;
  started : list DashboardWidget
}.

(** [Dashboard(name, client)] *)
Definition new_dashboard (name_ : string) (client_ : HawkClient) : Dashboard :=
  {| name := name_; client := client_; _widgets := ∅; _refresh_threads := ∅;
     _shutdown := false; _next_row := 0; _next_col := 0; _max_cols := 12;
     _refresh_stats := ∅; started := [] |}.

Definition with_client (d : Dashboard) (c : HawkClient) : Dashboard :=
  {| name := name d; client := c; _widgets := _widgets d;
     _refresh_threads := _refresh_threads d; _shutdown := _shutdown d;
     _next_row := _next_row d; _next_col := _next_col d;
     _max_cols := _max_cols d; _refresh_stats := _refresh_stats d;
     started := started d |}.

Definition with_cursor (d : Dashboard) (row col : Z) : Dashboard :=
  {| name := name d; client := client d; _widgets := _widgets d;
     _refresh_threads := _refresh_threads d; _shutdown := _shutdown d;
     _next_row := row; _next_col := col;
     _max_cols := _max_cols d; _refresh_stats := _refresh_stats d;
     started := started d |}.

Definition with_widgets (d : Dashboard) (ws : gmap string DashboardWidget)
    (ts : gset string) (st : list DashboardWidget) : Dashboard :=
  {| name := name d; client := client d; _widgets := ws;
     _refresh_threads := ts; _shutdown := _shutdown d;
     _next_row := _next_row d; _next_col := _next_col d;
     _max_cols := _max_cols d; _refresh_stats := _refresh_stats d;
     started := st |}.

Definition with_stats (d : Dashboard) (s : gmap string refresh_stat) : Dashboard :=
  {| name := name d; client := client d; _widgets := _widgets d;
     _refresh_threads := _refresh_threads d; _shutdown := _shutdown d;
     _next_row := _next_row d; _next_col := _next_col d;
     _max_cols := _max_cols d; _refresh_stats := s; started := started d |}.

(** [Dashboard._auto_layout] *)
Definition _auto_layout (d : Dashboard) (width height : Z) : dict Z * Dashboard :=
  let d1 := if _max_cols d <? _next_col d + width
            then with_cursor d (_next_row d + height) 0
            else d in
  ([("row", _next_row d1); ("col", _next_col d1); ("width", width);
    ("height", height)],
   with_cursor d1 (_next_row d1) (_next_col d1 + width)).

(** [Dashboard._send_widget_update]; [data] is [PNone] when the argument is
    left out. *)
Definition _send_widget_update (d : Dashboard) (widget : DashboardWidget)
    (data : pyval) (now : Q) : result unit * Dashboard :=
  let data1 := match data with
               | PNone => get_data widget now
               | _ => Ok data
               end in
  match data1 with
  | Raise e => (Raise e, d)
  | Ok data2 =>
      let '(r, c) :=
        _send_message_async (client d) now "hawk.dashboard"
          [("widget_id", PStr (widget_id (config widget)));
           ("type", PStr (widget_type (config widget)));
           ("title", PStr (title (config widget)));
           ("data", data2);
           ("layout", PDict (map (fun kv => (fst kv, PInt (snd kv)))
                               (layout (config widget))));
           ("dashboard", PStr (name d))] None in
      (r, with_client d c)
  end.

(** [Dashboard._add_widget]: the result is the widget as the dashboard keeps
    it, its layout assigned where the test for the default layout holds. *)
Definition _add_widget (d : Dashboard) (widget : DashboardWidget) (now : Q)
  : result DashboardWidget * Dashboard :=
  (* Auto-layout if not specified *)
  let placed :=
    if dict_eqb (layout (config widget)) default_layout then
      match dict_get (layout (config widget)) "width",
            dict_get (layout (config widget)) "height" with
      | Some width, Some height =>
          let '(l, d1) := _auto_layout d width height in
          Ok (with_layout widget l, d1)
      | _, _ => Raise (KeyError "width")
      end
    else Ok (widget, d) in
  match placed with
  | Raise e => (Raise e, d)
  | Ok (widget1, d1) =>
      let id := widget_id (config widget1) in
      (* Start refresh thread *)
      let d2 :=
        if Qlt_bool 0 (refresh_rate (config widget1))
        then with_widgets d1 (<[id := widget1]> (_widgets d1))
               ({[id]} ∪ _refresh_threads d1) (started d1 ++ [widget1])
        else with_widgets d1 (<[id := widget1]> (_widgets d1))
               (_refresh_threads d1) (started d1) in
      (* Send initial widget creation *)
      match _send_widget_update d2 widget1 PNone now with
      | (Ok _, d3) => (Ok widget1, d3)
      | (Raise e, d3) => (Raise e, d3)
      end
  end.

(** [Dashboard.add_metric], [add_status], [add_chart], [add_table] and
    [add_custom]; the refresh period is given, not defaulted. *)
Definition add_metric (d : Dashboard) (now : Q) (widget_id_ title_ : string)
    (data_func_ : Q -> result pyval) (unit_ : string) (refresh : Q)
    (layout_kwargs : dict Z) :=
  _add_widget d (new_widget widget_id_ title_ "gauge" data_func_ refresh
                   layout_kwargs (MetricWidget unit_)) now.

Definition add_status (d : Dashboard) (now : Q) (widget_id_ title_ : string)
    (check_func : Q -> result pyval) (refresh : Q) (layout_kwargs : dict Z) :=
  _add_widget d (new_widget widget_id_ title_ "status_grid" check_func refresh
                   layout_kwargs StatusWidget) now.

Definition add_chart (d : Dashboard) (now : Q) (widget_id_ title_ : string)
    (data_func_ : Q -> result pyval) (chart_type : string) (refresh : Q)
    (layout_kwargs : dict Z) :=
  _add_widget d (new_widget widget_id_ title_ "metric_chart" data_func_ refresh
                   layout_kwargs (ChartWidget chart_type)) now.

Definition add_table (d : Dashboard) (now : Q) (widget_id_ title_ : string)
    (data_func_ : Q -> result pyval) (refresh : Q) (layout_kwargs : dict Z) :=
  _add_widget d (new_widget widget_id_ title_ "table" data_func_ refresh
                   layout_kwargs TableWidget) now.

Definition add_custom (d : Dashboard) (now : Q) (widget_id_ title_ widget_type_ : string)
    (data_func_ : Q -> result pyval) (refresh : Q) (layout_kwargs : dict Z) :=
  _add_widget d (new_widget widget_id_ title_ widget_type_ data_func_ refresh
                   layout_kwargs CustomWidget) now.

(** [Dashboard.remove_widget] *)
Definition remove_widget (d : Dashboard) (widget_id_ : string) : Dashboard :=
  with_widgets d (delete widget_id_ (_widgets d))
    (_refresh_threads d ∖ {[widget_id_]}) (started d).

(** [Dashboard.shutdown], up to the joins. *)
Definition shutdown (d : Dashboard) : Dashboard :=
  {| name := name d; client := client d; _widgets := _widgets d;
     _refresh_threads := _refresh_threads d; _shutdown := true;
     _next_row := _next_row d; _next_col := _next_col d;
     _max_cols := _max_cols d; _refresh_stats := _refresh_stats d;
     started := started d |}.

(** [Dashboard.get_stats]: the widget count and the thread count. *)
Definition get_stats (d : Dashboard) : nat * nat :=
  (size (_widgets d), size (_refresh_threads d)).

(** What one turn of the loop of [_refresh_worker] comes to. *)
Inductive turn : Type :=
| Continues (d : Dashboard)       (* the body ran; the thread sleeps, then tests again *)
| Ends                            (* the loop condition is false: the thread returns *)
| Dies (e : exn) (d : Dashboard). (* an exception left the handler *)

(** One turn of [while not self._shutdown and widget.config.enabled] in
    [_refresh_worker]: [start_time] and [end_time] are the clock readings
    before the data is fetched and after it is sent. *)
Definition refresh_turn (d : Dashboard) (widget : DashboardWidget)
    (start_time end_time : Q) : turn :=
  if negb (_shutdown d) && enabled (config widget) then
    let attempt :=
      match get_data widget start_time with
      | Raise e => (Raise e, d)
      | Ok data => _send_widget_update d widget data start_time
      end in
    match attempt with
    | (Ok _, d1) =>
        let id := widget_id (config widget) in
        let count := match _refresh_stats d1 !! id with
                     | Some s => refresh_count s
                     | None => 0
                     end in
        Continues (with_stats d1
                     (<[id := {| last_refresh := end_time;
                                 refresh_duration := end_time - start_time;
                                 refresh_count := count + 1 |}]>
                        (_refresh_stats d1)))
    | (Raise e, d1) =>
        (* Log error but don't crash *)
        match error (client d1) end_time
                ("Widget refresh error: " +:+ widget_id (config widget) +:+ ": "
                 +:+ exn_str e) with
        | (Ok _, c) => Continues (with_client d1 c)
        | (Raise e', c) => Dies e' (with_client d1 c)
        end
    end
  else Ends.

(** [Dashboard._refresh_worker] over the turns whose clock readings are
    [times]: the dashboard as the thread leaves it, and whether the thread is
    still in its loop. *)
Fixpoint _refresh_worker (d : Dashboard) (widget : DashboardWidget)
    (times : list (Q * Q)) : Dashboard * bool :=
  match times with
  | [] => (d, true)
  | (t0, t1) :: r =>
      match refresh_turn d widget t0 t1 with
      | Continues d' => _refresh_worker d' widget r
      | Ends => (d, false)
      | Dies _ d' => (d', false)
      end
  end.

End Dashboard.

(** ** [hawk_advanced.py]: [ProgressTracker] *)
Module ProgressTracker.
Import Py Hawk.
Local Open Scope Z_scope.

(** The dictionary kept for one operation; the last three keys are set by
    [complete]. *)
Record progress_data : Type := {
  id : string;
  label : string;
  total : number;
  current : number;
  unit_ : string;
  start_time : Q;
  last_update : Q;
  parent_id : option string;
  children : gset string;
  estimated_completion : option string;
  end_time : option Q;
  success : option bool;
  duration : option Q
}.

(** The tracker.  [_lock] tells whether [self._lock], a [threading.Lock], is
    held. *)
Record ProgressTracker : Type := {
  client : HawkClient;
  _active_progress : gmap string progress_data;
  _progress_history : gmap string progress_data;
  _lock : bool
}.

(** [ProgressTracker(client)] *)
Definition new_tracker (client_ : HawkClient) : ProgressTracker :=
  {| client := client_; _active_progress := ∅; _progress_history := ∅;
     _lock := false |}.

Definition with_client (t : ProgressTracker) (c : HawkClient) : ProgressTracker :=
  {| client := c; _active_progress := _active_progress t;
     _progress_history := _progress_history t; _lock := _lock t |}.

Definition with_lock (t : ProgressTracker) (held : bool) : ProgressTracker :=
  {| client := client t; _active_progress := _active_progress t;
     _progress_history := _progress_history t; _lock := held |}.

Definition with_active (t : ProgressTracker) (a : gmap string progress_data)
  : ProgressTracker :=
  {| client := client t; _active_progress := a;
     _progress_history := _progress_history t; _lock := _lock t |}.

Definition with_history (t : ProgressTracker) (h : gmap string progress_data)
  : ProgressTracker :=
  {| client := client t; _active_progress := _active_progress t;
     _progress_history := h; _lock := _lock t |}.

(** How a call of a method ends, for the one thread that makes it. *)
Inductive outcome : Type :=
| Returns (t : ProgressTracker)
| Raises (e : exn) (t : ProgressTracker)
| Blocks (t : ProgressTracker)  (* the thread waits for a lock that is never released *)
| OutOfFuel.

Definition add_child (pd : progress_data) (child : string) : progress_data :=
  {| id := id pd; label := label pd; total := total pd; current := current pd;
     unit_ := unit_ pd; start_time := start_time pd; last_update := last_update pd;
     parent_id := parent_id pd; children := {[child]} ∪ children pd;
     estimated_completion := estimated_completion pd; end_time := end_time pd;
     success := success pd; duration := duration pd |}.

(** The result of the emitter, as the outcome of the method that ends with
    it. *)
Definition after_emit (t : ProgressTracker) (r : result unit * HawkClient) : outcome :=
  match r with
  | (Ok _, c) => Returns (with_client t c)
  | (Raise e, c) => Raises e (with_client t c)
  end.

(** [ProgressTracker.start] *)
Definition start (t : ProgressTracker) (now : Q) (progress_id label_ : string)
    (total_ : number) (unit__ : string) (parent_id_ : option string) : outcome :=
  if _lock t then Blocks t
  else
    let data := {| id := progress_id; label := label_; total := total_;
                   current := NInt 0; unit_ := unit__; start_time := now;
                   last_update := now; parent_id := parent_id_; children := ∅;
                   estimated_completion := None; end_time := None;
                   success := None; duration := None |} in
    let active1 := <[progress_id := data]> (_active_progress t) in
    let active2 :=
      match parent_id_ with
      | Some parent =>
          if str_truthy parent then
            match active1 !! parent with
            | Some pd => <[parent := add_child pd progress_id]> active1
            | None => active1
            end
          else active1
      | None => active1
      end in
    let t1 := with_active t active2 in
    (* Send initial progress *)
    after_emit t1
      (progress (client t1) now progress_id label_ (NInt 0) total_
         [("unit", PStr unit__); ("status", PStr "pending")]).

(** The estimate of [update]: the seconds left at the rate seen so far, or
    [None] where the source computes no estimate. *)
Definition eta_seconds (pd : progress_data) (now : Q) (current_ : number)
  : result (option Q) :=
  let elapsed := (now - start_time pd)%Q in
  if Qlt_bool 0 elapsed && number_ltb (NInt 0) current_ then
    match float_div (float_of_number current_) (Fin elapsed) with
    | Raise e => Raise e
    | Ok rate =>
        let remaining := number_sub (total pd) current_ in
        if float_ltb (Fin 0) rate then
          match float_div (float_of_number remaining) rate with
          | Raise e => Raise e
          | Ok secs =>
              match timedelta_seconds secs with
              | Ok q => Ok (Some q)
              | Raise e => Raise e
              end
          end
        else Ok None
    end
  else Ok None.

Definition updated (pd : progress_data) (now : Q) (current_ : number)
    (estimate : option string) : progress_data :=
  {| id := id pd; label := label pd; total := total pd; current := current_;
     unit_ := unit_ pd; start_time := start_time pd; last_update := now;
     parent_id := parent_id pd; children := children pd;
     estimated_completion := estimate; end_time := end_time pd;
     success := success pd; duration := duration pd |}.

(** [ProgressTracker.update]: [now] is the reading of [time.time()] and
    [now_dt] that of [datetime.now(timezone.utc)]. *)
Definition update (t : ProgressTracker) (now now_dt : Q) (progress_id : string)
    (current_ : number) (details : option string) : outcome :=
  if _lock t then Blocks t
  else
    match _active_progress t !! progress_id with
    | None => Returns t
    | Some pd0 =>
        (* Calculate progress rate and estimate completion *)
        match eta_seconds pd0 now current_ with
        | Raise e =>
            Raises e (with_active t
                        (<[progress_id := updated pd0 now current_
                                            (estimated_completion pd0)]>
                           (_active_progress t)))
        | Ok estimate =>
            let pd := updated pd0 now current_
                        match estimate with
                        | Some secs => Some (isoformat (now_dt + secs))
                        | None => estimated_completion pd0
                        end in
            let t1 := with_active t (<[progress_id := pd]> (_active_progress t)) in
            (* Send progress update *)
            let details1 :=
              match details with
              | Some d => if str_truthy d then d
                          else "Progress: " +:+ str_number current_ +:+ "/"
                               +:+ str_number (total pd)
              | None => "Progress: " +:+ str_number current_ +:+ "/"
                        +:+ str_number (total pd)
              end in
            let params0 := [("current", number_val current_);
                            ("details", PStr details1)] in
            let params1 :=
              match estimated_completion pd with
              | Some e => if str_truthy e
                          then dict_set params0 "estimated_completion" (PStr e)
                          else params0
              | None => params0
              end in
            match call_keywords "hawk.HawkClient.progress" [("unit", PStr (unit_ pd))] params1 with
            | Raise e => Raises e t1
            | Ok keywords =>
                after_emit t1
                  (progress (client t1) now progress_id (label pd) current_
                     (total pd) keywords)
            end
        end
    end.

Definition completed (pd : progress_data) (now : Q) (success_ : bool) : progress_data :=
  {| id := id pd; label := label pd; total := total pd; current := current pd;
     unit_ := unit_ pd; start_time := start_time pd; last_update := last_update pd;
     parent_id := parent_id pd; children := children pd;
     estimated_completion := estimated_completion pd; end_time := Some now;
     success := Some success_; duration := Some (now - start_time pd)%Q |}.

(** The loop [for child_id in list(progress_data["children"])] of
    [complete], over the recursive call [self.complete(child_id, success)]. *)
Fixpoint complete_children (call : ProgressTracker -> string -> outcome)
    (t : ProgressTracker) (child_ids : list string) : outcome :=
  match child_ids with
  | [] => Returns t
  | child_id :: r =>
      match call t child_id with
      | Returns t1 => complete_children call t1 r
      | other => other
      end
  end.

(** [ProgressTracker.complete]; the fuel bounds the depth of the recursion.
    An exception that leaves the [with self._lock:] block releases the
    lock. *)
Fixpoint complete (fuel : nat) (t : ProgressTracker) (now : Q)
    (progress_id : string) (success_ : bool) (final_message : option string)
  : outcome :=
  match fuel with
  | O => OutOfFuel
  | S fuel' =>
      if _lock t then Blocks t
      else
        let t0 := with_lock t true in
        match _active_progress t0 !! progress_id with
        | None => Returns (with_lock t0 false)
        | Some pd0 =>
            (* Complete all children first *)
            match complete_children
                    (fun t' child_id => complete fuel' t' now child_id success_ None)
                    t0 (elements (children pd0)) with
            | Returns t1 =>
                (* Store in history *)
                let pd := completed pd0 now success_ in
                let t2 := with_lock
                            (with_active
                               (with_history t1
                                  (<[progress_id := pd]> (_progress_history t1)))
                               (delete progress_id (_active_progress t1)))
                            false in
                (* Send completion *)
                let status := if success_ then "completed" else "error" in
                let details :=
                  match final_message with
                  | Some m => if str_truthy m then m
                              else if success_ then "Operation completed"
                                   else "Operation failed"
                  | None => if success_ then "Operation completed"
                            else "Operation failed"
                  end in
                after_emit t2
                  (progress (client t2) now progress_id (label pd) (total pd)
                     (total pd)
                     [("unit", PStr (unit_ pd)); ("status", PStr status);
                      ("details", PStr details)])
            | Raises e t1 => Raises e (with_lock t1 false)
            | Blocks t1 => Blocks t1
            | OutOfFuel => OutOfFuel
            end
        end
  end.

(** [ProgressTracker.get_active_progress]: the identifiers, in the order of
    the keys of the model. *)
Definition get_active_progress (t : ProgressTracker) : result (list string) :=
  Ok (map fst (map_to_list (_active_progress t))).

End ProgressTracker.

(** ** [hawk_advanced.py]: [AuditLogger] *)
Module AuditLogger.
Import Py Hawk.
Local Open Scope Z_scope.

(** The file system as the logger sees it: the text of the files, and the
    paths that cannot be opened for appending. *)
Record file_system : Type := {
  contents : gmap string string;
  read_only : gset string
}.

(** The logger.  Its lock is taken by [_log_audit_event] alone, which calls
    no method of the logger while it holds it, so it is left out. *)
Record AuditLogger : Type := {
  client : HawkClient;
  audit_file : option string;
  _session_id : string;
  _sequence : Z;
  fs : file_system
}.

(** [AuditLogger(audit_file, client)]: [session] is the value of
    [str(uuid.uuid4())]. *)
Definition new_logger (audit_file_ : option string) (client_ : HawkClient)
    (session : string) (fs_ : file_system) : AuditLogger :=
  {| client := client_;
     audit_file := match audit_file_ with
                   | Some path => if str_truthy path then Some path else None
                   | None => None
                   end;
     _session_id := session; _sequence := 0; fs := fs_ |}.

Definition with_client (l : AuditLogger) (c : HawkClient) : AuditLogger :=
  {| client := c; audit_file := audit_file l; _session_id := _session_id l;
     _sequence := _sequence l; fs := fs l |}.

Definition with_sequence (l : AuditLogger) (n : Z) : AuditLogger :=
  {| client := client l; audit_file := audit_file l; _session_id := _session_id l;
     _sequence := n; fs := fs l |}.

Definition with_fs (l : AuditLogger) (f : file_system) : AuditLogger :=
  {| client := client l; audit_file := audit_file l; _session_id := _session_id l;
     _sequence := _sequence l; fs := f |}.

(** [hashlib.sha256(text.encode()).hexdigest()[:16]] *)
Definition checksum_of (text : string) : string :=
  str_of (firstn 16 (chars (Sha256.hexdigest (Sha256.encode_utf8 text)))).

(** [open(path, 'a')] followed by [f.write(text)]: the new file system, or
    the text of the [OSError]. *)
Definition append_to (f : file_system) (path text : string) : file_system + string :=
  if decide (path ∈ read_only f)
  then inr ("[Errno 13] Permission denied: '" +:+ path +:+ "'")
  else inl {| contents := <[path := match contents f !! path with
                                    | Some old => old +:+ text
                                    | None => text
                                    end]> (contents f);
              read_only := read_only f |}.

(** The event of [_log_audit_event] before its checksum is set. *)
Definition audit_event (l : AuditLogger) (now : Q) (source_ip event_type : string)
    (data : dict pyval) : dict pyval :=
  [("timestamp", PStr (isoformat now));
   ("session_id", PStr (_session_id l));
   ("sequence", PInt (_sequence l + 1));
   ("event_type", PStr event_type);
   ("data", PDict data);
   ("source_ip", PStr source_ip);
   ("checksum", PNone)].

(** [AuditLogger._log_audit_event]: [source_ip] is the answer of
    [_get_source_ip]. *)
Definition _log_audit_event (l : AuditLogger) (now : Q) (source_ip event_type : string)
    (data : dict pyval) : result unit * AuditLogger :=
  let l1 := with_sequence l (_sequence l + 1) in
  let event0 := audit_event l now source_ip event_type data in
  (* Calculate checksum for tamper detection *)
  match Json.dumps None true (PDict event0) with
  | Raise e => (Raise e, l1)
  | Ok event_str =>
      let stamped := dict_set event0 "checksum" (PStr (checksum_of event_str)) in
      (* Write to audit file *)
      let '(r, l2) :=
        match audit_file l1 with
        | None => (Ok tt, l1)
        | Some path =>
            match append_to (fs l1) path "" with
            | inr msg =>
                let '(r, c) := error (client l1) now ("Audit log write failed: " +:+ msg) in
                (r, with_client l1 c)
            | inl opened =>
                match Json.dumps None false (PDict stamped) with
                | Raise e =>
                    let '(r, c) := error (client l1) now
                                     ("Audit log write failed: " +:+ exn_str e) in
                    (r, with_client (with_fs l1 opened) c)
                | Ok line =>
                    match append_to opened path (line +:+ String (chr 10) "") with
                    | inl written => (Ok tt, with_fs l1 written)
                    | inr msg =>
                        let '(r, c) := error (client l1) now
                                         ("Audit log write failed: " +:+ msg) in
                        (r, with_client l1 c)
                    end
                end
            end
        end in
      match r with
      | Raise e => (Raise e, l2)
      | Ok _ =>
          (* Send to TUI *)
          let '(r', c) := Hawk.event (client l2) now "audit_event" ("Audit: " +:+ event_type)
                            None "info" (Some stamped) [] in
          (r', with_client l2 c)
      end
  end.

(** [AuditLogger.log_access]; [details] is [None] when left out. *)
Definition log_access (l : AuditLogger) (now : Q) (source_ip : string)
    (user resource action result_ : string) (details : option (dict pyval))
  : result unit * AuditLogger :=
  _log_audit_event l now source_ip "access"
    [("user", PStr user); ("resource", PStr resource); ("action", PStr action);
     ("result", PStr result_);
     ("details", PDict match details with Some d => d | None => [] end)].

(** [AuditLogger.log_config_change]: [old_value] and [new_value] are given as
    the strings that [str] makes of them. *)
Definition log_config_change (l : AuditLogger) (now : Q) (source_ip : string)
    (user key_ old_value new_value : string) : result unit * AuditLogger :=
  _log_audit_event l now source_ip "config_change"
    [("user", PStr user); ("config_key", PStr key_);
     ("old_value", PStr old_value); ("new_value", PStr new_value)].

(** [AuditLogger.log_command] *)
Definition log_command (l : AuditLogger) (now : Q) (source_ip : string)
    (user command : string) (args : list string) (result_ : string)
    (output : option string) : result unit * AuditLogger :=
  _log_audit_event l now source_ip "command"
    [("user", PStr user); ("command", PStr command);
     ("arguments", PList (map PStr args)); ("result", PStr result_);
     ("output", match output with Some o => PStr o | None => PNone end)].

(** The lines of a text file, as the iteration over a file opened with
    universal newlines gives them, without their line ends. *)
Fixpoint readlines (text line : list ascii) : list string :=
  match text with
  | [] => match line with [] => [] | _ => [str_of (rev line)] end
  | c :: r =>
      if code c =? 10 then str_of (rev line) :: readlines r []
      else if code c =? 13 then
        match r with
        | c' :: r' =>
            if code c' =? 10 then str_of (rev line) :: readlines r' []
            else str_of (rev line) :: readlines r []
        | [] => [str_of (rev line)]
        end
      else readlines r (c :: line)
  end.

(** [event.pop("checksum", None)] on whatever the line decodes to: the
    value popped and what is left. *)
Definition pop_checksum (event : pyval) : result (pyval * pyval) :=
  match event with
  | PDict d =>
      Ok (match dict_get d "checksum" with Some v => v | None => PNone end,
          PDict (dict_del d "checksum"))
  | PList _ => Raise (TypeError "pop expected at most 1 argument, got 2")
  | v => Raise (AttributeError ("'" +:+ type_name v +:+ "' object has no attribute 'pop'"))
  end.

(** [stored_checksum == calculated_checksum] *)
Definition checksum_eqb (stored : pyval) (calculated : string) : bool :=
  match stored with PStr s => String.eqb s calculated | _ => false end.

(** What the check of one line does to the counts. *)
Inductive line_result : Type :=
| Verified
| Corrupted (warned : bool)
| Escapes (e : exn)
| Unknown.

Definition verify_line (line : string) : line_result :=
  match Json.loads (strip line) with
  | Json.JSONDecodeError => Corrupted false
  | Json.LoadRaises e => Escapes e
  | Json.NotModelled => Unknown
  | Json.Loaded event =>
      (* Verify checksum *)
      match pop_checksum event with
      | Raise e => Escapes e
      | Ok (stored_checksum, rest) =>
          match Json.dumps None true rest with
          | Raise e => Escapes e
          | Ok text =>
              if checksum_eqb stored_checksum (checksum_of text) then Verified
              else Corrupted true
          end
      end
  end.

(** The loop of [verify_integrity] over the lines: the counts, or the
    exception that leaves the loop; [None] where the model has no answer. *)
Fixpoint verify_lines (c : HawkClient) (now : Q) (lines : list string)
    (line_num verified corrupted : Z) : option (result (Z * Z) * HawkClient) :=
  match lines with
  | [] => Some (Ok (verified, corrupted), c)
  | line :: r =>
      match verify_line line with
      | Verified => verify_lines c now r (line_num + 1) (verified + 1) corrupted
      | Corrupted false => verify_lines c now r (line_num + 1) verified (corrupted + 1)
      | Corrupted true =>
          match warn c now ("Audit log corruption detected at line "
                            +:+ str_int line_num) with
          | (Ok _, c1) => verify_lines c1 now r (line_num + 1) verified (corrupted + 1)
          | (Raise e, c1) => Some (Raise e, c1)
          end
      | Escapes e => Some (Raise e, c)
      | Unknown => None
      end
  end.

(** [AuditLogger.verify_integrity] *)
Definition verify_integrity (l : AuditLogger) (now : Q)
  : option (dict pyval * AuditLogger) :=
  match audit_file l with
  | None => Some ([("status", PStr "no_audit_file"); ("verified", PInt 0);
                   ("corrupted", PInt 0)], l)
  | Some path =>
      match contents (fs l) !! path with
      | None => Some ([("status", PStr "no_audit_file"); ("verified", PInt 0);
                       ("corrupted", PInt 0)], l)
      | Some text =>
          match verify_lines (client l) now (readlines (chars text) []) 1 0 0 with
          | None => None
          | Some (Raise e, c) =>
              Some ([("status", PStr "error"); ("error", PStr (exn_str e))],
                    with_client l c)
          | Some (Ok (verified, corrupted), c) =>
              Some ([("status", PStr "completed"); ("verified", PInt verified);
                     ("corrupted", PInt corrupted);
                     ("integrity",
                      PFloat (Fin (if 0 <? verified + corrupted
                                   then inject_Z verified / inject_Z (verified + corrupted)
                                   else 1)))],
                    with_client l c)
          end
      end
  end.

End AuditLogger.

(** ** [hawk_advanced.py]: [BatchOperations] *)
Module BatchOperations.
Import Py Hawk.
Local Open Scope Z_scope.

(** The dictionary [_stats]; [avg_batch_size] is the [int] 0 until the first
    flush and a [float] afterwards. *)
Record stats : Type := {
  messages_sent : Z;
  batches_sent : Z;
  avg_batch_size : number;
  flush_errors : Z
}.

(** The batcher.  It prints on the standard output of the process, which is
    that of its client.  Its lock is taken by [_add_message], [flush] and
    the timer around [_flush_now], which takes no lock itself, so it is left
    out.  [sys_imported] tells whether the name [sys] is bound in the module
    [hawk_advanced]: the module imports [sys] only where it falls back to
    the standalone import of [hawk] and where it runs as a script, not when
    it is imported next to [hawk]. *)
Record BatchOperations : Type := {
  client : HawkClient;
  batch_size : Z;
  flush_interval : Q;
  _message_batch : list pyval;
  _last_flush : Q;
  _stats : stats;
  sys_imported : bool
}.

(** [BatchOperations(client, batch_size, flush_interval)], at time [now],
    in a module where [sys] is bound or not. *)
Definition new_batch (client_ : HawkClient) (batch_size_ : Z) (flush_interval_ : Q)
    (now : Q) (sys_imported_ : bool) : BatchOperations :=
  {| client := client_; batch_size := batch_size_; flush_interval := flush_interval_;
     _message_batch := []; _last_flush := now;
     _stats := {| messages_sent := 0; batches_sent := 0; avg_batch_size := NInt 0;
                  flush_errors := 0 |};
     sys_imported := sys_imported_ |}.

Definition with_client (b : BatchOperations) (c : HawkClient) : BatchOperations :=
  {| client := c; batch_size := batch_size b; flush_interval := flush_interval b;
     _message_batch := _message_batch b; _last_flush := _last_flush b;
     _stats := _stats b;
     sys_imported := sys_imported b |}.

Definition with_batch (b : BatchOperations) (batch : list pyval) : BatchOperations :=
  {| client := client b; batch_size := batch_size b; flush_interval := flush_interval b;
     _message_batch := batch; _last_flush := _last_flush b; _stats := _stats b;
     sys_imported := sys_imported b |}.

Definition with_stats (b : BatchOperations) (s : stats) : BatchOperations :=
  {| client := client b; batch_size := batch_size b; flush_interval := flush_interval b;
     _message_batch := _message_batch b; _last_flush := _last_flush b; _stats := s;
     sys_imported := sys_imported b |}.

Definition with_last_flush (b : BatchOperations) (t : Q) : BatchOperations :=
  {| client := client b; batch_size := batch_size b; flush_interval := flush_interval b;
     _message_batch := _message_batch b; _last_flush := t; _stats := _stats b;
     sys_imported := sys_imported b |}.

(** [BatchOperations._json_serializer] *)
Definition _json_serializer (obj : pyval) : result pyval :=
  match obj with
  | PDatetime t => Ok (PStr (isoformat t))
  | _ => Raise (TypeError ("Object of type <class '" +:+ type_name obj
                           +:+ "'> is not JSON serializable"))
  end.

(** The statements under [# Update stats]: the division raises when the new
    count of batches is zero, the two counts already updated. *)
Definition update_stats (s : stats) (sent : Z) : result stats * stats :=
  let messages := messages_sent s + sent in
  let batches := batches_sent s + 1 in
  let counted := {| messages_sent := messages; batches_sent := batches;
                    avg_batch_size := avg_batch_size s;
                    flush_errors := flush_errors s |} in
  if batches =? 0 then (Raise (ZeroDivisionError "division by zero"), counted)
  else (Ok {| messages_sent := messages; batches_sent := batches;
              avg_batch_size := NFloat (Fin (inject_Z messages / inject_Z batches));
              flush_errors := flush_errors s |}, counted).

Definition count_error (s : stats) : stats :=
  {| messages_sent := messages_sent s; batches_sent := batches_sent s;
     avg_batch_size := avg_batch_size s; flush_errors := flush_errors s + 1 |}.

(** [BatchOperations._flush_now]; [now] is the reading of [time.time()] at
    its end.  The handler of a failed flush names [sys.stderr] when the
    client is in debug mode: where [sys] is not bound this is a [NameError],
    which leaves the method before [_last_flush] is set. *)
Definition _flush_now (b : BatchOperations) (now : Q) : result unit * BatchOperations :=
  match _message_batch b with
  | [] => (Ok tt, b)
  | first :: others =>
      let batch := _message_batch b in
      let b1 := with_batch b [] in
      let attempt : result unit * BatchOperations :=
        match Json.dumps (Some _json_serializer) false
                match others with [] => first | _ => PList batch end with
        | Raise e => (Raise e, b1)
        | Ok json_str =>
            let b2 := with_client b1 (print (client b1) json_str) in
            (* Update stats *)
            match update_stats (_stats b2) (Z.of_nat (length batch)) with
            | (Ok s, _) => (Ok tt, with_stats b2 s)
            | (Raise e, s) => (Raise e, with_stats b2 s)
            end
        end in
      match attempt with
      | (Ok _, b2) => (Ok tt, with_last_flush b2 now)
      | (Raise e, b2) =>
          let b3 := with_stats b2 (count_error (_stats b2)) in
          if debug (_config (client b3)) then
            if sys_imported b3 then
              (Ok tt,
               with_last_flush
                 (with_client b3 (print_err (client b3)
                                    ("Batch flush error: " +:+ exn_str e))) now)
            else (Raise (NameError "name 'sys' is not defined"), b3)
          else (Ok tt, with_last_flush b3 now)
      end
  end.

(** [BatchOperations._add_message]: [batch_id] is [str(uuid.uuid4())[:8]],
    and [now] the clock reading of the flush, if there is one. *)
Definition _add_message (b : BatchOperations) (now : Q) (method_ : string)
    (params_ : dict pyval) (batch_id : string) : result unit * BatchOperations :=
  let '(n, c) := _get_next_sequence (client b) in
  let envelope :=
    PDict [("jsonrpc", PStr "2.0"); ("method", PStr method_);
           ("params", PDict params_);
           ("hawk_meta",
            PDict [("app_name", PStr (app_name (_config (client b))));
                   ("session_id", PStr (session_id (client b)));
                   ("sequence", PInt n);
                   ("batch_id", PStr batch_id)])] in
  let b1 := with_batch (with_client b c) (_message_batch b ++ [envelope]) in
  (* Auto-flush if batch is full *)
  if batch_size b1 <=? Z.of_nat (length (_message_batch b1))
  then _flush_now b1 now
  else (Ok tt, b1).

(** [BatchOperations.add_log], [add_metric] and [add_event], called with
    their named parameters by position and [**kwargs]: a keyword that names
    one of these parameters is a [TypeError] of the call; the others come
    last in the dictionary and replace the entries of the same name. *)
Definition add_log (b : BatchOperations) (now : Q) (message level : string)
    (kwargs : dict pyval) (batch_id : string) : result unit * BatchOperations :=
  match bind_keywords "BatchOperations.add_log" ["message"; "level"] kwargs with
  | Raise e => (Raise e, b)
  | Ok _ =>
      _add_message b now "hawk.log"
         (dict_update [("message", PStr message); ("level", PStr level);
                       ("timestamp", PStr (isoformat now))] kwargs) batch_id
  end.

Definition add_metric (b : BatchOperations) (now : Q) (name : string) (value : number)
    (kwargs : dict pyval) (batch_id : string) : result unit * BatchOperations :=
  match bind_keywords "BatchOperations.add_metric" ["name"; "value"] kwargs with
  | Raise e => (Raise e, b)
  | Ok _ =>
      _add_message b now "hawk.metric"
         (dict_update [("name", PStr name); ("value", number_val value);
                       ("timestamp", PStr (isoformat now))] kwargs) batch_id
  end.

Definition add_event (b : BatchOperations) (now : Q) (event_type title : string)
    (kwargs : dict pyval) (batch_id : string) : result unit * BatchOperations :=
  match bind_keywords "BatchOperations.add_event" ["event_type"; "title"] kwargs with
  | Raise e => (Raise e, b)
  | Ok _ =>
      _add_message b now "hawk.event"
         (dict_update [("type", PStr event_type); ("title", PStr title);
                       ("timestamp", PStr (isoformat now))] kwargs) batch_id
  end.

(** [BatchOperations.flush] *)
Definition flush (b : BatchOperations) (now : Q) : result unit * BatchOperations :=
  _flush_now b now.

(** One run of [timer_flush] in the timer thread: the flush if it is due,
    and whether the timer is started again.  An exception of the flush ends
    the thread before the next timer is scheduled. *)
Definition timer_flush (b : BatchOperations) (current_time : Q)
  : result unit * BatchOperations * bool :=
  let '(r, b1) :=
    if Qle_bool (flush_interval b) (current_time - _last_flush b)
       && nonempty (_message_batch b)
    then _flush_now b current_time
    else (Ok tt, b) in
  match r with
  | Ok _ => (Ok tt, b1, negb (_shutdown (client b1)))
  | Raise e => (Raise e, b1, false)
  end.

(** [BatchOperations.get_stats] *)
Definition get_stats (b : BatchOperations) : stats := _stats b.

End BatchOperations.

Module HawkProps.
Import Py Hawk.
Local Open Scope Z_scope.

(** A call of [_send_message_async] for a given message, and a run of such
    calls, oldest first. *)
Definition send (c : HawkClient) (m : HawkMessage) : result unit * HawkClient :=
  _send_message_async c (timestamp m) (method m) (params m) (message_id m).

Definition send_all (c : HawkClient) (ms : list HawkMessage) : HawkClient :=
  fold_left (fun c m => snd (send c m)) ms c.

Lemma message_eta (m : HawkMessage) :
  {| method := method m; params := params m; message_id := message_id m;
     timestamp := timestamp m |} = m.
Proof. destruct m; reflexivity. Qed.

Lemma flush_batch_config c ms : _config (snd (_flush_batch c ms)) = _config c.
Proof.
  unfold _flush_batch. destruct ms as [|m ms]; [reflexivity|].
  assert (Hp : _config (snd (flush_payload c (m :: ms))) = _config c).
  { unfold flush_payload. destruct ms as [|m' ms']; [reflexivity|].
    generalize (m :: m' :: ms'). intros l. revert c.
    induction l as [|x l IH]; intros c; simpl; [reflexivity|].
    specialize (IH (with_sequence c (sequence c + 1))).
    destruct (batch_jsonrpc (with_sequence c (sequence c + 1)) l) as [js c2].
    simpl in *. exact IH. }
  destruct (flush_payload c (m :: ms)) as [payload c1]. simpl in Hp.
  destruct (Json.dumps _ _ _); simpl; [exact Hp|].
  destruct (debug (_config c1)); simpl;
    destruct (graceful_fallback (_config c1)); simpl; exact Hp.
Qed.

Lemma flush_batch_graceful c ms :
  graceful_fallback (_config c) = true -> fst (_flush_batch c ms) = Ok tt.
Proof.
  intros Hg. unfold _flush_batch. destruct ms as [|m ms]; [reflexivity|].
  assert (Hp : _config (snd (flush_payload c (m :: ms))) = _config c).
  { pose proof (flush_batch_config c (m :: ms)) as H. unfold _flush_batch in H.
    destruct (flush_payload c (m :: ms)) as [payload c1]. simpl.
    destruct (Json.dumps _ _ _); simpl in H; [exact H|].
    destruct (debug (_config c1)); simpl in H;
      destruct (graceful_fallback (_config c1)); simpl in H; exact H. }
  destruct (flush_payload c (m :: ms)) as [payload c1]. simpl in Hp.
  destruct (Json.dumps _ _ _); simpl; [reflexivity|].
  destruct (debug (_config c1)); simpl; rewrite Hp, Hg; reflexivity.
Qed.


Lemma send_never_raises c now meth ps mid :
  thread_safe (_config c) = true \/ graceful_fallback (_config c) = true ->
  fst (_send_message_async c now meth ps mid) = Ok tt.
Proof.
  intros H. unfold _send_message_async.
  destruct (_shutdown c); [reflexivity|].
  destruct (thread_safe (_config c)) eqn:Hts.
  - destruct (put_nowait _ _ _); [reflexivity|].
    destruct (get_nowait _) as [[? b1]|]; [|reflexivity].
    destruct (put_nowait _ _ _); reflexivity.
  - destruct H as [H|Hg]; [discriminate|].
    pose proof (flush_batch_graceful c
      [{| method := meth; params := ps; message_id := mid; timestamp := now |}] Hg) as Hf.
    destruct (_flush_batch c _) as [r c1]. simpl in Hf. subst r. reflexivity.
Qed.

Lemma send_config c now meth ps mid :
  _config (snd (_send_message_async c now meth ps mid)) = _config c.
Proof.
  unfold _send_message_async.
  destruct (_shutdown c); [reflexivity|].
  destruct (thread_safe (_config c)) eqn:Hts.
  - destruct (put_nowait _ _ _); [reflexivity|].
    destruct (get_nowait _) as [[? b1]|]; [|reflexivity].
    destruct (put_nowait _ _ _); reflexivity.
  - pose proof (flush_batch_config c
      [{| method := meth; params := ps; message_id := mid; timestamp := now |}]) as Hf.
    destruct (_flush_batch c _) as [r c1]. simpl in Hf.
    destruct r; simpl; [exact Hf|].
    destruct (debug (_config c1)); simpl;
      destruct (graceful_fallback (_config c1)); simpl; exact Hf.
Qed.

Lemma flush_batch_buffer c ms : _buffer (snd (_flush_batch c ms)) = _buffer c.
Proof.
  unfold _flush_batch. destruct ms as [|m ms]; [reflexivity|].
  assert (Hp : _buffer (snd (flush_payload c (m :: ms))) = _buffer c).
  { unfold flush_payload. destruct ms as [|m' ms']; [reflexivity|].
    generalize (m :: m' :: ms'). intros l. revert c.
    induction l as [|x l IH]; intros c; simpl; [reflexivity|].
    specialize (IH (with_sequence c (sequence c + 1))).
    destruct (batch_jsonrpc (with_sequence c (sequence c + 1)) l) as [js c2].
    simpl in *. exact IH. }
  destruct (flush_payload c (m :: ms)) as [payload c1]. simpl in Hp.
  destruct (Json.dumps _ _ _); simpl; [exact Hp|].
  destruct (debug (_config c1)); simpl;
    destruct (graceful_fallback (_config c1)); simpl; exact Hp.
Qed.

(** With room in the queue (or an unbounded queue) the message goes last. *)
Lemma send_with_room c now meth ps mid :
  thread_safe (_config c) = true -> _shutdown c = false ->
  (maxsize c <= 0 \/ Z.of_nat (length (_buffer c)) < maxsize c) ->
  _send_message_async c now meth ps mid
  = (Ok tt, with_buffer c (_buffer c ++
       [{| method := meth; params := ps; message_id := mid; timestamp := now |}])).
Proof.
  intros Hts Hsd Hroom. unfold _send_message_async, put_nowait.
  rewrite Hsd, Hts.
  destruct ((0 <? maxsize c) && (maxsize c <=? Z.of_nat (length (_buffer c)))) eqn:E;
    [|reflexivity].
  apply andb_true_iff in E as [E1 E2].
  apply Z.ltb_lt in E1. apply Z.leb_le in E2. lia.
Qed.

(** With a full queue the oldest message is dropped and the new one goes
    last. *)
Lemma send_when_full c now meth ps mid oldest rest :
  thread_safe (_config c) = true -> _shutdown c = false ->
  0 < maxsize c -> _buffer c = oldest :: rest ->
  Z.of_nat (length (_buffer c)) = maxsize c ->
  _send_message_async c now meth ps mid
  = (Ok tt, with_buffer c (rest ++
       [{| method := meth; params := ps; message_id := mid; timestamp := now |}])).
Proof.
  intros Hts Hsd Hpos Hb Hfull. unfold _send_message_async, put_nowait at 1.
  rewrite Hsd, Hts.
  assert (E : (0 <? maxsize c) && (maxsize c <=? Z.of_nat (length (_buffer c))) = true).
  { apply andb_true_iff. split; [apply Z.ltb_lt|apply Z.leb_le]; lia. }
  rewrite E, Hb. simpl get_nowait. unfold put_nowait.
  assert (E' : (0 <? maxsize c) && (maxsize c <=? Z.of_nat (length rest)) = false).
  { apply andb_false_iff. right. apply Z.leb_gt. rewrite Hb in Hfull.
    simpl length in Hfull. lia. }
  rewrite E'. reflexivity.
Qed.

Lemma send_bounded c now meth ps mid :
  0 < maxsize c -> Z.of_nat (length (_buffer c)) <= maxsize c ->
  Z.of_nat (length (_buffer (snd (_send_message_async c now meth ps mid))))
  <= maxsize c.
Proof.
  intros Hpos Hle. unfold _send_message_async.
  destruct (_shutdown c); [exact Hle|].
  destruct (thread_safe (_config c)) eqn:Hts.
  - unfold put_nowait at 1.
    destruct ((0 <? maxsize c) && (maxsize c <=? Z.of_nat (length (_buffer c)))) eqn:E.
    + destruct (_buffer c) as [|o r] eqn:Hb; simpl get_nowait.
      * simpl. rewrite Hb. exact Hle.
      * unfold put_nowait.
        destruct ((0 <? maxsize c) && (maxsize c <=? Z.of_nat (length r))) eqn:E';
          simpl; [simpl length in Hle; lia|].
        rewrite length_app. simpl length in *. lia.
    + simpl. rewrite length_app. simpl length.
      apply andb_false_iff in E as [E|E];
        [apply Z.ltb_ge in E|apply Z.leb_gt in E]; lia.
  - pose proof (flush_batch_buffer c
      [{| method := meth; params := ps; message_id := mid; timestamp := now |}]) as Hf.
    destruct (_flush_batch c _) as [r c1]. simpl in Hf.
    destruct r; simpl; [rewrite Hf; exact Hle|].
    destruct (debug (_config c1)); simpl;
      destruct (graceful_fallback (_config c1)); simpl; rewrite Hf; exact Hle.
Qed.


Lemma send_all_with_room ms : forall c,
  thread_safe (_config c) = true -> _shutdown c = false ->
  (maxsize c <= 0 \/ Z.of_nat (length (_buffer c ++ ms)) <= maxsize c) ->
  send_all c ms = with_buffer c (_buffer c ++ ms).
Proof.
  induction ms as [|m ms IH]; intros c Hts Hsd Hroom.
  - simpl. rewrite app_nil_r. destruct c; reflexivity.
  - simpl. unfold send at 1.
    rewrite send_with_room by
      (try assumption; rewrite length_app in Hroom; simpl length in Hroom; lia).
    simpl snd. rewrite message_eta. rewrite IH.
    + simpl. rewrite <- app_assoc. reflexivity.
    + exact Hts.
    + exact Hsd.
    + simpl _buffer. rewrite <- app_assoc. exact Hroom.
Qed.

(** One message more than the capacity: the first one is gone. *)
Lemma send_all_overflow c first others :
  thread_safe (_config c) = true -> _shutdown c = false ->
  0 < maxsize c -> _buffer c = [] ->
  Z.of_nat (length others) = maxsize c ->
  send_all c (first :: others) = with_buffer c others.
Proof.
  intros Hts Hsd Hpos Hb Hlen.
  assert (Hne : others <> []) by (intros E; subst others; simpl in Hlen; lia).
  destruct (exists_last Hne) as (init & lst & Heq). subst others. clear Hne.
  rewrite length_app in Hlen. simpl length in Hlen.
  change (first :: init ++ [lst]) with ((first :: init) ++ [lst]).
  unfold send_all. rewrite fold_left_app. fold (send_all c (first :: init)).
  rewrite send_all_with_room by
    (try assumption; rewrite Hb; simpl length; lia).
  rewrite Hb. simpl app. simpl fold_left. unfold send.
  rewrite (send_when_full _ _ _ _ _ first init); try assumption; try reflexivity.
  - simpl. rewrite message_eta. reflexivity.
  - cbn [with_buffer _buffer maxsize length]. lia.
Qed.

(** *** What a call does besides the queue *)

(** With [thread_safe] on, a call changes nothing of the client but the
    queue: nothing is serialized, nothing is written, no sequence number is
    taken. *)
Lemma send_queue_only c now meth ps mid :
  thread_safe (_config c) = true ->
  exists b, _send_message_async c now meth ps mid = (Ok tt, with_buffer c b).
Proof.
  intros Hts. unfold _send_message_async.
  destruct (_shutdown c).
  - exists (_buffer c). destruct c; reflexivity.
  - rewrite Hts. destruct (put_nowait _ _ _) as [b|]; [exists b; reflexivity|].
    destruct (get_nowait _) as [[? b1]|].
    + destruct (put_nowait _ _ _) as [b2|]; eexists; reflexivity.
    + exists (_buffer c). destruct c; reflexivity.
Qed.

(** A call leaves the capacity of the queue as it is. *)
Lemma flush_batch_maxsize c ms : maxsize (snd (_flush_batch c ms)) = maxsize c.
Proof.
  unfold _flush_batch. destruct ms as [|m ms]; [reflexivity|].
  assert (Hp : maxsize (snd (flush_payload c (m :: ms))) = maxsize c).
  { unfold flush_payload. destruct ms as [|m' ms']; [reflexivity|].
    generalize (m :: m' :: ms'). intros l. revert c.
    induction l as [|x l IH]; intros c; simpl; [reflexivity|].
    specialize (IH (with_sequence c (sequence c + 1))).
    destruct (batch_jsonrpc (with_sequence c (sequence c + 1)) l) as [js c2].
    simpl in *. exact IH. }
  destruct (flush_payload c (m :: ms)) as [payload c1]. simpl in Hp.
  destruct (Json.dumps _ _ _); simpl; [exact Hp|].
  destruct (debug (_config c1)); simpl;
    destruct (graceful_fallback (_config c1)); simpl; exact Hp.
Qed.

Lemma send_maxsize c now meth ps mid :
  maxsize (snd (_send_message_async c now meth ps mid)) = maxsize c.
Proof.
  unfold _send_message_async.
  destruct (_shutdown c); [reflexivity|].
  destruct (thread_safe (_config c)) eqn:Hts.
  - destruct (put_nowait _ _ _); [reflexivity|].
    destruct (get_nowait _) as [[? b1]|]; [|reflexivity].
    destruct (put_nowait _ _ _); reflexivity.
  - pose proof (flush_batch_maxsize c
      [{| method := meth; params := ps; message_id := mid; timestamp := now |}]) as Hf.
    destruct (_flush_batch c _) as [r c1]. simpl in Hf.
    destruct r; simpl; [exact Hf|].
    destruct (debug (_config c1)); simpl;
      destruct (graceful_fallback (_config c1)); simpl; exact Hf.
Qed.



(** *** The worker: what is conserved *)

Lemma worker_get_conserves c w :
  batch (snd (worker_get c w)) ++ _buffer (fst (worker_get c w))
  = batch w ++ _buffer c
  /\ flushes (snd (worker_get c w)) = flushes w
  /\ last_flush (snd (worker_get c w)) = last_flush w
  /\ stdout (fst (worker_get c w)) = stdout c
  /\ _config (fst (worker_get c w)) = _config c
  /\ _shutdown (fst (worker_get c w)) = _shutdown c.
Proof.
  unfold worker_get. destruct (_buffer c) as [|m rest] eqn:Hb; cbn [get_nowait fst snd].
  - rewrite Hb. repeat split; reflexivity.
  - cbn [batch flushes last_flush with_buffer _buffer stdout _config _shutdown].
    rewrite <- app_assoc. repeat split; reflexivity.
Qed.

Lemma worker_flush_conserves c w t :
  concat (flushes (snd (worker_flush c w t))) ++ batch (snd (worker_flush c w t))
  = concat (flushes w) ++ batch w
  /\ _buffer (fst (worker_flush c w t)) = _buffer c.
Proof.
  unfold worker_flush.
  destruct (should_flush c w (batch w) t && nonempty (batch w)); [|split; reflexivity].
  pose proof (flush_batch_buffer c (batch w)) as Hf.
  destruct (_flush_batch c (batch w)) as [[?|e] c2]; cbn [fst snd] in *;
    cbn [flushes batch]; rewrite concat_app; cbn [concat]; rewrite !app_nil_r.
  - split; [reflexivity|exact Hf].
  - split; [reflexivity|]. destruct (debug (_config c2)); exact Hf.
Qed.

Lemma worker_turn_conserves c w t c' w' :
  worker_turn c w t = Some (c', w') ->
  concat (flushes w') ++ batch w' ++ _buffer c'
  = concat (flushes w) ++ batch w ++ _buffer c.
Proof.
  unfold worker_turn. destruct (_shutdown c); [discriminate|].
  destruct (worker_get_conserves c w) as (Hg & Hgf & _).
  destruct (worker_get c w) as [c1 w1]. cbn [fst snd] in Hg, Hgf.
  destruct (worker_flush_conserves c1 w1 t) as (Hf & Hb).
  intros [= E]. rewrite E in Hf, Hb. cbn [fst snd] in Hf, Hb.
  rewrite app_assoc, Hf, Hb, Hgf, <- app_assoc, Hg. reflexivity.
Qed.

Lemma worker_conserves times : forall c w,
  concat (flushes (snd (_message_worker c w times)))
    ++ batch (snd (_message_worker c w times))
    ++ _buffer (fst (_message_worker c w times))
  = concat (flushes w) ++ batch w ++ _buffer c.
Proof.
  induction times as [|t r IH]; intros c w; simpl; [reflexivity|].
  destruct (worker_turn c w t) as [[c' w']|] eqn:E; [|reflexivity].
  rewrite IH. exact (worker_turn_conserves _ _ _ _ _ E).
Qed.

(** *** The batch flusher *)

(** The envelopes of a batch flushed when the sequence counter reads [n]. *)
Fixpoint envelopes_from (app session : string) (n : Z) (ms : list HawkMessage)
  : list pyval :=
  match ms with
  | [] => []
  | m :: r => to_jsonrpc m app session (n + 1) :: envelopes_from app session (n + 1) r
  end.

Lemma batch_jsonrpc_spec ms : forall c,
  batch_jsonrpc c ms
  = (envelopes_from (app_name (_config c)) (session_id c) (sequence c) ms,
     with_sequence c (sequence c + Z.of_nat (length ms))).
Proof.
  induction ms as [|m r IH]; intros c.
  - simpl. rewrite Z.add_0_r. destruct c; reflexivity.
  - cbn [batch_jsonrpc _get_next_sequence]. rewrite IH. cbn.
    f_equal. f_equal. lia.
Qed.

Lemma encode_dict_is_object n default sort_keys d s :
  Json.encode (S n) default sort_keys (PDict d) = Ok s ->
  exists body, s = "{" +:+ body +:+ "}".
Proof.
  cbn [Json.encode]. destruct (Json.sequence _) as [parts|e]; [|discriminate].
  intros [= <-]. eexists. reflexivity.
Qed.

Lemma encode_list_is_array n default sort_keys l s :
  Json.encode (S n) default sort_keys (PList l) = Ok s ->
  exists body, s = "[" +:+ body +:+ "]".
Proof.
  cbn [Json.encode]. destruct (Json.sequence _) as [parts|e]; [|discriminate].
  intros [= <-]. eexists. reflexivity.
Qed.

Lemma dumps_dict_is_object default sort_keys d s :
  Json.dumps default sort_keys (PDict d) = Ok s ->
  exists body, s = "{" +:+ body +:+ "}".
Proof. exact (encode_dict_is_object 999 default sort_keys d s). Qed.

Lemma dumps_list_is_array default sort_keys l s :
  Json.dumps default sort_keys (PList l) = Ok s ->
  exists body, s = "[" +:+ body +:+ "]".
Proof. exact (encode_list_is_array 999 default sort_keys l s). Qed.

(** A flush prints at most one line. *)
Lemma flush_batch_stdout c ms :
  stdout (snd (_flush_batch c ms)) = stdout c
  \/ exists line, stdout (snd (_flush_batch c ms)) = stdout c ++ [line].
Proof.
  unfold _flush_batch. destruct ms as [|m ms]; [left; reflexivity|].
  assert (Hp : stdout (snd (flush_payload c (m :: ms))) = stdout c).
  { unfold flush_payload. destruct ms as [|m' ms']; [reflexivity|].
    rewrite batch_jsonrpc_spec. reflexivity. }
  destruct (flush_payload c (m :: ms)) as [payload c1]. simpl in Hp.
  destruct (Json.dumps _ _ _) as [line|e]; simpl.
  - right. exists line. rewrite Hp. reflexivity.
  - left. destruct (debug (_config c1)); simpl;
      destruct (graceful_fallback (_config c1)); simpl; exact Hp.
Qed.

Lemma flush_one c m s :
  Json.dumps (Some _json_serializer) false
    (to_jsonrpc m (app_name (_config c)) (session_id c) (sequence c + 1)) = Ok s ->
  _flush_batch c [m] = (Ok tt, print (with_sequence c (sequence c + 1)) s).
Proof.
  intros H. unfold _flush_batch, flush_payload, _get_next_sequence.
  rewrite H. reflexivity.
Qed.

Lemma flush_many c ms s :
  (2 <= length ms)%nat ->
  Json.dumps (Some _json_serializer) false
    (PList (envelopes_from (app_name (_config c)) (session_id c) (sequence c) ms))
  = Ok s ->
  _flush_batch c ms
  = (Ok tt, print (with_sequence c (sequence c + Z.of_nat (length ms))) s).
Proof.
  intros Hlen H. destruct ms as [|m1 [|m2 r]]; simpl in Hlen; try lia.
  unfold _flush_batch, flush_payload. rewrite batch_jsonrpc_spec, H. reflexivity.
Qed.


(** In direct mode the caller flushes the message itself. *)
Lemma send_direct c now meth ps mid line :
  thread_safe (_config c) = false -> _shutdown c = false ->
  Json.dumps (Some _json_serializer) false
    (to_jsonrpc {| method := meth; params := ps; message_id := mid; timestamp := now |}
       (app_name (_config c)) (session_id c) (sequence c + 1)) = Ok line ->
  _send_message_async c now meth ps mid
  = (Ok tt, print (with_sequence c (sequence c + 1)) line).
Proof.
  intros Hts Hsd Hd. unfold _send_message_async. rewrite Hsd, Hts.
  rewrite (flush_one c _ line Hd). reflexivity.
Qed.

(** *** The envelope, in the words of the specification *)

(** Protocol version, method name, parameter mapping, the correlation id
    when there is one, and the metadata block: application name, session
    id, sequence number and emission timestamp. *)
Definition envelope (app session : string) (seq : Z) (m : HawkMessage) : pyval :=
  let correlation :=
    match message_id m with
    | Some i => if String.eqb i "" then [] else [("id", PStr i)]
    | None => []
    end in
  PDict (("jsonrpc", PStr "2.0") :: ("method", PStr (method m))
         :: ("params", PDict (params m))
         :: correlation
         ++ [("hawk_meta",
              PDict [("app_name", PStr app); ("session_id", PStr session);
                     ("sequence", PInt seq);
                     ("timestamp", PStr (isoformat (timestamp m)))])]).

(** The envelopes of the messages of a batch, numbered from [n + 1] on. *)
Fixpoint numbered (app session : string) (n : Z) (ms : list HawkMessage) : list pyval :=
  match ms with
  | [] => []
  | m :: r => envelope app session (n + 1) m :: numbered app session (n + 1) r
  end.

(** What goes on the wire for a batch: the envelope for one message, the
    array of the envelopes for several. *)
Definition wire (c : HawkClient) (ms : list HawkMessage) : pyval :=
  match ms with
  | [m] => envelope (app_name (_config c)) (session_id c) (sequence c + 1) m
  | _ => PList (numbered (app_name (_config c)) (session_id c) (sequence c) ms)
  end.

Lemma to_jsonrpc_envelope m app session seq :
  to_jsonrpc m app session seq = envelope app session seq m.
Proof.
  unfold to_jsonrpc, envelope, str_truthy.
  destruct (message_id m) as [i|]; [|reflexivity].
  destruct (String.eqb i ""); reflexivity.
Qed.




Lemma wire_shape c ms line :
  ms <> [] ->
  Json.dumps (Some _json_serializer) false (wire c ms) = Ok line ->
  exists body,
    line = (match ms with [_] => "{" | _ => "[" end)
           +:+ body +:+ (match ms with [_] => "}" | _ => "]" end).
Proof.
  intros Hne. unfold wire. destruct ms as [|m [|m' r]]; [congruence| |].
  - unfold envelope. apply dumps_dict_is_object.
  - apply dumps_list_is_array.
Qed.

(** *** The worker loop *)


Definition elapsed (c : HawkClient) (w : worker) (t : Q) : Prop :=
  Qle_bool (flush_interval (_config c)) (t - last_flush w) = true.

Lemma nonempty_snoc {A} (l : list A) x : nonempty (l ++ [x]) = true.
Proof. destruct l; reflexivity. Qed.

Lemma nonempty_true {A} (l : list A) : l <> [] -> nonempty l = true.
Proof. destruct l; [congruence|reflexivity]. Qed.

(** The flush step when one of the conditions holds. *)
Lemma worker_flush_fires c w t :
  batch w <> [] ->
  (buffer_size (_config c) <= Z.of_nat (length (batch w)) \/ elapsed c w t
   \/ _shutdown c = true) ->
  flushes (snd (worker_flush c w t)) = flushes w ++ [batch w]
  /\ batch (snd (worker_flush c w t)) = []
  /\ _buffer (fst (worker_flush c w t)) = _buffer c
  /\ stdout (fst (worker_flush c w t)) = stdout (snd (_flush_batch c (batch w))).
Proof.
  intros Hne Htrig. unfold worker_flush.
  assert (E : should_flush c w (batch w) t && nonempty (batch w) = true).
  { rewrite (nonempty_true _ Hne), andb_true_r. unfold should_flush.
    rewrite (nonempty_true _ Hne). cbn [andb].
    destruct Htrig as [Hsz|[Hel|Hsd]].
    - apply Z.leb_le in Hsz. rewrite Hsz. reflexivity.
    - unfold elapsed in Hel. rewrite Hel, orb_true_r. reflexivity.
    - rewrite Hsd, orb_true_r. reflexivity. }
  rewrite E. pose proof (flush_batch_buffer c (batch w)) as Hb.
  destruct (_flush_batch c (batch w)) as [[?|e] c2]; cbn [fst snd] in *.
  - repeat split; try reflexivity. exact Hb.
  - destruct (debug (_config c2)); cbn [print_err _buffer stdout];
      repeat split; try reflexivity; exact Hb.
Qed.











(** *** Concrete clients for the examples *)

Definition small_config : HawkConfig :=
  {| app_name := "demo"; buffer_size := 2; flush_interval := 1 # 10;
     auto_detect := false; graceful_fallback := true; thread_safe := true;
     debug := false |}.

(** No queue and no graceful fallback: messages are flushed by the caller and
    failures are raised. *)
Definition direct_config : HawkConfig :=
  {| app_name := "demo"; buffer_size := 2; flush_interval := 1 # 10;
     auto_detect := false; graceful_fallback := false; thread_safe := false;
     debug := false |}.

Definition note (n : Z) : HawkMessage :=
  {| method := "hawk.log"; params := [("message", PStr "note"); ("n", PInt n)];
     message_id := None; timestamp := inject_Z n |}.

(** C2, as stated, fails.  With [thread_safe] and [graceful_fallback] both
    off, a message holding a [set] makes [_send_message_async] raise the
    [TypeError] of the serializer.  With [thread_safe] off nothing is
    enqueued: the caller itself writes the line to the standard output.
    And once the client is shut down a call with a full queue neither
    evicts the oldest message nor inserts the new one. *)
Lemma enqueue_counterexample :
  fst (_send_message_async (new_client direct_config 0) 0 "hawk.log"
         [("message", PStr "ids"); ("context", PDict [("ids", PSet [PInt 1])])] None)
  = Raise (TypeError "Object of type <class 'set'> is not JSON serializable")
  /\ (_buffer (snd (_send_message_async (new_client direct_config 0) 0 "hawk.log"
                      [("message", PStr "x")] None)) = []
      /\ length (stdout (snd (_send_message_async (new_client direct_config 0) 0
                                "hawk.log" [("message", PStr "x")] None))) = 1%nat)
  /\ _buffer (snd (_send_message_async
                     (with_shutdown
                        (send_all (new_client small_config 0)
                           [note 1; note 2; note 3; note 4]) true)
                     5 "hawk.log" [("message", PStr "late")] None))
     = [note 1; note 2; note 3; note 4].
Proof. repeat split; vm_compute; reflexivity. Qed.

(** C2 (amended).  [_send_message_async] never raises while the client
    buffers through its queue ([thread_safe]) or [graceful_fallback] is on.
    With [thread_safe] on, a call touches the queue only, with the
    operations that do not wait: nothing is serialized or written, and the
    client is as before but for its queue.  With [thread_safe] off nothing
    is enqueued: the caller serializes the envelope and writes the line
    itself before the call returns.  The capacity of the queue is fixed
    when the client is created, at twice the [buffer_size] of the
    configuration of that moment; neither a call nor a later change of the
    configuration changes it.  A bounded queue (capacity above 0) never
    holds more than its capacity; while the client is not shut down, a call
    with a full queue evicts the single oldest message and puts the new one
    last; so after [capacity + 1] calls on an empty queue the first message
    is gone from the queue and from every batch the worker flushes
    afterwards. *)
Theorem enqueue_drop_oldest (c : HawkClient) :
  (forall now meth ps mid,
      thread_safe (_config c) = true \/ graceful_fallback (_config c) = true ->
      fst (_send_message_async c now meth ps mid) = Ok tt)
  /\ (forall now meth ps mid,
        thread_safe (_config c) = true ->
        exists b, _send_message_async c now meth ps mid = (Ok tt, with_buffer c b))
  /\ (forall now meth ps mid line,
        thread_safe (_config c) = false -> _shutdown c = false ->
        Json.dumps (Some _json_serializer) false
          (envelope (app_name (_config c)) (session_id c) (sequence c + 1)
             {| method := meth; params := ps; message_id := mid; timestamp := now |})
        = Ok line ->
        _send_message_async c now meth ps mid
        = (Ok tt, print (with_sequence c (sequence c + 1)) line))
  /\ ((forall config now, maxsize (new_client config now) = 2 * buffer_size config)
      /\ (forall config, maxsize (with_config c config) = maxsize c)
      /\ (forall now meth ps mid,
            maxsize (snd (_send_message_async c now meth ps mid)) = maxsize c))
  /\ (forall now meth ps mid,
        0 < maxsize c -> Z.of_nat (length (_buffer c)) <= maxsize c ->
        Z.of_nat (length (_buffer (snd (_send_message_async c now meth ps mid))))
        <= maxsize c)
  /\ (forall now meth ps mid oldest rest,
        thread_safe (_config c) = true -> _shutdown c = false ->
        0 < maxsize c -> _buffer c = oldest :: rest ->
        Z.of_nat (length (_buffer c)) = maxsize c ->
        _send_message_async c now meth ps mid
        = (Ok tt, with_buffer c (rest ++
             [{| method := meth; params := ps; message_id := mid;
                 timestamp := now |}])))
  /\ (forall first others,
        thread_safe (_config c) = true -> _shutdown c = false ->
        0 < maxsize c -> _buffer c = [] ->
        Z.of_nat (length others) = maxsize c ->
        _buffer (send_all c (first :: others)) = others
        /\ forall times started b,
             List.In b (flushes (snd (_message_worker (send_all c (first :: others))
                                        (worker_start started) times))) ->
             forall m, List.In m b -> List.In m others).
Proof.
  split; [|split; [|split; [|split; [|split; [|split]]]]].
  - intros. apply send_never_raises. assumption.
  - intros. apply send_queue_only. assumption.
  - intros now meth ps mid line Hts Hsd Hd. rewrite <- to_jsonrpc_envelope in Hd.
    exact (send_direct c now meth ps mid line Hts Hsd Hd).
  - split; [|split].
    + intros config now. cbn [new_client maxsize]. lia.
    + reflexivity.
    + intros. apply send_maxsize.
  - intros. apply send_bounded; assumption.
  - intros. eapply send_when_full; eassumption.
  - intros first others Hts Hsd Hpos Hb Hlen.
    rewrite send_all_overflow by assumption.
    split; [reflexivity|].
    intros times started b Hin m Hm.
    pose proof (worker_conserves times (with_buffer c others) (worker_start started)) as H.
    cbn [worker_start flushes batch concat app with_buffer _buffer] in H.
    rewrite <- H. apply in_or_app. left.
    apply in_concat. exists b. split; assumption.
Qed.

(** A direct client that swallows its failures. *)
Definition direct_graceful : HawkConfig :=
  {| app_name := "demo"; buffer_size := 2; flush_interval := 1 # 10;
     auto_detect := false; graceful_fallback := true; thread_safe := false;
     debug := false |}.

Definition note_line : string :=
  Eval vm_compute in
    match Json.dumps (Some _json_serializer) false (envelope "demo" "sess_0" 1 (note 1)) with
    | Ok line => line
    | Raise _ => ""
    end.

(** The amended C2 at a client of capacity four: five calls leave the last
    four messages queued, and the batches flushed next hold none but them;
    a call on the queueing client leaves its output alone, a call on a
    direct client writes the line. *)
Lemma enqueue_drop_oldest_witness :
  let c := new_client small_config 0 in
  fst (_send_message_async c 0 "hawk.log" [("message", PStr "x")] None) = Ok tt
  /\ stdout (snd (_send_message_async c 0 "hawk.log" [("message", PStr "x")] None)) = []
  /\ stdout (snd (_send_message_async (new_client direct_graceful 0) 1 "hawk.log"
                    [("message", PStr "note"); ("n", PInt 1)] None)) = [note_line]
  /\ _buffer (send_all c [note 0; note 1; note 2; note 3; note 4])
     = [note 1; note 2; note 3; note 4]
  /\ forall b,
       List.In b (flushes (snd (_message_worker
                                  (send_all c [note 0; note 1; note 2; note 3; note 4])
                                  (worker_start 0) [1 # 100; 2 # 100]))) ->
       forall m, List.In m b -> List.In m [note 1; note 2; note 3; note 4].
Proof.
  intros c.
  destruct (enqueue_drop_oldest c) as (Hraise & Hqueue & _ & _ & _ & _ & Hover).
  destruct (enqueue_drop_oldest (new_client direct_graceful 0))
    as (_ & _ & Hdirect & _).
  split; [apply Hraise; left; reflexivity|].
  split.
  {  destruct (Hqueue 0%Q "hawk.log" [("message", PStr "x")] None eq_refl) as (b & ->).
    reflexivity. }
  split.
  { rewrite (Hdirect 1%Q "hawk.log" [("message", PStr "note"); ("n", PInt 1)] None
               note_line eq_refl eq_refl); [reflexivity|].
    vm_compute. reflexivity. }
  destruct (Hover (note 0) [note 1; note 2; note 3; note 4])
    as [Hq Hflush]; try reflexivity.
  split; [exact Hq|].
  intros b Hb. exact (Hflush _ _ b Hb).
Defined.




End HawkProps.

Module ConfigProps.
Import Py Hawk ConfigPanel.
Local Open Scope Z_scope.

(** The clients whose emitters return normally whatever they are given: the
    queue is in use, or failures are swallowed. *)
Definition quiet (c : HawkClient) : Prop :=
  thread_safe (_config c) = true \/ graceful_fallback (_config c) = true.

Lemma send_quiet c now meth ps mid :
  quiet c ->
  fst (_send_message_async c now meth ps mid) = Ok tt
  /\ quiet (snd (_send_message_async c now meth ps mid)).
Proof.
  intros Hq. split.
  - apply HawkProps.send_never_raises. exact Hq.
  - unfold quiet. rewrite HawkProps.send_config. exact Hq.
Qed.

Lemma error_quiet c now msg :
  quiet c -> fst (error c now msg) = Ok tt /\ quiet (snd (error c now msg)).
Proof. intros Hq. unfold error, log. apply send_quiet. exact Hq. Qed.

(** *** Messages that can always be sent *)

(** The values with no part that needs the [default] hook: scalars, and
    dicts of scalars. *)
Definition leaf (v : pyval) : bool :=
  match v with
  | PNone | PBool _ | PInt _ | PFloat _ | PStr _ => true
  | _ => false
  end.

Definition shallow (v : pyval) : bool :=
  leaf v || match v with
            | PDict d => forallb (fun kv => leaf (snd kv)) d
            | _ => false
            end.

Lemma encode_leaf n default sort_keys v :
  leaf v = true -> exists s, Json.encode (S n) default sort_keys v = Ok s.
Proof. destruct v; try discriminate; intros _; eexists; reflexivity. Qed.

Lemma sequence_ok {A B} (f : A -> result B) (l : list A) :
  (forall a, In a l -> exists b, f a = Ok b) ->
  exists bs, Json.sequence (map f l) = Ok bs.
Proof.
  induction l as [|a l IH]; intros H; [exists []; reflexivity|].
  cbn [map Json.sequence].
  destruct (H a (or_introl eq_refl)) as [b ->].
  destruct IH as [bs ->]; [intros a' Ha'; apply H; right; exact Ha'|].
  eexists. reflexivity.
Qed.

Lemma encode_dict_ok n default d :
  (forall kv, In kv d -> exists s, Json.encode n default false (snd kv) = Ok s) ->
  exists s, Json.encode (S n) default false (PDict d) = Ok s.
Proof.
  intros H. cbn [Json.encode].
  destruct (sequence_ok
              (fun kv => match Json.encode n default false (snd kv) with
                         | Ok s => Ok (Json.encode_str (fst kv) +:+ ": " +:+ s)
                         | Raise e => Raise e
                         end) d) as [parts ->].
  - intros kv Hin. destruct (H kv Hin) as [s ->]. eexists. reflexivity.
  - eexists. reflexivity.
Qed.

Lemma encode_shallow n default v :
  shallow v = true -> exists s, Json.encode (S (S n)) default false v = Ok s.
Proof.
  unfold shallow. intros H. apply orb_true_iff in H. destruct H as [H|H].
  - apply encode_leaf. exact H.
  - destruct v; try discriminate. apply encode_dict_ok.
    intros kv Hin. apply encode_leaf.
    rewrite forallb_forall in H. exact (H kv Hin).
Qed.

Lemma encode_envelope n m app_ session seq :
  forallb (fun kv => shallow (snd kv)) (params m) = true ->
  exists s, Json.encode (S (S (S (S n)))) (Some _json_serializer) false
              (to_jsonrpc m app_ session seq) = Ok s.
Proof.
  intros H. unfold to_jsonrpc. apply encode_dict_ok.
  intros kv Hin. cbn [In app] in Hin.
  destruct Hin as [<-|[<-|[<-|Hin]]]; cbn [snd].
  - eexists. reflexivity.
  - eexists. reflexivity.
  - apply encode_dict_ok. intros kv Hin. apply encode_shallow.
    rewrite forallb_forall in H. exact (H kv Hin).
  - apply in_app_or in Hin. destruct Hin as [Hin|[<-|[]]].
    + destruct (message_id m) as [i|]; [|destruct Hin].
      destruct (str_truthy i); [|destruct Hin].
      destruct Hin as [<-|[]]. eexists. reflexivity.
    + cbn [snd]. eexists. reflexivity.
Qed.

Lemma dumps_envelope m app_ session seq :
  forallb (fun kv => shallow (snd kv)) (params m) = true ->
  exists s, Json.dumps (Some _json_serializer) false (to_jsonrpc m app_ session seq) = Ok s.
Proof. exact (encode_envelope 996 m app_ session seq). Qed.

(** A message whose parameters are scalars and dicts of scalars is sent
    without an exception by every client. *)
Lemma send_shallow c now meth ps mid :
  forallb (fun kv => shallow (snd kv)) ps = true ->
  fst (_send_message_async c now meth ps mid) = Ok tt.
Proof.
  intros H. unfold _send_message_async.
  destruct (_shutdown c); [reflexivity|].
  destruct (thread_safe (_config c)).
  - destruct (put_nowait _ _ _); [reflexivity|].
    destruct (get_nowait _) as [[? b1]|]; [|reflexivity].
    destruct (put_nowait _ _ _); reflexivity.
  - set (m := {| method := meth; params := ps; message_id := mid; timestamp := now |}).
    destruct (dumps_envelope m (app_name (_config c)) (session_id c) (sequence c + 1) H)
      as [line Hline].
    rewrite (HawkProps.flush_one c m line Hline). reflexivity.
Qed.

Lemma error_never_raises c now msg : fst (error c now msg) = Ok tt.
Proof.
  unfold error, log. apply send_shallow.
  destruct (_context_stack c); reflexivity.
Qed.

(** *** The order of the checks *)

(** The checks in the words of the specification, each written on its own:
    type coercion or check, then the numeric range check, then the enum
    membership check, then the custom validator. *)
Definition coercion (field : ConfigField) (value : pyval) : option pyval :=
  if String.eqb (field_type field) "integer" then
    match value with
    | PBool _ | PInt _ => Some value
    | _ => match py_int value with Ok z => Some (PInt z) | Raise _ => None end
    end
  else if String.eqb (field_type field) "float" then
    match value with
    | PBool _ | PInt _ | PFloat _ => Some value
    | _ => match py_float value with Ok f => Some (PFloat f) | Raise _ => None end
    end
  else if String.eqb (field_type field) "boolean" then
    match value with
    | PBool _ => Some value
    | PStr s => Some (PBool (existsb (String.eqb (lower s)) ["true"; "1"; "yes"; "on"]))
    | _ => None
    end
  else Some value.

(** Not below the lower bound and not above the upper bound, where there is
    one; a value that is not a number is out of every range. *)
Definition within_range (field : ConfigField) (value : pyval) : bool :=
  let above_min :=
    match min_value field, as_number value with
    | None, _ => true
    | Some lo, Some n => negb (number_ltb n lo)
    | Some _, None => false
    end in
  let below_max :=
    match max_value field, as_number value with
    | None, _ => true
    | Some hi, Some n => negb (number_ltb hi n)
    | Some _, None => false
    end in
  above_min && below_max.

(** For an enum field with options, the value is one of the options. *)
Definition member (field : ConfigField) (value : pyval) : bool :=
  if String.eqb (field_type field) "enum" then
    match options field, value with
    | Some (o :: os), PStr s =>
        if in_dec String.string_dec s (o :: os) then true else false
    | Some (_ :: _), _ => false
    | _, _ => true
    end
  else true.

Definition validator_accepts (field : ConfigField) (value : pyval) : bool :=
  match validation_func field with
  | None => true
  | Some f => match f value with Ok true => true | _ => false end
  end.

Definition validate_in_order (field : ConfigField) (value : pyval) : bool :=
  match coercion field value with
  | None => false
  | Some coerced =>
      if negb (within_range field coerced) then false
      else if negb (member field coerced) then false
      else validator_accepts field coerced
  end.

Lemma range_validation_within field value :
  range_validation field value = within_range field value.
Proof.
  unfold range_validation, within_range, lt_number, gt_number.
  destruct (min_value field), (max_value field), (as_number value); reflexivity.
Qed.

Lemma custom_validation_accepts field value :
  custom_validation field value = validator_accepts field value.
Proof.
  unfold custom_validation, validator_accepts.
  destruct (validation_func field) as [f|]; [|reflexivity].
  destruct (f value) as [[]|]; reflexivity.
Qed.

Lemma existsb_in_dec (s : string) (l : list string) :
  existsb (String.eqb s) l = if in_dec String.string_dec s l then true else false.
Proof.
  destruct (in_dec String.string_dec s l) as [Hin|Hnot].
  - apply existsb_exists. exists s. split; [exact Hin|apply String.eqb_refl].
  - apply not_true_is_false. intros H. apply existsb_exists in H.
    destruct H as (x & Hx & Heq). apply String.eqb_eq in Heq. subst x. exact (Hnot Hx).
Qed.

Ltac checks_agree :=
  rewrite ?range_validation_within, ?custom_validation_accepts;
  destruct (within_range _ _); cbn [negb]; try reflexivity;
  destruct (validator_accepts _ _); reflexivity.

Lemma validate_value_in_order field value :
  _validate_value field value = validate_in_order field value.
Proof.
  unfold _validate_value, validate_in_order, type_validation, coercion, member.
  destruct (String.eqb (field_type field) "integer") eqn:Ei.
  { apply String.eqb_eq in Ei. rewrite Ei.
    cbn [String.eqb Ascii.eqb Bool.eqb andb].
    destruct value; cbn [isinstance_int negb]; cbv beta iota;
      try (destruct (py_int _); [|reflexivity]); checks_agree. }
  destruct (String.eqb (field_type field) "float") eqn:Ef.
  { apply String.eqb_eq in Ef. rewrite Ef.
    cbn [String.eqb Ascii.eqb Bool.eqb andb].
    destruct value; cbn [isinstance_int_or_float negb]; cbv beta iota;
      try (destruct (py_float _); [|reflexivity]); checks_agree. }
  destruct (String.eqb (field_type field) "boolean") eqn:Eb.
  { apply String.eqb_eq in Eb. rewrite Eb.
    cbn [String.eqb Ascii.eqb Bool.eqb andb].
    destruct value; cbn [isinstance_bool negb]; cbv beta iota; try reflexivity;
      checks_agree. }
  cbn [andb].
  destruct (String.eqb (field_type field) "enum") eqn:Ee; cbn [andb].
  - unfold options_truthy, options_list, in_options.
    destruct (options field) as [[|o os]|]; cbn [andb negb]; try checks_agree.
    destruct value; cbn [negb]; try (destruct (within_range _ _); reflexivity).
    rewrite existsb_in_dec.
    destruct (in_dec String.string_dec s (o :: os)); cbn [negb].
    + checks_agree.
    + destruct (within_range _ _); reflexivity.
  - checks_agree.
Qed.

(** *** [set_value] *)

Lemma send_config_update_values p now k v :
  _values (snd (_send_config_update p now k v)) = _values p
  /\ _fields (snd (_send_config_update p now k v)) = _fields p.
Proof.
  unfold _send_config_update.
  destruct (_send_message_async _ _ _ _ _) as [r c]. split; reflexivity.
Qed.

(** A refused value: the call returns [False] and the panel is as before. *)
Lemma set_value_refused p now k field value :
  _fields p !! k = Some field ->
  _validate_value field value = false ->
  set_value p now k value true = (Ok false, p).
Proof.
  intros Hf Hv. unfold set_value. rewrite Hf, Hv. reflexivity.
Qed.

(** An accepted value (or one that is not validated) is stored as given. *)
Lemma set_value_stores p now k field value validate :
  _fields p !! k = Some field ->
  validate && negb (_validate_value field value) = false ->
  _values (snd (set_value p now k value validate)) = <[k := value]> (_values p).
Proof.
  intros Hf Hv. unfold set_value. rewrite Hf, Hv.
  unfold _send_config_update. cbn [client with_values name].
  destruct (_send_message_async _ _ _ _ _) as [[|e] c]; [|reflexivity].
  cbn [_callbacks with_client with_values _values].
  destruct (_callbacks p !! k) as [cb|].
  - destruct (cb k _ value) as [|e].
    + cbn [_auto_save with_client with_values].
      destruct (_auto_save p); [|reflexivity].
      unfold _save_to_file. cbn [_config_file with_client with_values].
      destruct (_config_file p); reflexivity.
    + destruct (error _ _ _) as [[|e'] c']; [|reflexivity].
      cbn [_auto_save with_client with_values].
      destruct (_auto_save p); [|reflexivity].
      unfold _save_to_file. cbn [_config_file with_client with_values].
      destruct (_config_file p); reflexivity.
  - cbn [_auto_save with_client with_values].
    destruct (_auto_save p); [|reflexivity].
    unfold _save_to_file. cbn [_config_file with_client with_values].
    destruct (_config_file p); reflexivity.
Qed.

(** With a quiet client an accepted value makes the call return [True]. *)
Lemma set_value_accepted p now k field value validate :
  quiet (client p) ->
  _fields p !! k = Some field ->
  validate && negb (_validate_value field value) = false ->
  fst (set_value p now k value validate) = Ok true.
Proof.
  intros Hq Hf Hv. unfold set_value. rewrite Hf, Hv.
  unfold _send_config_update. cbn [client with_values name].
  destruct (send_quiet (client p) now "hawk.config"
              [("key", PStr k); ("value", value); ("panel", PStr (name p))] None Hq)
    as [Hr Hq'].
  destruct (_send_message_async _ _ _ _ _) as [r c]. cbn [fst snd] in Hr, Hq'.
  subst r. cbn [_callbacks with_client with_values _values client].
  destruct (_callbacks p !! k) as [cb|]; [|reflexivity].
  destruct (cb k _ value) as [|e]; [reflexivity|].
  destruct (error_quiet c now
              ("Config callback error for " +:+ k +:+ ": " +:+ exn_str e) Hq')
    as [Hr' _].
  destruct (error _ _ _) as [r' c']. cbn [fst] in Hr'. subst r'. reflexivity.
Qed.


Lemma get_value_after_set p now k field value validate :
  _fields p !! k = Some field ->
  validate && negb (_validate_value field value) = false ->
  get_value (snd (set_value p now k value validate)) k PNone = value.
Proof.
  intros Hf Hv. unfold get_value.
  rewrite (set_value_stores p now k field value validate Hf Hv).
  rewrite lookup_insert_eq. reflexivity.
Qed.


(** An accepted value: the call returns [True] or raises, nothing else. *)
Lemma set_value_outcome p now k field value validate :
  _fields p !! k = Some field ->
  validate && negb (_validate_value field value) = false ->
  fst (set_value p now k value validate) = Ok true
  \/ exists e, fst (set_value p now k value validate) = Raise e.
Proof.
  intros Hf Hv. unfold set_value. rewrite Hf, Hv.
  destruct (_send_config_update _ _ _ _) as [[|e] p2]; [|right; exists e; reflexivity].
  destruct (_callbacks p2 !! k) as [cb|]; [|left; reflexivity].
  destruct (cb k _ value) as [|e]; [left; reflexivity|].
  destruct (error _ _ _) as [[|e'] c]; [left; reflexivity|right; exists e'; reflexivity].
Qed.

(** A string is stored with [True] returned, by every client. *)
Lemma set_value_string p now k field s validate :
  _fields p !! k = Some field ->
  validate && negb (_validate_value field (PStr s)) = false ->
  fst (set_value p now k (PStr s) validate) = Ok true.
Proof.
  intros Hf Hv. unfold set_value. rewrite Hf, Hv.
  unfold _send_config_update. cbn [client with_values name].
  pose proof (send_shallow (client p) now "hawk.config"
                [("key", PStr k); ("value", PStr s); ("panel", PStr (name p))] None
                eq_refl) as Hr.
  destruct (_send_message_async _ _ _ _ _) as [r c]. cbn [fst] in Hr. subst r.
  cbn [_callbacks with_client with_values _values client].
  destruct (_callbacks p !! k) as [cb|]; [|reflexivity].
  destruct (cb k _ (PStr s)) as [|e]; [reflexivity|].
  pose proof (error_never_raises c now
                ("Config callback error for " +:+ k +:+ ": " +:+ exn_str e)) as Hr'.
  destruct (error _ _ _) as [r' c']. cbn [fst] in Hr'. subst r'. reflexivity.
Qed.

(** The field of the example: [add_field("n", "integer", default=5,
    min_value=1, max_value=10)]. *)
Definition field_n : ConfigField :=
  {| key := "n"; field_type := "integer"; description := ""; default := PInt 5;
     required := false; min_value := Some (NInt 1); max_value := Some (NInt 10);
     options := None; restart_required := false; validation_func := None;
     category := "General" |}.

(** A panel on a client with the default configuration, [field_n] added. *)
Definition panel_n : ConfigPanel :=
  snd (add_field (new_panel "settings" (new_client default_config 0)) 0 field_n).

(** A field without checks, on a client that flushes in the caller and
    raises its failures. *)
Definition field_tags : ConfigField :=
  {| key := "tags"; field_type := "string"; description := ""; default := PNone;
     required := false; min_value := None; max_value := None;
     options := None; restart_required := false; validation_func := None;
     category := "General" |}.

Definition panel_direct : ConfigPanel :=
  snd (add_field (new_panel "settings" (new_client HawkProps.direct_config 0)) 0
         field_tags).

(** C5, as stated, fails: a value that passes every check is stored, but
    the call does not always return success.  On a client with
    [thread_safe] and [graceful_fallback] both off the update is sent by
    the caller, and for a value that cannot be serialized (a [set]) the
    exception of the send leaves [set_value], after the value was stored. *)
Lemma set_value_counterexample :
  _validate_value field_tags (PSet [PInt 1]) = true
  /\ fst (set_value panel_direct 1 "tags" (PSet [PInt 1]) true)
     = Raise (TypeError "Object of type <class 'set'> is not JSON serializable")
  /\ get_value panel_direct "tags" PNone = PNone
  /\ get_value (snd (set_value panel_direct 1 "tags" (PSet [PInt 1]) true)) "tags" PNone
     = PSet [PInt 1].
Proof. repeat split; vm_compute; reflexivity. Qed.

(** C5 (amended): on a registered key, [set_value] validates with
    [_validate_value], whose verdict is that of the checks taken in the
    order type coercion or check, numeric range, enum membership, custom
    validator.  A refused value leaves the panel unchanged and the call
    returns [False] without raising.  An accepted value is stored, and the
    call returns [True], or raises when a message cannot be sent, which
    takes a client with [thread_safe] and [graceful_fallback] both off; the
    value is stored in both cases.  On the panel of the example, 15 is
    refused and the value stays 5, then 7 is accepted and stored. *)
Theorem set_value_all_or_nothing (p : ConfigPanel) (now : Q) (k : string)
    (field : ConfigField) (value : pyval) :
  _fields p !! k = Some field ->
  _validate_value field value = validate_in_order field value
  /\ (validate_in_order field value = false ->
      set_value p now k value true = (Ok false, p))
  /\ (validate_in_order field value = true ->
      get_value (snd (set_value p now k value true)) k PNone = value
      /\ _values (snd (set_value p now k value true)) = <[k := value]> (_values p)
      /\ (fst (set_value p now k value true) = Ok true
          \/ exists e, fst (set_value p now k value true) = Raise e
                       /\ thread_safe (_config (client p)) = false
                       /\ graceful_fallback (_config (client p)) = false))
  /\ (get_value panel_n "n" PNone = PInt 5
      /\ fst (set_value panel_n 1 "n" (PInt 15) true) = Ok false
      /\ get_value (snd (set_value panel_n 1 "n" (PInt 15) true)) "n" PNone = PInt 5
      /\ fst (set_value (snd (set_value panel_n 1 "n" (PInt 15) true)) 2 "n"
                (PInt 7) true) = Ok true
      /\ get_value (snd (set_value (snd (set_value panel_n 1 "n" (PInt 15) true))
                           2 "n" (PInt 7) true)) "n" PNone = PInt 7).
Proof.
  intros Hf. split; [apply validate_value_in_order|].
  rewrite <- validate_value_in_order.
  split; [intros Hv; exact (set_value_refused p now k field value Hf Hv)|].
  split.
  - intros Hv.
    assert (E : true && negb (_validate_value field value) = false)
      by (rewrite Hv; reflexivity).
    split; [exact (get_value_after_set p now k field value true Hf E)|].
    split; [exact (set_value_stores p now k field value true Hf E)|].
    destruct (thread_safe (_config (client p))) eqn:Hts;
      [left; exact (set_value_accepted p now k field value true (or_introl Hts) Hf E)|].
    destruct (graceful_fallback (_config (client p))) eqn:Hg;
      [left; exact (set_value_accepted p now k field value true (or_intror Hg) Hf E)|].
    destruct (set_value_outcome p now k field value true Hf E) as [H|[e H]];
      [left; exact H|right; exists e; repeat split; exact H].
  - repeat split; vm_compute; reflexivity.
Qed.

(** The amended C5 on the panel of the example: 15 is out of range, 7 is
    in range. *)
Lemma set_value_all_or_nothing_witness :
  set_value panel_n 1 "n" (PInt 15) true = (Ok false, panel_n)
  /\ get_value (snd (set_value panel_n 1 "n" (PInt 7) true)) "n" PNone = PInt 7
  /\ fst (set_value panel_n 1 "n" (PInt 7) true) = Ok true.
Proof.
  assert (Hf : _fields panel_n !! "n" = Some field_n) by (vm_compute; reflexivity).
  destruct (set_value_all_or_nothing panel_n 1 "n" field_n (PInt 15) Hf)
    as (_ & Hno & _ & _).
  destruct (set_value_all_or_nothing panel_n 1 "n" field_n (PInt 7) Hf)
    as (_ & _ & Hyes & _).
  split; [apply Hno; vm_compute; reflexivity|].
  destruct Hyes as (Hget & _ & [Hok|(e & He & Hts & _)]); [vm_compute; reflexivity| |].
  - split; [exact Hget|exact Hok].
  - assert (Hsafe : thread_safe (_config (client panel_n)) = true)
      by (vm_compute; reflexivity).
    rewrite Hsafe in Hts. discriminate Hts.
Defined.


(** *** [add_field] on a key that has a value *)

Lemma send_config_field_state p now field :
  _values (snd (_send_config_field p now field)) = _values p
  /\ _fields (snd (_send_config_field p now field)) = _fields p.
Proof.
  unfold _send_config_field.
  destruct (_send_message_async _ _ _ _ _) as [r c]. split; reflexivity.
Qed.

(** The same field with another default and other bounds. *)
Definition field_n_again : ConfigField :=
  {| key := "n"; field_type := "integer"; description := "the count";
     default := PInt 9; required := true; min_value := Some (NInt 0);
     max_value := Some (NInt 100); options := None; restart_required := true;
     validation_func := None; category := "Limits" |}.

(** C9: adding a field whose key already has a stored value replaces the
    definition kept for the key and leaves every stored value as it was:
    the value of the key is not overwritten by the new default. *)
Theorem add_field_again_keeps_value (p : ConfigPanel) (now : Q)
    (field : ConfigField) (v : pyval) :
  _values p !! key field = Some v ->
  _values (snd (add_field p now field)) = _values p
  /\ get_value (snd (add_field p now field)) (key field) PNone = v
  /\ _fields (snd (add_field p now field)) !! key field = Some field
  /\ (forall k, k <> key field ->
        _fields (snd (add_field p now field)) !! k = _fields p !! k).
Proof.
  intros Hv. unfold add_field. cbn [_values with_field]. rewrite Hv.
  destruct (send_config_field_state (with_field p field) now field) as [Hvals Hflds].
  destruct (_send_config_field (with_field p field) now field) as [[|e] p3];
    cbn [snd] in *; unfold get_value; rewrite Hvals, Hflds; cbn [_values _fields with_field];
    rewrite Hv, lookup_insert_eq;
    (repeat split; try reflexivity; intros k Hk; rewrite lookup_insert_ne by congruence;
     reflexivity).
Qed.

(** C9 on the panel of the example: re-added with default 9, the key keeps
    the value 5 taken from the first default, and keeps 7 once 7 was set. *)
Lemma add_field_again_witness :
  get_value (snd (add_field panel_n 3 field_n_again)) "n" PNone = PInt 5
  /\ get_value (snd (add_field (snd (set_value panel_n 1 "n" (PInt 7) true)) 3
                       field_n_again)) "n" PNone = PInt 7
  /\ _fields (snd (add_field panel_n 3 field_n_again)) !! "n" = Some field_n_again.
Proof.
  destruct (add_field_again_keeps_value panel_n 3 field_n_again (PInt 5))
    as (_ & H5 & Hf & _); [vm_compute; reflexivity|].
  destruct (add_field_again_keeps_value (snd (set_value panel_n 1 "n" (PInt 7) true))
              3 field_n_again (PInt 7))
    as (_ & H7 & _ & _); [vm_compute; reflexivity|].
  split; [exact H5|]. split; [exact H7|exact Hf].
Defined.

(** *** Coercion is for the checks only *)

Lemma type_validation_coerces_string field s coerced :
  field_type field = "integer" \/ field_type field = "float"
  \/ field_type field = "boolean" ->
  type_validation field (PStr s) = Some coerced ->
  coerced <> PStr s.
Proof.
  unfold type_validation.
  intros [E|[E|E]]; rewrite E; cbn [String.eqb Ascii.eqb Bool.eqb andb negb
    isinstance_int isinstance_int_or_float isinstance_bool py_int py_float].
  - destruct (int_of_str s); intros [= <-]; discriminate.
  - destruct (float_of_str s); intros [= <-]; discriminate.
  - intros [= <-]; discriminate.
Qed.

(** What the claim calls a coercible string that passes the checks: the
    string read as the declared type, within the bounds of the field, and
    accepted by the validator of the field if it has one. *)
Definition read_as (field : ConfigField) (s : string) : option pyval :=
  if String.eqb (field_type field) "integer" then
    match int_of_str s with Ok z => Some (PInt z) | Raise _ => None end
  else if String.eqb (field_type field) "float" then
    match float_of_str s with Ok f => Some (PFloat f) | Raise _ => None end
  else Some (PBool (existsb (String.eqb (lower s)) ["true"; "1"; "yes"; "on"])).

Definition passes (field : ConfigField) (s : string) : Prop :=
  exists coerced,
    read_as field s = Some coerced
    /\ within_range field coerced = true
    /\ validator_accepts field coerced = true.

Lemma passes_validates field s :
  field_type field = "integer" \/ field_type field = "float"
  \/ field_type field = "boolean" ->
  (_validate_value field (PStr s) = true <-> passes field s).
Proof.
  intros Hty. rewrite validate_value_in_order.
  unfold validate_in_order, passes, read_as, coercion, member.
  destruct Hty as [E|[E|E]]; rewrite E;
    cbn [String.eqb Ascii.eqb Bool.eqb py_int py_float].
  - destruct (int_of_str s) as [z|e].
    + split.
      * intros H. exists (PInt z). split; [reflexivity|].
        destruct (within_range field (PInt z)); [|discriminate H].
        split; [reflexivity|exact H].
      * intros (v & [= <-] & Hr & Hc). rewrite Hr. exact Hc.
    + split; [discriminate|]. intros (v & Hv & _). discriminate Hv.
  - destruct (float_of_str s) as [f|e].
    + split.
      * intros H. exists (PFloat f). split; [reflexivity|].
        destruct (within_range field (PFloat f)); [|discriminate H].
        split; [reflexivity|exact H].
      * intros (v & [= <-] & Hr & Hc). rewrite Hr. exact Hc.
    + split; [discriminate|]. intros (v & Hv & _). discriminate Hv.
  - set (v0 := PBool (existsb (String.eqb (lower s)) ["true"; "1"; "yes"; "on"])).
    split.
    + intros H. exists v0. split; [reflexivity|].
      destruct (within_range field v0); [|discriminate H].
      split; [reflexivity|exact H].
    + intros (v & Hv & Hr & Hc). assert (v = v0) by congruence. subst v.
      rewrite Hr. exact Hc.
Qed.

(** C10: for a field declared integer, float or boolean, on any client, a
    string that can be read as the declared type, is within the bounds and
    is accepted by the validator is coerced for the checks only: the call
    returns [True] and the value stored, the one [get_value] returns, is
    the string itself, which is not the coerced value.  A string is refused
    exactly when it does not pass these checks. *)
Theorem set_value_stores_uncoerced (p : ConfigPanel) (now : Q) (k : string)
    (field : ConfigField) (s : string) :
  _fields p !! k = Some field ->
  field_type field = "integer" \/ field_type field = "float"
  \/ field_type field = "boolean" ->
  (passes field s ->
   (exists coerced, type_validation field (PStr s) = Some coerced
                    /\ read_as field s = Some coerced
                    /\ coerced <> PStr s)
   /\ fst (set_value p now k (PStr s) true) = Ok true
   /\ get_value (snd (set_value p now k (PStr s) true)) k PNone = PStr s)
  /\ (~ passes field s -> set_value p now k (PStr s) true = (Ok false, p)).
Proof.
  intros Hf Hty. split.
  - intros Hp. pose proof (proj2 (passes_validates field s Hty) Hp) as Hv.
    assert (E : true && negb (_validate_value field (PStr s)) = false)
      by (rewrite Hv; reflexivity).
    split; [|split].
    + destruct Hp as (coerced & Hread & _). exists coerced.
      assert (Ht : type_validation field (PStr s) = Some coerced).
      { unfold type_validation, read_as in *.
        destruct Hty as [Ety|[Ety|Ety]]; rewrite Ety in *;
          cbn [String.eqb Ascii.eqb Bool.eqb andb negb isinstance_int
               isinstance_int_or_float isinstance_bool py_int py_float] in *;
          exact Hread. }
      split; [exact Ht|]. split; [exact Hread|].
      exact (type_validation_coerces_string field s coerced Hty Ht).
    + exact (set_value_string p now k field s true Hf E).
    + exact (get_value_after_set p now k field (PStr s) true Hf E).
  - intros Hn. apply (set_value_refused p now k field (PStr s) Hf).
    destruct (_validate_value field (PStr s)) eqn:Hv; [|reflexivity].
    exfalso. apply Hn. apply (passes_validates field s Hty). exact Hv.
Qed.

(** A string of 4301 digits: [int] refuses it. *)
Definition too_long : string := str_of (repeat "1"%char 4301).

(** An integer field without bounds. *)
Definition field_big : ConfigField :=
  {| key := "big"; field_type := "integer"; description := ""; default := PNone;
     required := false; min_value := None; max_value := None;
     options := None; restart_required := false; validation_func := None;
     category := "General" |}.

(** A float field whose upper bound is one half, taken as lower bound
    too. *)
Definition field_half : ConfigField :=
  {| key := "half"; field_type := "float"; description := ""; default := PNone;
     required := false; min_value := Some (NFloat (Fin (1 # 2)));
     max_value := Some (NFloat (Fin (1 # 2)));
     options := None; restart_required := false; validation_func := None;
     category := "General" |}.

Definition panel_big : ConfigPanel :=
  snd (add_field (snd (add_field panel_direct 1 field_big)) 1 field_half).

(** C10 on the panel of the example: the string of the digit seven is
    validated as the integer 7 and stored as a string.  On a client that
    raises its failures, a string of 4300 digits is stored as it is, one of
    4301 digits is refused, and a string of twenty digits that rounds to
    the float one half is within a range that holds one half only. *)
Lemma set_value_stores_uncoerced_witness :
  (type_validation field_n (PStr "7") = Some (PInt 7)
   /\ fst (set_value panel_n 1 "n" (PStr "7") true) = Ok true
   /\ get_value (snd (set_value panel_n 1 "n" (PStr "7") true)) "n" PNone = PStr "7")
  /\ set_value panel_big 2 "big" (PStr too_long) true = (Ok false, panel_big)
  /\ get_value (snd (set_value panel_big 2 "half" (PStr "0.49999999999999999999") true))
       "half" PNone = PStr "0.49999999999999999999".
Proof.
  assert (H7 : passes field_n "7").
  { exists (PInt 7). repeat split; vm_compute; reflexivity. }
  assert (Hhalf : passes field_half "0.49999999999999999999").
  { exists (PFloat (Fin (1 # 2))). repeat split; vm_compute; reflexivity. }
  assert (Hlong : ~ passes field_big too_long).
  { assert (Hnone : read_as field_big too_long = None) by (vm_compute; reflexivity).
    intros (v & Hv & _). rewrite Hnone in Hv. discriminate Hv. }
  split; [|split].
  - split; [vm_compute; reflexivity|].
    destruct (set_value_stores_uncoerced panel_n 1 "n" field_n "7") as [Hyes _];
      [vm_compute; reflexivity|left; reflexivity|].
    destruct (Hyes H7) as (_ & Hok & Hget). split; [exact Hok|exact Hget].
  - destruct (set_value_stores_uncoerced panel_big 2 "big" field_big too_long)
      as [_ Hno]; [vm_compute; reflexivity|left; reflexivity|].
    exact (Hno Hlong).
  - destruct (set_value_stores_uncoerced panel_big 2 "half" field_half
                "0.49999999999999999999") as [Hyes _];
      [vm_compute; reflexivity|right; left; reflexivity|].
    destruct (Hyes Hhalf) as (_ & _ & Hget). exact Hget.
Defined.

End ConfigProps.
Module DashboardProps.
Import Py Hawk Dashboard.
Local Open Scope Z_scope.

Definition fresh : Dashboard := new_dashboard "main" (new_client default_config 0).

Definition reading (_ : Q) : result pyval := Ok (PInt 42).

(** *** Widgets added without a position *)

Lemma dict_get_list_to_map (l : dict Z) (k : string) :
  dict_get l k = (list_to_map l : gmap string Z) !! k.
Proof.
  induction l as [|[k' v] l IH]; [reflexivity|].
  cbn [dict_get list_to_map foldr fst snd]. 
  change (foldr (fun kv => <[kv.1:=kv.2]>) ∅ l) with (list_to_map l : gmap string Z).
  destruct (String.eqb_spec k' k) as [->|Hne].
  - rewrite lookup_insert_eq. reflexivity.
  - rewrite lookup_insert_ne by exact Hne. exact IH.
Qed.

(** A layout without a row or without a column is not the layout that
    [_add_widget] compares with. *)
Lemma unplaced_not_default (l : dict Z) :
  dict_get l "row" = None \/ dict_get l "col" = None ->
  dict_eqb l default_layout = false.
Proof.
  intros H. unfold dict_eqb. apply bool_decide_eq_false. intros Heq.
  rewrite !dict_get_list_to_map, Heq in H.
  destruct H as [H|H]; vm_compute in H; discriminate H.
Qed.

Lemma send_widget_update_cursor d w data now :
  exists c, snd (_send_widget_update d w data now) = with_client d c.
Proof.
  unfold _send_widget_update.
  destruct (match data with PNone => get_data w now | _ => Ok data end) as [data2|e].
  - destruct (_send_message_async _ _ _ _ _) as [r c]. exists c. reflexivity.
  - exists (Dashboard.client d). destruct d; reflexivity.
Qed.

(** What [_add_widget] does with a widget whose layout is not the full
    default: the widget is kept as it is and the cursor does not move. *)
Lemma add_widget_unplaced d widget now :
  dict_eqb (layout (config widget)) default_layout = false ->
  _next_row (snd (_add_widget d widget now)) = _next_row d
  /\ _next_col (snd (_add_widget d widget now)) = _next_col d
  /\ _widgets (snd (_add_widget d widget now))
     = <[widget_id (config widget) := widget]> (_widgets d).
Proof.
  intros Hne. unfold _add_widget. rewrite Hne. cbv beta iota zeta.
  match goal with
  | |- context [_send_widget_update ?d2 widget PNone now] =>
      destruct (send_widget_update_cursor d2 widget PNone now) as [c Hc];
      destruct (_send_widget_update d2 widget PNone now) as [[?|?] d3];
      cbn [snd] in *; subst d3
  end;
    (destruct (Qlt_bool 0 (refresh_rate (config widget)));
     cbn [with_client with_widgets _next_row _next_col _widgets];
     repeat split; reflexivity).
Qed.

(** The layout keywords of a widget of width 5 and height 3. *)
Definition wide : dict Z := [("width", 5); ("height", 3)].

(** The dashboard after four calls of [add_metric] with [width=5,
    height=3], and after three calls without layout keywords. *)
Definition four_wide : Dashboard :=
  fold_left (fun d id => snd (add_metric d 0 id id reading "" 1 wide))
    ["a"; "b"; "c"; "d"] fresh.

Definition three_plain : Dashboard :=
  fold_left (fun d id => snd (add_metric d 0 id id reading "" 1 []))
    ["a"; "b"; "c"] fresh.

Definition layout_of (d : Dashboard) (id : string) : option (dict Z) :=
  option_map (fun w => layout (config w)) (_widgets d !! id).

(** C6 fails on the code: a widget added without an explicit position is
    not placed at all.  [_add_widget] calls [_auto_layout] only for a
    layout equal to [{"row": 0, "col": 0, "width": 4, "height": 3}], and a
    widget is built with the layout keywords of the call, or with
    [{"width": 4, "height": 3}] when there are none: for keywords without a
    row or without a column the test fails, the widget keeps the layout it
    was built with, which has no row or no column, and the layout cursor of
    the dashboard stays where it is.  Four widgets of width 5 added in turn
    all keep [{"width": 5, "height": 3}], none is at column 0, 5 or 10, and
    the cursor is still at row 0, column 0; so it is with widgets added
    without layout keywords. *)
Theorem widgets_without_position_are_not_placed (d : Dashboard) (now : Q)
    (widget_id_ title_ widget_type_ : string) (data_func_ : Q -> result pyval)
    (refresh : Q) (layout_kwargs : dict Z) (class_ : widget_class) :
  dict_get layout_kwargs "row" = None \/ dict_get layout_kwargs "col" = None ->
  let widget := new_widget widget_id_ title_ widget_type_ data_func_ refresh
                  layout_kwargs class_ in
  let r := _add_widget d widget now in
  (_next_row (snd r) = _next_row d /\ _next_col (snd r) = _next_col d)
  /\ layout_of (snd r) widget_id_
     = Some (match layout_kwargs with
             | [] => [("width", 4); ("height", 3)]
             | _ => layout_kwargs
             end)
  /\ (exists kept, layout_of (snd r) widget_id_ = Some kept
                   /\ (dict_get kept "row" = None \/ dict_get kept "col" = None))
  /\ (map (layout_of four_wide) ["a"; "b"; "c"; "d"]
      = [Some wide; Some wide; Some wide; Some wide]
      /\ (_next_row four_wide, _next_col four_wide) = (0, 0))
  /\ (map (layout_of three_plain) ["a"; "b"; "c"]
      = [Some [("width", 4); ("height", 3)]; Some [("width", 4); ("height", 3)];
         Some [("width", 4); ("height", 3)]]
      /\ (_next_row three_plain, _next_col three_plain) = (0, 0)).
Proof.
  intros Hpos widget r.
  assert (Hlay : layout (config widget)
                 = match layout_kwargs with
                   | [] => [("width", 4); ("height", 3)]
                   | _ => layout_kwargs
                   end) by (destruct layout_kwargs; reflexivity).
  assert (Hun : dict_get (layout (config widget)) "row" = None
                \/ dict_get (layout (config widget)) "col" = None).
  { rewrite Hlay. destruct layout_kwargs; [left; reflexivity|exact Hpos]. }
  destruct (add_widget_unplaced d widget now (unplaced_not_default _ Hun))
    as (Hrow & Hcol & Hw).
  assert (Hkept : layout_of (snd r) widget_id_ = Some (layout (config widget))).
  { unfold layout_of. subst r. rewrite Hw.
    change (widget_id (config widget)) with widget_id_.
    rewrite lookup_insert_eq. reflexivity. }
  split; [split; assumption|].
  split; [rewrite Hkept, Hlay; reflexivity|].
  split; [exists (layout (config widget)); split; assumption|].
  split; (split; vm_compute; reflexivity).
Qed.

(** Width 5 and height 3 given, no position: the widget is stored with the
    layout it was given, and the cursor stays at the origin. *)
Lemma widgets_without_position_witness :
  layout_of (snd (add_metric fresh 0 "cpu" "CPU" reading "%" 1 wide)) "cpu" = Some wide
  /\ _next_col (snd (add_metric fresh 0 "cpu" "CPU" reading "%" 1 wide)) = 0.
Proof.
  destruct (widgets_without_position_are_not_placed fresh 0 "cpu" "CPU" "gauge" reading
              1 wide (MetricWidget "%") (or_introl eq_refl))
    as ((_ & Hcol) & Hlay & _).
  split; [exact Hlay|exact Hcol].
Defined.


(** *** The refresh loop and [remove_widget] *)

(** A dashboard with one metric widget, refreshed every second. *)
Definition with_cpu : result DashboardWidget * Dashboard :=
  add_metric fresh 0 "cpu" "CPU" reading "%" 1 [].

Definition cpu_widget : DashboardWidget :=
  new_widget "cpu" "CPU" "gauge" reading 1 [] (MetricWidget "%").

(** The [widget_id] parameters of the messages queued in a client. *)
Definition queued_widget_ids (c : HawkClient) : list (string * option pyval) :=
  map (fun m => (method m, dict_get (params m) "widget_id")) (_buffer c).

Lemma refresh_turn_ends d widget t0 t1 :
  refresh_turn d widget t0 t1 = Ends
  <-> Dashboard._shutdown d = true \/ enabled (config widget) = false.
Proof.
  unfold refresh_turn.
  destruct (Dashboard._shutdown d), (enabled (config widget)); cbn [negb andb];
    try (split; [intros _; auto|reflexivity]).
  split.
  - destruct (get_data widget t0) as [data|e].
    + destruct (_send_widget_update d widget data t0) as [[|e] d1];
        [discriminate|].
      destruct (error _ _ _) as [[|e'] c]; discriminate.
    + destruct (error _ _ _) as [[|e'] c]; discriminate.
  - intros [H|H]; discriminate.
Qed.

(** C8 fails on the code: the loop of [_refresh_worker] tests [_shutdown]
    and the widget's [enabled] flag and nothing else, so [remove_widget]
    does not end it: removal changes neither, and the thread of a removed
    widget goes on queueing [hawk.dashboard] messages for its id.  After
    [add_metric] (one message) and [remove_widget], three more turns of the
    thread queue three more messages for the removed widget. *)
Theorem refresh_loop_ignores_removal :
  (forall d widget widget_id_ t0 t1,
      refresh_turn (remove_widget d widget_id_) widget t0 t1 = Ends
      <-> Dashboard._shutdown d = true \/ enabled (config widget) = false)
  /\ fst with_cpu = Ok cpu_widget
  /\ started (snd with_cpu) = [cpu_widget]
  /\ _widgets (remove_widget (snd with_cpu) "cpu") !! "cpu" = None
  /\ snd (_refresh_worker (remove_widget (snd with_cpu) "cpu") cpu_widget
            [(1, 1); (2, 2); (3, 3)]%Q) = true
  /\ queued_widget_ids
       (Dashboard.client
          (fst (_refresh_worker (remove_widget (snd with_cpu) "cpu") cpu_widget
                  [(1, 1); (2, 2); (3, 3)]%Q)))
     = [("hawk.dashboard", Some (PStr "cpu")); ("hawk.dashboard", Some (PStr "cpu"));
        ("hawk.dashboard", Some (PStr "cpu")); ("hawk.dashboard", Some (PStr "cpu"))].
Proof.
  split.
  - intros d widget widget_id_ t0 t1.
    rewrite refresh_turn_ends. reflexivity.
  - repeat split; vm_compute; reflexivity.
Qed.

End DashboardProps.

(** * Properties of [ProgressTracker] *)
Module ProgressProps.
Import Py Hawk ProgressTracker.
Local Open Scope Z_scope.

(** A tracker on a client of the default configuration. *)
Definition fresh : ProgressTracker := new_tracker (new_client default_config 0).

(** The state after [start("job", "Job", 10)] at time 0 and
    [start("part", "Part", 5, parent_id="job")] at time 1. *)
Definition with_child : ProgressTracker :=
  match start fresh 0 "job" "Job" (NInt 10) "" None with
  | Returns t =>
      match start t 1 "part" "Part" (NInt 5) "" (Some "job") with
      | Returns t' => t'
      | _ => t
      end
  | _ => fresh
  end.

Definition returns (o : outcome) : bool :=
  match o with Returns _ => true | _ => false end.

Lemma Qlt_bool_iff (a b : Q) : Qlt_bool a b = true <-> (a < b)%Q.
Proof.
  unfold Qlt_bool. rewrite negb_true_iff. split.
  - intros H. apply Qnot_le_lt. intros Hle.
    apply Qle_bool_iff in Hle. congruence.
  - intros H. destruct (Qle_bool b a) eqn:E; [|reflexivity].
    apply Qle_bool_iff in E. exfalso. exact (Qlt_not_le _ _ H E).
Qed.

Lemma Qlt_bool_false (a b : Q) : (b <= a)%Q -> Qlt_bool a b = false.
Proof.
  intros H. unfold Qlt_bool. apply Qle_bool_iff in H. rewrite H. reflexivity.
Qed.

(** The keywords that [update] passes always repeat the positional
    parameter [current]. *)
Lemma update_keywords_clash (unit__ : pyval) (cur details : pyval)
    (estimate : option string) (keywords : dict pyval) :
  call_keywords "hawk.HawkClient.progress" [("unit", unit__)]
    match estimate with
    | Some e => if str_truthy e
                then dict_set [("current", cur); ("details", details)]
                       "estimated_completion" (PStr e)
                else [("current", cur); ("details", details)]
    | None => [("current", cur); ("details", details)]
    end = Ok keywords ->
  bind_keywords "HawkClient.progress" ["progress_id"; "label"; "current"; "total"] keywords
  = Raise (TypeError "HawkClient.progress() got multiple values for argument 'current'").
Proof.
  destruct estimate as [e|]; [destruct (str_truthy e)|];
    cbv; intros [= <-]; reflexivity.
Qed.

Lemma update_keywords_ok (unit__ : pyval) (cur details : pyval)
    (estimate : option string) :
  exists keywords,
    call_keywords "hawk.HawkClient.progress" [("unit", unit__)]
      match estimate with
      | Some e => if str_truthy e
                  then dict_set [("current", cur); ("details", details)]
                         "estimated_completion" (PStr e)
                  else [("current", cur); ("details", details)]
      | None => [("current", cur); ("details", details)]
      end = Ok keywords.
Proof.
  destruct estimate as [e|]; [destruct (str_truthy e)|];
    eexists; cbv; reflexivity.
Qed.

(** What [update] leaves of an active record when the estimate is
    computed without an exception. *)
Definition update_record (pd : progress_data) (now now_dt : Q) (current_ : number)
    (estimate : option Q) : progress_data :=
  updated pd now current_
    match estimate with
    | Some secs => Some (isoformat (now_dt + secs))
    | None => estimated_completion pd
    end.

Lemma update_always_raises (t : ProgressTracker) (now now_dt : Q)
    (progress_id : string) (current_ : number) (details : option string)
    (pd : progress_data) (estimate : option Q) :
  _lock t = false ->
  _active_progress t !! progress_id = Some pd ->
  eta_seconds pd now current_ = Ok estimate ->
  update t now now_dt progress_id current_ details
  = Raises (TypeError "HawkClient.progress() got multiple values for argument 'current'")
      (with_active t (<[progress_id := update_record pd now now_dt current_ estimate]>
                        (_active_progress t))).
Proof.
  intros Hl Ha He. unfold update. rewrite Hl, Ha, He. cbv zeta.
  fold (update_record pd now now_dt current_ estimate).
  set (pd' := update_record pd now now_dt current_ estimate).
  set (d := match details with Some d => _ | None => _ end).
  destruct (update_keywords_ok (PStr (unit_ pd')) (number_val current_) (PStr d)
              (estimated_completion pd')) as [kw Hkw].
  rewrite Hkw. unfold progress.
  rewrite (update_keywords_clash _ _ _ _ _ Hkw). reflexivity.
Qed.

Lemma eta_seconds_finite (pd : progress_data) (now : Q) (current_ : number)
    (c tot : Q) :
  float_of_number current_ = Fin c ->
  float_of_number (total pd) = Fin tot ->
  (0 < now - start_time pd)%Q -> (0 < c)%Q ->
  exists secs, eta_seconds pd now current_ = Ok (Some secs)
               /\ (secs == (tot - c) / (c / (now - start_time pd)))%Q.
Proof.
  intros Hc Ht He Hpos. unfold eta_seconds.
  rewrite (proj2 (Qlt_bool_iff _ _) He).
  unfold number_ltb. rewrite Hc.
  change (float_ltb (float_of_number (NInt 0)) (Fin c)) with (Qlt_bool 0 c).
  rewrite (proj2 (Qlt_bool_iff _ _) Hpos). cbn [andb].
  unfold float_div at 1.
  assert (Hz : Qeq_bool (now - start_time pd) 0 = false).
  { destruct (Qeq_bool (now - start_time pd) 0) eqn:E; [|reflexivity].
    apply Qeq_bool_eq in E. rewrite E in He. exfalso. exact (Qlt_irrefl _ He). }
  rewrite Hz. cbn [float_ltb].
  assert (Hrate : (0 < c / (now - start_time pd))%Q).
  { apply Qlt_shift_div_l; [exact He|]. rewrite Qmult_0_l. exact Hpos. }
  rewrite (proj2 (Qlt_bool_iff _ _) Hrate).
  assert (Hz' : Qeq_bool (c / (now - start_time pd)) 0 = false).
  { destruct (Qeq_bool (c / (now - start_time pd)) 0) eqn:E; [|reflexivity].
    apply Qeq_bool_eq in E. rewrite E in Hrate. exfalso. exact (Qlt_irrefl _ Hrate). }
  assert (Hrem : exists r, float_of_number (number_sub (total pd) current_) = Fin r
                           /\ (r == tot - c)%Q).
  { destruct (total pd) as [x|f], current_ as [y|g]; cbn in Hc, Ht |- *.
    - injection Hc as <-. injection Ht as <-. eexists. split; [reflexivity|].
      unfold Zminus. rewrite inject_Z_plus, inject_Z_opp. reflexivity.
    - subst g. injection Ht as <-. eexists. split; reflexivity.
    - subst f. injection Hc as <-. eexists. split; reflexivity.
    - subst f g. eexists. split; reflexivity. }
  destruct Hrem as (r & Hr & Hreq). rewrite Hr.
  unfold float_div. rewrite Hz'. cbn [timedelta_seconds].
  eexists. split; [reflexivity|]. rewrite Hreq. reflexivity.
Qed.

Lemma eta_seconds_none (pd : progress_data) (now : Q) (current_ : number) :
  (now - start_time pd <= 0)%Q \/ number_ltb (NInt 0) current_ = false ->
  eta_seconds pd now current_ = Ok None.
Proof.
  intros [H|H]; unfold eta_seconds.
  - rewrite (Qlt_bool_false _ _ H). reflexivity.
  - rewrite H, andb_false_r. reflexivity.
Qed.

(** C7 (code bug).  [ProgressTracker.update] on an active operation computes
    the estimate [now + (total - current) / (current / elapsed)] when
    [current > 0] and [elapsed > 0] and none otherwise, and stores it in the
    record; but its call of [client.progress] passes [current] both by
    position and through [**params], so the call is a [TypeError] and no
    progress envelope is ever emitted: the client is left as it was. *)
Theorem update_never_emits (t : ProgressTracker) (now now_dt : Q)
    (progress_id : string) (current_ : number) (details : option string)
    (pd : progress_data)
    (Hlock : _lock t = false)
    (Hactive : _active_progress t !! progress_id = Some pd) :
  (* no envelope: the call raises and the client is untouched *)
  (exists e t', update t now now_dt progress_id current_ details = Raises e t'
                /\ client t' = client t)
  (* the estimate that is stored, and the exception *)
  /\ (forall c tot,
        float_of_number current_ = Fin c ->
        float_of_number (total pd) = Fin tot ->
        (0 < now - start_time pd)%Q -> (0 < c)%Q ->
        exists secs,
          (secs == (tot - c) / (c / (now - start_time pd)))%Q
          /\ update t now now_dt progress_id current_ details
             = Raises (TypeError "HawkClient.progress() got multiple values for argument 'current'")
                 (with_active t
                    (<[progress_id := updated pd now current_
                                        (Some (isoformat (now_dt + secs)))]>
                       (_active_progress t))))
  (* no estimate *)
  /\ ((now - start_time pd <= 0)%Q \/ number_ltb (NInt 0) current_ = false ->
      update t now now_dt progress_id current_ details
      = Raises (TypeError "HawkClient.progress() got multiple values for argument 'current'")
          (with_active t
             (<[progress_id := updated pd now current_ (estimated_completion pd)]>
                (_active_progress t)))).
Proof.
  split; [|split].
  - unfold update. rewrite Hlock, Hactive.
    destruct (eta_seconds pd now current_) as [estimate|e] eqn:He.
    + pose proof (update_always_raises t now now_dt progress_id current_ details
                    pd estimate Hlock Hactive He) as H.
      unfold update in H. rewrite Hlock, Hactive, He in H. rewrite H.
      eexists _, _. split; reflexivity.
    + eexists _, _. split; reflexivity.
  - intros c tot Hc Ht He Hpos.
    destruct (eta_seconds_finite pd now current_ c tot Hc Ht He Hpos) as (secs & Hs & Heq).
    exists secs. split; [exact Heq|].
    exact (update_always_raises t now now_dt progress_id current_ details pd
             (Some secs) Hlock Hactive Hs).
  - intros H.
    exact (update_always_raises t now now_dt progress_id current_ details pd
             None Hlock Hactive (eta_seconds_none pd now current_ H)).
Qed.

(** The record of ["job"] after the two calls of [start]. *)
Definition job_record : progress_data :=
  {| id := "job"; label := "Job"; total := NInt 10; current := NInt 0;
     unit_ := ""; start_time := 0; last_update := 0; parent_id := None;
     children := {["part"]}; estimated_completion := None; end_time := None;
     success := None; duration := None |}.

Lemma with_child_job : _active_progress with_child !! "job" = Some job_record.
Proof. vm_compute. reflexivity. Qed.

Lemma with_child_lock : _lock with_child = false.
Proof. vm_compute. reflexivity. Qed.

(** [update("job", 4)] two seconds after the start: the estimate is three
    seconds ahead, and the call raises without queueing anything. *)
Lemma update_never_emits_witness :
  _buffer (client with_child)
  = [ {| method := "hawk.progress";
         params := [("id", PStr "job"); ("label", PStr "Job");
                    ("current", PFloat (Fin 0)); ("total", PFloat (Fin 10));
                    ("status", PStr "pending")];
         message_id := None; timestamp := 0 |};
      {| method := "hawk.progress";
         params := [("id", PStr "part"); ("label", PStr "Part");
                    ("current", PFloat (Fin 0)); ("total", PFloat (Fin 5));
                    ("status", PStr "pending")];
         message_id := None; timestamp := 1 |} ]
  /\ exists e t',
      update with_child 2 100 "job" (NInt 4) None = Raises e t'
      /\ client t' = client with_child
      /\ e = TypeError "HawkClient.progress() got multiple values for argument 'current'"
      /\ option_map estimated_completion (_active_progress t' !! "job")
         = Some (Some "1970-01-01T00:01:43+00:00").
Proof.
  split; [vm_compute; reflexivity|].
  destruct (update_never_emits with_child 2 100 "job" (NInt 4) None job_record
              with_child_lock with_child_job) as ((e & t' & Hu & Hc) & _ & _).
  exists e, t'. split; [exact Hu|]. split; [exact Hc|].
  assert (Hv : update with_child 2 100 "job" (NInt 4) None
               = Raises (TypeError "HawkClient.progress() got multiple values for argument 'current'")
                   (with_active with_child
                      (<["job" := updated job_record 2 (NInt 4)
                                    (Some "1970-01-01T00:01:43+00:00")]>
                         (_active_progress with_child))))
    by (vm_compute; reflexivity).
  rewrite Hv in Hu. injection Hu as <- <-.
  split; [reflexivity|]. vm_compute. reflexivity.
Defined.

Lemma complete_children_blocks (call : ProgressTracker -> string -> outcome)
    (t : ProgressTracker) (child_ids : list string) :
  child_ids <> [] ->
  (forall child_id, call t child_id = Blocks t) ->
  complete_children call t child_ids = Blocks t.
Proof.
  intros Hne Hcall. destruct child_ids as [|child_id r]; [congruence|].
  cbn. rewrite Hcall. reflexivity.
Qed.

Lemma complete_children_never_returns (call : ProgressTracker -> string -> outcome)
    (t : ProgressTracker) (child_ids : list string) :
  child_ids <> [] ->
  (forall child_id, returns (call t child_id) = false) ->
  returns (complete_children call t child_ids) = false.
Proof.
  intros Hne Hcall. destruct child_ids as [|child_id r]; [congruence|].
  cbn. specialize (Hcall child_id).
  destruct (call t child_id); try discriminate; reflexivity.
Qed.

Lemma complete_on_held_lock (fuel : nat) (t : ProgressTracker) (now : Q)
    (progress_id : string) (success_ : bool) (final_message : option string) :
  _lock t = true ->
  returns (complete fuel t now progress_id success_ final_message) = false.
Proof.
  intros Hl. destruct fuel as [|fuel]; cbn; [reflexivity|].
  rewrite Hl. reflexivity.
Qed.

(** C4 (code bug).  [self._lock] is a [threading.Lock], which the thread
    that holds it cannot take again; [complete] of an operation that has a
    registered child calls [self.complete(child)] inside its own
    [with self._lock:] block.  So the call never returns (at no depth of the
    recursion), it blocks with the lock held, and neither record reaches the
    history: the tracker is as before but for the lock. *)
Theorem complete_parent_blocks (t : ProgressTracker) (now : Q)
    (progress_id : string) (success_ : bool) (final_message : option string)
    (pd : progress_data)
    (Hlock : _lock t = false)
    (Hactive : _active_progress t !! progress_id = Some pd)
    (Hchildren : children pd <> ∅) :
  (forall fuel,
     returns (complete fuel t now progress_id success_ final_message) = false)
  /\ (forall fuel,
        complete (S (S fuel)) t now progress_id success_ final_message
        = Blocks (with_lock t true))
  /\ _progress_history (with_lock t true) = _progress_history t
  /\ _active_progress (with_lock t true) = _active_progress t.
Proof.
  assert (Hne : elements (children pd) <> []).
  { intros E. apply Hchildren. apply elements_empty_inv in E.
    apply leibniz_equiv. exact E. }
  split; [|split; [|split; reflexivity]].
  - intros [|fuel]; [reflexivity|].
    cbn [complete]. rewrite Hlock.
    change (_active_progress (with_lock t true)) with (_active_progress t).
    rewrite Hactive.
    pose proof (complete_children_never_returns
                  (fun t' child_id => complete fuel t' now child_id success_ None)
                  (with_lock t true) _ Hne
                  (fun child_id => complete_on_held_lock fuel (with_lock t true) now
                                     child_id success_ None eq_refl)) as H.
    destruct (complete_children _ _ _); try reflexivity. discriminate H.
  - intros fuel. cbn [complete]. rewrite Hlock.
    change (_active_progress (with_lock t true)) with (_active_progress t).
    rewrite Hactive.
    rewrite (complete_children_blocks _ (with_lock t true) _ Hne); [reflexivity|].
    intros child_id. reflexivity.
Qed.

Lemma job_has_child : children job_record <> ∅.
Proof. exact (non_empty_singleton_L (C := gset string) "part"). Qed.

(** [complete("job")] after a child was started under it. *)
Lemma complete_parent_blocks_witness :
  complete 10 with_child 2 "job" true None = Blocks (with_lock with_child true)
  /\ returns (complete 10 with_child 2 "job" true None) = false.
Proof.
  destruct (complete_parent_blocks with_child 2 "job" true None job_record
              with_child_lock with_child_job job_has_child) as (H1 & H2 & _).
  split; [exact (H2 8%nat)|exact (H1 10%nat)].
Defined.

End ProgressProps.

(** * Properties of [AuditLogger] *)
Module AuditProps.
Import Py Hawk AuditLogger.
Local Open Scope Z_scope.

Definition empty_fs : file_system := {| contents := ∅; read_only := ∅ |}.

(** A logger on the file ["audit.log"], which does not exist yet. *)
Definition fresh : AuditLogger :=
  new_logger (Some "audit.log") (new_client default_config 0) "s-1" empty_fs.

(** [count] calls of [log_access], one second apart. *)
Fixpoint log_accesses (count : nat) (l : AuditLogger) (now : Q) : AuditLogger :=
  match count with
  | O => l
  | S n =>
      log_accesses n
        (snd (log_access l now "10.0.0.1" "alice" "/etc/passwd" "read" "success" None))
        (now + 1)
  end.

(** One call of each of the three public methods. *)
Definition three_records : AuditLogger :=
  let l1 := snd (log_access fresh 100 "10.0.0.1" "alice" "/etc/passwd" "read"
                   "success" None) in
  let l2 := snd (log_config_change l1 (203 # 2) "10.0.0.1" "bob" "port" "80" "8080") in
  snd (log_command l2 102 "10.0.0.1" "carol" "ls" ["-l"; "/tmp"] "success" None).

Definition report (l : AuditLogger) (now : Q) : option (dict pyval) :=
  option_map fst (verify_integrity l now).

Definition completed (verified corrupted : Z) (integrity : Q) : dict pyval :=
  [("status", PStr "completed"); ("verified", PInt verified);
   ("corrupted", PInt corrupted); ("integrity", PFloat (Fin integrity))].

(** The first record that [three_records] writes, and the same record with
    the checksum of its fields without the key ["checksum"]. *)
Definition first_event : dict pyval :=
  [("timestamp", PStr "1970-01-01T00:01:40+00:00"); ("session_id", PStr "s-1");
   ("sequence", PInt 1); ("event_type", PStr "access");
   ("data", PDict [("user", PStr "alice"); ("resource", PStr "/etc/passwd");
                   ("action", PStr "read"); ("result", PStr "success");
                   ("details", PDict [])]);
   ("source_ip", PStr "10.0.0.1")].

Definition line_of (event : dict pyval) (checksum : string) : string :=
  match Json.dumps None false (PDict (event ++ [("checksum", PStr checksum)])) with
  | Ok line => line
  | Raise _ => ""
  end.

Definition checksum_with_null (event : dict pyval) : string :=
  match Json.dumps None true (PDict (event ++ [("checksum", PNone)])) with
  | Ok text => checksum_of text
  | Raise _ => ""
  end.

Definition checksum_without (event : dict pyval) : string :=
  match Json.dumps None true (PDict event) with
  | Ok text => checksum_of text
  | Raise _ => ""
  end.

(** C1 (code bug).  [_log_audit_event] computes the checksum over the event
    while it still holds the entry ["checksum": None], and [verify_integrity]
    removes the key before it computes the checksum again; the two texts
    differ, so the records that the logger itself writes are counted as
    corrupted: none is verified, whether the file was touched or not.  A line
    is verified when its checksum is that of the fields without the key. *)
Theorem untouched_log_reported_corrupted :
  (* one record of each kind *)
  report three_records 103 = Some (completed 0 3 (0 # 3))
  (* a hundred records *)
  /\ report (log_accesses 100 fresh 100) 200 = Some (completed 0 100 (0 # 100))
  (* the line of the first record, and the two checksums *)
  /\ (exists rest,
        option_map (fun text => readlines (chars text) [])
          (contents (fs three_records) !! "audit.log")
        = Some (line_of first_event "b41b136230bca1e6" :: rest))
  /\ checksum_with_null first_event = "b41b136230bca1e6"
  /\ checksum_without first_event = "ab76bbad992a7669"
  /\ verify_line (line_of first_event (checksum_with_null first_event)) = Corrupted true
  /\ verify_line (line_of first_event (checksum_without first_event)) = Verified.
Proof.
  split; [vm_compute; reflexivity|].
  split; [vm_compute; reflexivity|].
  split; [eexists; vm_compute; reflexivity|].
  split; [vm_compute; reflexivity|].
  split; [vm_compute; reflexivity|].
  split; vm_compute; reflexivity.
Qed.

End AuditProps.

(** * Further properties of [HawkClient] *)
Module HawkMore.
Import Py Hawk HawkProps.
Local Open Scope Z_scope.

(** What a flush can change of the client: the sequence number and the two
    output streams. *)
Lemma flush_batch_client c ms :
  exists out err,
    snd (_flush_batch c ms)
    = {| _config := _config c; session_id := session_id c;
         sequence := sequence c + Z.of_nat (length ms); _buffer := _buffer c;
         maxsize := maxsize c;
         _shutdown := _shutdown c; _context_stack := _context_stack c;
         stdout := out; stderr := err |}.
Proof.
  unfold _flush_batch. destruct ms as [|m ms].
  - exists (stdout c), (stderr c). cbn [snd length Z.of_nat].
    rewrite Z.add_0_r. destruct c; reflexivity.
  - assert (Hp : snd (flush_payload c (m :: ms))
                 = with_sequence c (sequence c + Z.of_nat (length (m :: ms)))).
    { unfold flush_payload. destruct ms as [|m' ms']; [reflexivity|].
      rewrite batch_jsonrpc_spec. reflexivity. }
    destruct (flush_payload c (m :: ms)) as [payload c1]. cbn [snd] in Hp. subst c1.
    destruct (Json.dumps _ _ _).
    + eexists _, _. reflexivity.
    + destruct (debug (_config _)); destruct (graceful_fallback (_config _));
        eexists _, _; reflexivity.
Qed.

Lemma flush_batch_shutdown c ms : _shutdown (snd (_flush_batch c ms)) = _shutdown c.
Proof. destruct (flush_batch_client c ms) as (out & err & ->). reflexivity. Qed.

Lemma flush_batch_sequence c ms :
  sequence (snd (_flush_batch c ms)) = sequence c + Z.of_nat (length ms).
Proof. destruct (flush_batch_client c ms) as (out & err & ->). reflexivity. Qed.

Lemma flush_batch_session c ms : session_id (snd (_flush_batch c ms)) = session_id c.
Proof. destruct (flush_batch_client c ms) as (out & err & ->). reflexivity. Qed.

Lemma shutdown_flag c : _shutdown (snd (shutdown c)) = true.
Proof.
  unfold shutdown, shutdown_drain. destruct (_shutdown c) eqn:E; [exact E|].
  cbn [_buffer with_shutdown]. destruct (_buffer c) as [|m r]; [reflexivity|].
  rewrite flush_batch_shutdown. reflexivity.
Qed.

Lemma shutdown_buffer c : _shutdown c = false -> _buffer (snd (shutdown c)) = [].
Proof.
  intros E. unfold shutdown, shutdown_drain. rewrite E.
  cbn [_buffer with_shutdown]. destruct (_buffer c) as [|m r] eqn:Hb.
  - cbn. exact Hb.
  - rewrite flush_batch_buffer. reflexivity.
Qed.

(** X1.  [shutdown] is final: on a running client it empties the queue and
    writes what was queued with one call of [_flush_batch] (one line when
    the batch serializes, as a JSON array when it holds two messages or
    more); afterwards every message handed to the client is dropped without
    an error, and a second [shutdown] does nothing. *)
Theorem shutdown_is_final (c : HawkClient) (Hrunning : _shutdown c = false) :
  _shutdown (snd (shutdown c)) = true
  /\ _buffer (snd (shutdown c)) = []
  /\ (forall line,
        (2 <= length (_buffer c))%nat ->
        Json.dumps (Some _json_serializer) false
          (PList (envelopes_from (app_name (_config c)) (session_id c) (sequence c)
                    (_buffer c))) = Ok line ->
        stdout (snd (shutdown c)) = stdout c ++ [line])
  /\ (forall now method_ params_ message_id_,
        _send_message_async (snd (shutdown c)) now method_ params_ message_id_
        = (Ok tt, snd (shutdown c)))
  /\ shutdown (snd (shutdown c)) = (Ok tt, snd (shutdown c)).
Proof.
  split; [apply shutdown_flag|]. split; [apply shutdown_buffer; exact Hrunning|].
  split; [|split].
  - intros line Hlen Hd. unfold shutdown, shutdown_drain. rewrite Hrunning.
    cbn [_buffer with_shutdown].
    destruct (_buffer c) as [|m r] eqn:Hb; [cbn in Hlen; lia|].
    rewrite (flush_many _ (m :: r) line Hlen); [reflexivity|exact Hd].
  - intros. unfold _send_message_async. rewrite shutdown_flag. reflexivity.
  - unfold shutdown at 1. rewrite shutdown_flag. reflexivity.
Qed.

(** Three notes queued on a client whose worker has not run yet. *)
Definition queued : HawkClient :=
  send_all (new_client small_config 0) [note 1; note 2; note 3].

Lemma shutdown_is_final_witness :
  _buffer queued = [note 1; note 2; note 3]
  /\ _shutdown (snd (shutdown queued)) = true
  /\ _buffer (snd (shutdown queued)) = []
  /\ length (stdout (snd (shutdown queued))) = 1%nat
  /\ _buffer (snd (_send_message_async (snd (shutdown queued)) 9 "hawk.log"
                     [("message", PStr "late")] None)) = [].
Proof.
  assert (Hrun : _shutdown queued = false) by (vm_compute; reflexivity).
  destruct (shutdown_is_final queued Hrun) as (Hf & Hb & _ & Hs & _).
  split; [vm_compute; reflexivity|]. split; [exact Hf|]. split; [exact Hb|].
  split; [vm_compute; reflexivity|].
  rewrite Hs. exact Hb.
Defined.

Lemma send_after_shutdown c now meth ps mid :
  _shutdown c = true -> _send_message_async c now meth ps mid = (Ok tt, c).
Proof. intros H. unfold _send_message_async. rewrite H. reflexivity. Qed.

Lemma shutdown_drain_flag c : _shutdown (snd (shutdown_drain c)) = _shutdown c.
Proof.
  unfold shutdown_drain. destruct (_buffer c) as [|m r]; [reflexivity|].
  rewrite flush_batch_shutdown. reflexivity.
Qed.

(** Once the flag is set and the worker is at its loop test, or has
    returned, nothing touches the locals of the worker any more. *)
Lemma worker_out (schedule : list action) : forall s,
  _shutdown (shared s) = true -> at_ s = AtTest \/ at_ s = Returned ->
  locals (run s schedule) = locals s
  /\ (schedule <> [] -> Forall (fun a => exists t, a = WorkerStep t) schedule ->
      run s schedule = {| shared := shared s; locals := locals s; at_ := Returned |}).
Proof.
  unfold run.
  induction schedule as [|a r IH]; intros s Hsd Hat; [split; [reflexivity|congruence]|].
  cbn [fold_left].
  assert (Hstep : _shutdown (shared (step s a)) = true
                  /\ (at_ (step s a) = AtTest \/ at_ (step s a) = Returned)
                  /\ locals (step s a) = locals s
                  /\ ((exists t, a = WorkerStep t) ->
                      step s a = {| shared := shared s; locals := locals s;
                                    at_ := Returned |})).
  { destruct a as [t|m| |]; cbn [step].
    - destruct Hat as [Hat|Hat]; rewrite Hat; [rewrite Hsd; cbn|];
        (split; [exact Hsd|]); (split; [right; try reflexivity; exact Hat|]);
        (split; [reflexivity|]); intros _; [reflexivity|].
      destruct s; cbn in *; subst; reflexivity.
    - rewrite (send_after_shutdown _ _ _ _ _ Hsd). cbn.
      split; [exact Hsd|]. split; [exact Hat|]. split; [reflexivity|].
      intros [t Ht]; discriminate.
    - cbn. split; [reflexivity|]. split; [exact Hat|]. split; [reflexivity|].
      intros [t Ht]; discriminate.
    - cbn. rewrite shutdown_drain_flag.
      split; [exact Hsd|]. split; [exact Hat|]. split; [reflexivity|].
      intros [t Ht]; discriminate. }
  destruct Hstep as (Hsd' & Hat' & Hloc & Hw).
  destruct (IH (step s a) Hsd' Hat') as [IH1 IH2].
  split; [rewrite IH1; exact Hloc|].
  intros _ Hall. inversion Hall as [|? ? Ha Hr]; subst.
  specialize (Hw Ha). destruct r as [|a' r'].
  - cbn [fold_left]. exact Hw.
  - rewrite IH2; [|discriminate|exact Hr]. rewrite Hw. reflexivity.
Qed.

(** X2.  Shutdown and the local batch of the worker.  [shutdown] flushes
    the queue only.  A worker that is inside a turn of its loop when the
    flag is set (waiting in [get], or about to evaluate the flush
    conditions) flushes its whole batch at the end of this turn, whatever
    the size of the batch and the time since the last flush, and leaves the
    loop at the next test.  A worker that is at the loop test when the flag
    is set leaves the loop at once: whatever the threads do afterwards, its
    batch stays where it is and is never written. *)
Theorem worker_batch_at_shutdown (s : threads)
    (Hflag : _shutdown (shared s) = true) (Hbatch : batch (locals s) <> []) :
  (at_ s = AtFlush ->
   forall t t',
     let s1 := step s (WorkerStep t) in
     flushes (locals s1) = flushes (locals s) ++ [batch (locals s)]
     /\ batch (locals s1) = []
     /\ stdout (shared s1)
        = stdout (snd (_flush_batch (shared s) (batch (locals s))))
     /\ at_ (step s1 (WorkerStep t')) = Returned)
  /\ (at_ s = AtGet ->
      forall t,
        let s1 := step s (WorkerStep t) in
        at_ s1 = AtFlush /\ _shutdown (shared s1) = true
        /\ exists taken, batch (locals s1) = batch (locals s) ++ taken
                         /\ taken ++ _buffer (shared s1) = _buffer (shared s))
  /\ (at_ s = AtTest ->
      forall schedule,
        locals (run s schedule) = locals s
        /\ (forall t, at_ (step s (WorkerStep t)) = Returned)).
Proof.
  split; [|split].
  - intros Hat t t' s1. subst s1. cbn [step]. rewrite Hat.
    destruct (worker_flush_fires (shared s) (locals s) t Hbatch
                (or_intror (or_intror Hflag))) as (Hf & Hb & _ & Hout).
    assert (Hsd : _shutdown (fst (worker_flush (shared s) (locals s) t)) = true).
    { unfold worker_flush. destruct (_ && _); [|exact Hflag].
      pose proof (flush_batch_shutdown (shared s) (batch (locals s))) as H.
      destruct (_flush_batch _ _) as [[?|e] c2]; cbn [fst snd] in *;
        [|destruct (debug (_config c2)); cbn [print_err _shutdown]];
        rewrite H; exact Hflag. }
    destruct (worker_flush (shared s) (locals s) t) as [c1 w1].
    cbn [fst snd locals shared at_ step] in *. rewrite Hsd.
    repeat split; assumption.
  - intros Hat t s1. subst s1. cbn [step]. rewrite Hat.
    destruct (worker_get_conserves (shared s) (locals s)) as (Hc & _ & _ & _ & _ & Hsd).
    unfold worker_get in *.
    destruct (_buffer (shared s)) as [|m rest] eqn:Hbuf; cbn [get_nowait] in *;
      cbn [fst snd locals shared at_ batch with_buffer _buffer _shutdown] in *.
    + split; [reflexivity|]. split; [exact Hflag|].
      exists []. rewrite app_nil_r, Hbuf. split; reflexivity.
    + split; [reflexivity|]. split; [exact Hflag|].
      exists [m]. split; reflexivity.
  - intros Hat schedule. split.
    + exact (proj1 (worker_out schedule s Hflag (or_introl Hat))).
    + intros t. cbn [step]. rewrite Hat, Hflag. reflexivity.
Qed.

(** The worker of a client with one note queued, after a first turn
    within the interval: it holds the note and stands at the loop test. *)
Definition holding : threads :=
  run {| shared := snd (send (new_client small_config 0) (note 1));
         locals := worker_start 0; at_ := AtTest |}
      [WorkerStep 0; WorkerStep 0; WorkerStep (1 # 100)].

(** The same worker one step further: it has passed the test and waits in
    [get]. *)
Definition waiting : threads := step holding (WorkerStep 0).

Lemma worker_batch_at_shutdown_witness :
  (batch (locals holding) = [note 1] /\ at_ holding = AtTest /\ at_ waiting = AtGet)
  /\ (let lost := run holding [SetShutdown; DrainAndFlush; WorkerStep (5 # 1);
                               WorkerStep (6 # 1)] in
      batch (locals lost) = [note 1] /\ flushes (locals lost) = []
      /\ stdout (shared lost) = [] /\ at_ lost = Returned)
  /\ (let kept := run waiting [SetShutdown; DrainAndFlush; WorkerStep 0;
                               WorkerStep (2 # 100); WorkerStep 0] in
      batch (locals kept) = [] /\ flushes (locals kept) = [[note 1]]
      /\ length (stdout (shared kept)) = 1%nat /\ at_ kept = Returned).
Proof.
  split; [repeat split; vm_compute; reflexivity|].
  assert (Hne : batch (locals (step holding SetShutdown)) <> [])
    by (vm_compute; discriminate).
  destruct (worker_batch_at_shutdown (step holding SetShutdown) eq_refl Hne)
    as (_ & _ & Htest).
  destruct (Htest eq_refl [DrainAndFlush; WorkerStep (5 # 1); WorkerStep (6 # 1)])
    as [Hloc _].
  split.
  - cbv zeta. change (run holding [SetShutdown; DrainAndFlush; WorkerStep (5 # 1);
                                   WorkerStep (6 # 1)])
      with (run (step holding SetShutdown)
              [DrainAndFlush; WorkerStep (5 # 1); WorkerStep (6 # 1)]).
    rewrite Hloc. repeat split; vm_compute; reflexivity.
  - repeat split; vm_compute; reflexivity.
Defined.

(** X3.  Sequence numbers: a flush takes one number per message, whether
    the batch could be serialized or not, so the envelopes of successive
    flushes are numbered without repetition. *)
Theorem flush_takes_one_number_per_message (c : HawkClient)
    (first second : list HawkMessage) :
  sequence (snd (_flush_batch c first)) = sequence c + Z.of_nat (length first)
  /\ fst (batch_jsonrpc (snd (_flush_batch c first)) second)
     = envelopes_from (app_name (_config c)) (session_id c)
         (sequence c + Z.of_nat (length first)) second.
Proof.
  split; [apply flush_batch_sequence|].
  rewrite batch_jsonrpc_spec. cbn [fst].
  rewrite flush_batch_config, flush_batch_sequence, flush_batch_session.
  reflexivity.
Qed.

Lemma worker_flush_lines c w t :
  exists lines,
    stdout (fst (worker_flush c w t)) = stdout c ++ lines
    /\ (length lines + length (flushes w) <= length (flushes (snd (worker_flush c w t))))%nat.
Proof.
  unfold worker_flush. destruct (_ && _).
  - pose proof (flush_batch_stdout c (batch w)) as H.
    destruct (_flush_batch c (batch w)) as [[?|e] c2]; cbn [fst snd] in *;
      [|assert (Herr : stdout (if debug (_config c2)
                               then print_err c2 ("Hawk worker error: " +:+ exn_str e)
                               else c2) = stdout c2)
          by (destruct (debug (_config c2)); reflexivity); rewrite Herr];
      (destruct H as [H|[line H]]; rewrite H;
       [exists []; rewrite app_nil_r|exists [line]];
       (split; [reflexivity|]); cbn [flushes length]; rewrite length_app;
       cbn [length]; lia).
  - exists []. rewrite app_nil_r. split; [reflexivity|]. cbn [fst snd length]. lia.
Qed.

Lemma worker_lines times : forall c w,
  exists lines,
    stdout (fst (_message_worker c w times)) = stdout c ++ lines
    /\ (length lines + length (flushes w)
        <= length (flushes (snd (_message_worker c w times))))%nat.
Proof.
  induction times as [|t r IH]; intros c w.
  - exists []. rewrite app_nil_r. split; [reflexivity|]. cbn. lia.
  - cbn [_message_worker]. unfold worker_turn.
    destruct (_shutdown c).
    + exists []. rewrite app_nil_r. split; [reflexivity|]. cbn. lia.
    + destruct (worker_get_conserves c w) as (_ & Hgf & _ & Hgo & _).
      destruct (worker_get c w) as [c1 w1]. cbn [fst snd] in Hgf, Hgo.
      destruct (worker_flush_lines c1 w1 t) as (l1 & Hl1 & Hn1).
      destruct (worker_flush c1 w1 t) as [c2 w2]. cbn [fst snd] in Hl1, Hn1.
      destruct (IH c2 w2) as (l2 & Hl2 & Hn2).
      exists (l1 ++ l2). rewrite Hl2, Hl1, Hgo, <- app_assoc.
      split; [reflexivity|]. rewrite length_app. rewrite Hgf in Hn1. lia.
Qed.

(** X4.  The worker, left to itself, hands the queued messages to
    [_flush_batch] in order and each of them once: at any moment the
    batches it has handed over, its local batch and the queue, put end to
    end, are the queue it started from.  It writes at most one line for
    each batch handed over, and nothing else. *)
Theorem worker_hands_over_in_order (c : HawkClient) (started : Q) (times : list Q) :
  concat (flushes (snd (_message_worker c (worker_start started) times)))
  ++ batch (snd (_message_worker c (worker_start started) times))
  ++ _buffer (fst (_message_worker c (worker_start started) times))
  = _buffer c
  /\ exists lines,
       stdout (fst (_message_worker c (worker_start started) times)) = stdout c ++ lines
       /\ (length lines
           <= length (flushes (snd (_message_worker c (worker_start started) times))))%nat.
Proof.
  split; [rewrite worker_conserves; reflexivity|].
  destruct (worker_lines times c (worker_start started)) as (lines & H1 & H2).
  exists lines. split; [exact H1|]. cbn [worker_start flushes length] in H2. lia.
Qed.

End HawkMore.

(** * Further properties of the JSON encoder and decoder *)
Module JsonMore.
Import Py Json.
Local Open Scope Z_scope.

Lemma chars_app (a b : string) : chars (a +:+ b) = chars a ++ chars b.
Proof.
  unfold chars. induction a as [|c a IH]; [reflexivity|].
  change (list_ascii_of_string (String c (a +:+ b))
          = c :: (list_ascii_of_string a ++ list_ascii_of_string b)).
  cbn [list_ascii_of_string]. f_equal. exact IH.
Qed.

Lemma str_of_chars (s : string) : str_of (chars s) = s.
Proof. apply string_of_list_ascii_of_string. Qed.

Lemma chars_str_of (l : list ascii) : chars (str_of l) = l.
Proof. apply list_ascii_of_string_of_list_ascii. Qed.

Lemma chars_concat (l : list string) :
  chars (String.concat "" l) = List.concat (map chars l).
Proof.
  induction l as [|x l IH]; [reflexivity|].
  cbn [String.concat map List.concat]. destruct l as [|y l].
  - cbn. rewrite app_nil_r. reflexivity.
  - rewrite !chars_app. cbn [chars list_ascii_of_string app]. rewrite IH. reflexivity.
Qed.

(** The decoder reads the escape of a character as that character. *)
Lemma scanstring_escape_char (c : ascii) (r acc : list ascii) :
  scanstring (chars (escape_char c) ++ r) acc = scanstring r (c :: acc).
Proof.
  destruct c as [[] [] [] [] [] [] [] []]; reflexivity.
Qed.

Lemma scanstring_escaped (l : list ascii) : forall rest acc,
  scanstring (List.concat (map (fun c => chars (escape_char c)) l)
              ++ chars dquote ++ rest) acc
  = Scanned (str_of (rev acc ++ l)) rest.
Proof.
  induction l as [|c l IH]; intros rest acc.
  - cbn. rewrite app_nil_r. reflexivity.
  - cbn [map List.concat]. rewrite <- app_assoc, scanstring_escape_char, IH.
    cbn [rev]. rewrite <- app_assoc. reflexivity.
Qed.

Lemma scan_once_quote (fuel depth : nat) (r : list ascii) :
  scan_once (S fuel) depth ("034"%char :: r) = string_value (scanstring r []).
Proof. reflexivity. Qed.

Lemma skip_whitespace_quote (r : list ascii) :
  skip_whitespace ("034"%char :: r) = "034"%char :: r.
Proof. reflexivity. Qed.

(** Strings survive the JSON round trip, whatever their characters (quotes,
    backslashes, control characters, code points from 128 to 255): decoding
    the encoding of a string of the model gives the string back, and the
    decoder stops right after the closing quote. *)
Lemma string_round_trip (s : string) :
  loads (encode_str s) = Loaded (PStr s)
  /\ forall rest,
       scanstring (List.tl (chars (encode_str s)) ++ rest) [] = Scanned s rest.
Proof.
  assert (Hc : chars (encode_str s)
               = chars dquote
                 ++ List.concat (map (fun c => chars (escape_char c)) (chars s))
                 ++ chars dquote).
  { unfold encode_str. rewrite !chars_app, chars_concat, map_map. reflexivity. }
  assert (Hs : forall rest,
             scanstring (List.tl (chars (encode_str s)) ++ rest) [] = Scanned s rest).
  { intros rest. rewrite Hc. cbn [chars dquote list_ascii_of_string app List.tl].
    rewrite <- (List.app_assoc _ _ rest).
    change [("034"%char : ascii)] with (chars dquote).
    rewrite (scanstring_escaped (chars s) rest []). cbn [rev app].
    rewrite str_of_chars. reflexivity. }
  split; [|exact Hs].
  unfold loads. specialize (Hs []). rewrite app_nil_r in Hs.
  rewrite Hc in *. cbn [chars dquote list_ascii_of_string app List.tl] in *.
  rewrite skip_whitespace_quote.
  replace (2 * length ("034"%char :: List.concat
                         (map (fun c => chars (escape_char c)) (chars s))
                       ++ ["034"%char]) + 2)%nat
    with (S (2 * length ("034"%char :: List.concat
                           (map (fun c => chars (escape_char c)) (chars s))
                         ++ ["034"%char]) + 1))%nat by lia.
  rewrite scan_once_quote, Hs. reflexivity.
Qed.

End JsonMore.

(** * Further properties of [ConfigPanel] *)
Module ConfigMore.
Import Py Hawk ConfigPanel ConfigProps.
Local Open Scope Z_scope.

Lemma Qlt_bool_inject_Z (a b : Z) : Qlt_bool (inject_Z a) (inject_Z b) = (a <? b).
Proof.
  unfold Qlt_bool, Qle_bool, inject_Z. cbn [Qnum Qden].
  rewrite !Z.mul_1_r. rewrite Z.ltb_antisym. reflexivity.
Qed.

Lemma validate_integer_in_range field lo hi z :
  field_type field = "integer" ->
  min_value field = Some (NInt lo) ->
  max_value field = Some (NInt hi) ->
  validation_func field = None ->
  _validate_value field (PInt z) = (lo <=? z) && (z <=? hi).
Proof.
  intros Ht Hlo Hhi Hf.
  unfold _validate_value, type_validation, range_validation, custom_validation.
  rewrite Ht, Hlo, Hhi, Hf. cbn [String.eqb Ascii.eqb Bool.eqb isinstance_int negb andb
                                  isinstance_int_or_float isinstance_bool].
  cbn [lt_number gt_number as_number]. unfold number_ltb.
  cbn [float_of_number float_ltb]. rewrite !Qlt_bool_inject_Z.
  rewrite (Z.leb_antisym z lo), (Z.leb_antisym hi z).
  destruct (z <? lo), (hi <? z); reflexivity.
Qed.

(** X6.  The bounds of an integer field are inclusive: with a minimum and a
    maximum and no custom validator, [set_value] accepts an [int] exactly
    when it lies between the two, ends included, and refuses it without any
    change otherwise. *)
Theorem integer_range_is_inclusive (p : ConfigPanel) (now : Q) (k : string)
    (field : ConfigField) (lo hi z : Z)
    (Hfield : _fields p !! k = Some field)
    (Hquiet : quiet (client p))
    (Htype : field_type field = "integer")
    (Hmin : min_value field = Some (NInt lo))
    (Hmax : max_value field = Some (NInt hi))
    (Hfunc : validation_func field = None) :
  (fst (set_value p now k (PInt z) true) = Ok true <-> lo <= z <= hi)
  /\ (lo <= z <= hi -> get_value (snd (set_value p now k (PInt z) true)) k PNone = PInt z)
  /\ (~ lo <= z <= hi -> set_value p now k (PInt z) true = (Ok false, p)).
Proof.
  pose proof (validate_integer_in_range field lo hi z Htype Hmin Hmax Hfunc) as Hv.
  assert (Hin : lo <= z <= hi -> _validate_value field (PInt z) = true).
  { intros [H1 H2]. rewrite Hv. apply andb_true_intro. split; apply Z.leb_le; assumption. }
  assert (Hout : ~ lo <= z <= hi -> _validate_value field (PInt z) = false).
  { intros H. rewrite Hv. apply andb_false_iff.
    destruct (Z.leb_spec lo z); [|left; reflexivity].
    destruct (Z.leb_spec z hi); [|right; reflexivity]. exfalso. apply H. lia. }
  split; [|split].
  - split.
    + intros Hok. destruct (Z_le_dec lo z) as [H1|H1], (Z_le_dec z hi) as [H2|H2];
        try (split; assumption);
        rewrite (set_value_refused p now k field (PInt z) Hfield) in Hok
          by (apply Hout; lia); discriminate Hok.
    + intros H. apply (set_value_accepted p now k field (PInt z) true Hquiet Hfield).
      rewrite (Hin H). reflexivity.
  - intros H. apply (get_value_after_set p now k field (PInt z) true Hfield).
    rewrite (Hin H). reflexivity.
  - intros H. apply (set_value_refused p now k field (PInt z) Hfield (Hout H)).
Qed.

Lemma panel_n_field : _fields panel_n !! "n" = Some field_n.
Proof. vm_compute. reflexivity. Qed.

Lemma panel_n_quiet : quiet (client panel_n).
Proof. left. vm_compute. reflexivity. Qed.

Lemma integer_range_is_inclusive_witness :
  fst (set_value panel_n 1 "n" (PInt 10) true) = Ok true
  /\ fst (set_value panel_n 1 "n" (PInt 1) true) = Ok true
  /\ set_value panel_n 1 "n" (PInt 11) true = (Ok false, panel_n)
  /\ set_value panel_n 1 "n" (PInt 0) true = (Ok false, panel_n).
Proof.
  split; [|split; [|split]].
  - apply (integer_range_is_inclusive panel_n 1 "n" field_n 1 10 10 panel_n_field
             panel_n_quiet eq_refl eq_refl eq_refl eq_refl). lia.
  - apply (integer_range_is_inclusive panel_n 1 "n" field_n 1 10 1 panel_n_field
             panel_n_quiet eq_refl eq_refl eq_refl eq_refl). lia.
  - apply (integer_range_is_inclusive panel_n 1 "n" field_n 1 10 11 panel_n_field
             panel_n_quiet eq_refl eq_refl eq_refl eq_refl). lia.
  - apply (integer_range_is_inclusive panel_n 1 "n" field_n 1 10 0 panel_n_field
             panel_n_quiet eq_refl eq_refl eq_refl eq_refl). lia.
Defined.

(** X7.  [add_field] does not validate the default: on a key that has no
    value yet the default becomes the value as it is, even one that
    [set_value] refuses for this very field. *)
Theorem add_field_default_not_validated (p : ConfigPanel) (now later : Q)
    (field : ConfigField)
    (Hnew : _values p !! key field = None)
    (Hdefault : default field <> PNone) :
  get_value (snd (add_field p now field)) (key field) PNone = default field
  /\ (_validate_value field (default field) = false ->
      set_value (snd (add_field p now field)) later (key field) (default field) true
      = (Ok false, snd (add_field p now field))).
Proof.
  assert (Hstate : _values (snd (add_field p now field))
                   = <[key field := default field]> (_values p)
                   /\ _fields (snd (add_field p now field))
                      = <[key field := field]> (_fields p)).
  { unfold add_field. cbv zeta.
    set (p2 := match _values (with_field p field) !! key field, default field with
               | Some _, _ => with_field p field
               | None, PNone => with_field p field
               | None, d => with_values (with_field p field)
                              (<[key field := d]> (_values (with_field p field)))
               end).
    assert (H2 : _values p2 = <[key field := default field]> (_values p)
                 /\ _fields p2 = <[key field := field]> (_fields p)).
    { subst p2. change (_values (with_field p field)) with (_values p).
      rewrite Hnew. destruct (default field); try congruence; split; reflexivity. }
    pose proof (send_config_field_state p2 now field) as [Hs1 Hs2].
    destruct (_send_config_field p2 now field) as [[?|?] ?]; cbn [snd] in *;
      rewrite Hs1, Hs2; exact H2. }
  destruct Hstate as [Hv Hfs].
  assert (Hf : _fields (snd (add_field p now field)) !! key field = Some field)
    by (rewrite Hfs; apply lookup_insert_eq).
  split.
  - unfold get_value. rewrite Hv, lookup_insert_eq. reflexivity.
  - intros Hbad. apply (set_value_refused _ later _ field _ Hf Hbad).
Qed.

(** A field whose default lies outside its own range. *)
Definition field_bad_default : ConfigField :=
  {| key := "m"; field_type := "integer"; description := ""; default := PInt 50;
     required := false; min_value := Some (NInt 1); max_value := Some (NInt 10);
     options := None; restart_required := false; validation_func := None;
     category := "General" |}.

Lemma add_field_default_not_validated_witness :
  get_value (snd (add_field panel_n 1 field_bad_default)) "m" PNone = PInt 50
  /\ fst (set_value (snd (add_field panel_n 1 field_bad_default)) 2 "m" (PInt 50) true)
     = Ok false.
Proof.
  assert (Hnew : _values panel_n !! key field_bad_default = None)
    by (vm_compute; reflexivity).
  assert (Hd : default field_bad_default <> PNone) by discriminate.
  destruct (add_field_default_not_validated panel_n 1 2 field_bad_default Hnew Hd)
    as [H1 H2].
  split; [exact H1|].
  change (key field_bad_default) with "m" in H2.
  change (default field_bad_default) with (PInt 50) in H2.
  rewrite H2; [reflexivity|]. vm_compute. reflexivity.
Defined.

Lemma save_to_file_client p : client (_save_to_file p) = client p.
Proof. unfold _save_to_file. destruct (_config_file p); reflexivity. Qed.

(** X8.  A change callback that raises does not undo the change: the value
    is stored, [set_value] returns [True], and the exception is reported by
    an error log sent after the update message. *)
Theorem callback_failure_keeps_change (p : ConfigPanel) (now : Q) (k : string)
    (field : ConfigField) (value : pyval) (cb : callback) (e : exn)
    (Hfield : _fields p !! k = Some field)
    (Hquiet : quiet (client p))
    (Hvalid : _validate_value field value = true)
    (Hcb : _callbacks p !! k = Some cb)
    (Hraise : cb k (match _values p !! k with Some v => v | None => PNone end) value
              = Raise e) :
  fst (set_value p now k value true) = Ok true
  /\ get_value (snd (set_value p now k value true)) k PNone = value
  /\ client (snd (set_value p now k value true))
     = snd (error
              (snd (_send_message_async (client p) now "hawk.config"
                      [("key", PStr k); ("value", value); ("panel", PStr (name p))]
                      None))
              now ("Config callback error for " +:+ k +:+ ": " +:+ exn_str e)).
Proof.
  assert (Hv : true && negb (_validate_value field value) = false)
    by (rewrite Hvalid; reflexivity).
  split; [exact (set_value_accepted p now k field value true Hquiet Hfield Hv)|].
  split; [exact (get_value_after_set p now k field value true Hfield Hv)|].
  unfold set_value. rewrite Hfield, Hv.
  unfold _send_config_update. cbn [client with_values name].
  destruct (send_quiet (client p) now "hawk.config"
              [("key", PStr k); ("value", value); ("panel", PStr (name p))] None Hquiet)
    as [Hr Hq'].
  destruct (_send_message_async _ _ _ _ _) as [r c]. cbn [fst snd] in Hr, Hq' |- *.
  subst r. cbn [_callbacks with_client with_values _values client].
  unfold callback in *. rewrite Hcb, Hraise.
  destruct (error_quiet c now
              ("Config callback error for " +:+ k +:+ ": " +:+ exn_str e) Hq')
    as [Hr' _].
  destruct (error _ _ _) as [r' c']. cbn [fst] in Hr'. subst r'.
  cbv beta iota. cbn [snd].
  match goal with
  | |- client (if ?b then _ else _) = _ =>
      destruct b; [rewrite save_to_file_client|]; reflexivity
  end.
Qed.

(** A callback that refuses every change with an exception. *)
Definition failing_callback : callback :=
  fun _ _ _ => Raise (ValueError "no").

Lemma callback_failure_keeps_change_witness :
  fst (set_value (on_change panel_n "n" failing_callback) 1 "n" (PInt 7) true) = Ok true
  /\ get_value (snd (set_value (on_change panel_n "n" failing_callback) 1 "n"
                       (PInt 7) true)) "n" PNone = PInt 7
  /\ map (fun m => dict_get (params m) "message")
       (_buffer (client (snd (set_value (on_change panel_n "n" failing_callback)
                                1 "n" (PInt 7) true))))
     = [None; None; Some (PStr "Config callback error for n: no")].
Proof.
  assert (Hq : quiet (client (on_change panel_n "n" failing_callback)))
    by (left; vm_compute; reflexivity).
  destruct (callback_failure_keeps_change (on_change panel_n "n" failing_callback)
              1 "n" field_n (PInt 7) failing_callback (ValueError "no")
              ltac:(vm_compute; reflexivity) Hq ltac:(vm_compute; reflexivity)
              ltac:(vm_compute; reflexivity) eq_refl) as (H1 & H2 & H3).
  split; [exact H1|]. split; [exact H2|].
  rewrite H3. vm_compute. reflexivity.
Defined.

End ConfigMore.

(** * Further properties of [Dashboard] *)
Module DashboardMore.
Import Py Hawk Dashboard ConfigProps DashboardProps.
Local Open Scope Z_scope.

(** Sending a widget update changes nothing of the dashboard but its
    client. *)
Lemma send_widget_update_keeps d w data now :
  exists c, snd (_send_widget_update d w data now) = with_client d c.
Proof.
  unfold _send_widget_update.
  destruct (match data with PNone => get_data w now | _ => Ok data end) as [data2|e].
  - destruct (_send_message_async _ _ _ _ _) as [r c]. exists c. reflexivity.
  - exists (Dashboard.client d). destruct d; reflexivity.
Qed.


(** X9.  A widget added without layout arguments is not placed: its layout
    is [{"width": 4, "height": 3}], with no row and no column, because the
    automatic layout runs only for a layout equal to the full default
    [{"row": 0, "col": 0, "width": 4, "height": 3}]; the layout cursor of
    the dashboard does not move. *)
Theorem widget_without_layout_is_not_placed (d : Dashboard) (now : Q)
    (widget_id_ title_ widget_type_ : string) (data_func_ : Q -> result pyval)
    (refresh : Q) (class_ : widget_class) :
  let r := _add_widget d (new_widget widget_id_ title_ widget_type_ data_func_
                            refresh [] class_) now in
  _next_row (snd r) = _next_row d
  /\ _next_col (snd r) = _next_col d
  /\ option_map (fun w => layout (config w)) (_widgets (snd r) !! widget_id_)
     = Some [("width", 4); ("height", 3)].
Proof.
  cbv zeta. unfold _add_widget.
  change (layout (config (new_widget widget_id_ title_ widget_type_ data_func_
                            refresh [] class_)))
    with [("width", 4); ("height", 3)].
  replace (dict_eqb [("width", 4); ("height", 3)] default_layout) with false
    by (vm_compute; reflexivity).
  cbv beta iota zeta.
  set (w := new_widget widget_id_ title_ widget_type_ data_func_ refresh [] class_).
  change (widget_id (config w)) with widget_id_.
  match goal with
  | |- context [_send_widget_update ?d2 w PNone now] =>
      destruct (send_widget_update_keeps d2 w PNone now) as [c Hc];
      destruct (_send_widget_update d2 w PNone now) as [[?|?] d3];
      cbn [snd] in *; subst d3
  end;
    (destruct (Qlt_bool 0 (refresh_rate (config w)));
     cbn [with_client with_widgets _next_row _next_col _widgets];
     rewrite lookup_insert_eq; repeat split; reflexivity).
Qed.

(** X10.  A widget whose data function raises when the widget is added is
    registered all the same: [_add_widget] stores it and starts its refresh
    thread before it sends the first update, so the exception reaches the
    caller of [add_metric] and friends with the widget already in place. *)
Theorem add_widget_failure_still_registers (d : Dashboard) (widget : DashboardWidget)
    (now : Q) (e : exn)
    (Hraise : get_data widget now = Raise e) :
  fst (_add_widget d widget now) = Raise e
  /\ exists kept,
       _widgets (snd (_add_widget d widget now)) !! widget_id (config widget) = Some kept
       /\ data_func kept = data_func widget
       /\ (Qlt_bool 0 (refresh_rate (config widget)) = true ->
           started (snd (_add_widget d widget now)) = started d ++ [kept]).
Proof.
  unfold _add_widget.
  set (placed := if dict_eqb (layout (config widget)) default_layout then _ else _).
  assert (Hp : exists l d1,
             placed = Ok (with_layout widget l, d1)
             /\ _widgets d1 = _widgets d /\ started d1 = started d
             /\ Dashboard.client d1 = Dashboard.client d).
  { subst placed. destruct (dict_eqb _ _) eqn:Heq.
    - unfold dict_eqb in Heq. apply bool_decide_eq_true in Heq.
      rewrite !dict_get_list_to_map, Heq.
      change ((list_to_map default_layout : gmap string Z) !! "width") with (Some 4).
      change ((list_to_map default_layout : gmap string Z) !! "height") with (Some 3).
      cbv beta iota. unfold _auto_layout. cbv zeta.
      eexists _, _. split; [reflexivity|].
      destruct (_max_cols d <? _next_col d + 4); repeat split; reflexivity.
    - exists (layout (config widget)), d. split; [|repeat split; reflexivity].
      destruct widget as [[] ? ?]; reflexivity. }
  destruct Hp as (l & d1 & -> & Hw & Hs & Hc). cbv beta iota zeta.
  set (w1 := with_layout widget l).
  assert (Hraise1 : get_data w1 now = Raise e) by exact Hraise.
  change (widget_id (config w1)) with (widget_id (config widget)).
  change (refresh_rate (config w1)) with (refresh_rate (config widget)).
  assert (Hsend : forall d2, _send_widget_update d2 w1 PNone now = (Raise e, d2)).
  { intros d2. unfold _send_widget_update. rewrite Hraise1. reflexivity. }
  rewrite Hsend. cbn [fst snd]. split; [reflexivity|].
  exists w1. destruct (Qlt_bool 0 (refresh_rate (config widget)));
    cbn [with_widgets _widgets started]; rewrite lookup_insert_eq;
    (split; [reflexivity|]); (split; [reflexivity|]); intros H;
    [rewrite Hs; reflexivity|discriminate H].
Qed.

(** A data function that always raises. *)
Definition broken (_ : Q) : result pyval := Raise (ValueError "sensor offline").

Lemma add_widget_failure_still_registers_witness :
  fst (add_metric fresh 0 "temp" "Temperature" broken "C" 1 [])
  = Raise (ValueError "sensor offline")
  /\ exists kept,
       _widgets (snd (add_metric fresh 0 "temp" "Temperature" broken "C" 1 []))
         !! "temp" = Some kept
       /\ started (snd (add_metric fresh 0 "temp" "Temperature" broken "C" 1 []))
          = [kept].
Proof.
  destruct (add_widget_failure_still_registers fresh
              (new_widget "temp" "Temperature" "gauge" broken 1 [] (MetricWidget "C"))
              0 (ValueError "sensor offline") eq_refl) as (H1 & kept & H2 & _ & H4).
  split; [exact H1|]. exists kept. split; [exact H2|]. exact (H4 eq_refl).
Defined.


Lemma refresh_turn_failing d widget t0 t1 e :
  Dashboard._shutdown d = false -> enabled (config widget) = true ->
  quiet (Dashboard.client d) ->
  get_data widget t0 = Raise e ->
  exists c, refresh_turn d widget t0 t1 = Continues (with_client d c) /\ quiet c.
Proof.
  intros Hs He Hq Hr. unfold refresh_turn. rewrite Hs, He, Hr. cbn [negb andb].
  match goal with
  | |- context [error ?c ?t ?m] =>
      destruct (error_quiet c t m Hq) as [Hok Hq'];
      destruct (error c t m) as [r c']
  end.
  cbn [fst snd] in *. subst r. exists c'. split; [reflexivity|exact Hq'].
Qed.

(** X11.  Errors never stop a refresh thread: while the data function of a
    widget keeps raising, every turn of the loop reports the error and goes
    on; the thread is still running after any number of turns, and no
    refresh is counted. *)
Theorem refresh_errors_never_stop_loop (widget : DashboardWidget)
    (times : list (Q * Q)) (d : Dashboard)
    (Hrunning : Dashboard._shutdown d = false)
    (Henabled : enabled (config widget) = true)
    (Hquiet : quiet (Dashboard.client d))
    (Hbroken : forall t, exists e, get_data widget t = Raise e) :
  snd (_refresh_worker d widget times) = true
  /\ _refresh_stats (fst (_refresh_worker d widget times)) = _refresh_stats d
  /\ _widgets (fst (_refresh_worker d widget times)) = _widgets d.
Proof.
  revert d Hrunning Hquiet. induction times as [|[t0 t1] times IH]; intros d Hs Hq.
  - repeat split; reflexivity.
  - cbn [_refresh_worker]. destruct (Hbroken t0) as [e He].
    destruct (refresh_turn_failing d widget t0 t1 e Hs Henabled Hq He) as (c & -> & Hq').
    destruct (IH (with_client d c) Hs Hq') as (H1 & H2 & H3).
    split; [exact H1|]. split; [rewrite H2|rewrite H3]; reflexivity.
Qed.

Lemma refresh_errors_never_stop_loop_witness :
  snd (_refresh_worker fresh
         (new_widget "temp" "Temperature" "gauge" broken 1 [] (MetricWidget "C"))
         [(1, 1); (2, 2); (3, 3)]%Q) = true
  /\ map (fun m => dict_get (params m) "message")
       (_buffer (Dashboard.client
                   (fst (_refresh_worker fresh
                           (new_widget "temp" "Temperature" "gauge" broken 1 []
                              (MetricWidget "C"))
                           [(1, 1); (2, 2); (3, 3)]%Q))))
     = [Some (PStr "Widget refresh error: temp: sensor offline");
        Some (PStr "Widget refresh error: temp: sensor offline");
        Some (PStr "Widget refresh error: temp: sensor offline")].
Proof.
  split; [|vm_compute; reflexivity].
  apply (refresh_errors_never_stop_loop
           (new_widget "temp" "Temperature" "gauge" broken 1 [] (MetricWidget "C"))
           [(1, 1); (2, 2); (3, 3)]%Q fresh eq_refl eq_refl).
  - left. vm_compute. reflexivity.
  - intros t. exists (ValueError "sensor offline"). reflexivity.
Defined.




End DashboardMore.

(** * Further properties of [ProgressTracker] *)
Module ProgressMore.
Import Py Hawk ProgressTracker ConfigProps ProgressProps.
Local Open Scope Z_scope.

(** A call of [client.progress] with keywords among [unit], [status] and
    [details] does not raise on a quiet client. *)
Lemma progress_quiet c now progress_id label_ current_ total_ keywords :
  quiet c ->
  bind_keywords "HawkClient.progress" ["progress_id"; "label"; "current"; "total"] keywords = Ok tt ->
  fst (progress c now progress_id label_ current_ total_ keywords) = Ok tt
  /\ quiet (snd (progress c now progress_id label_ current_ total_ keywords)).
Proof.
  intros Hq Hb. unfold progress. rewrite Hb. unfold progress_body.
  apply send_quiet. exact Hq.
Qed.

Lemma after_emit_quiet t r :
  fst r = Ok tt -> after_emit t r = Returns (with_client t (snd r)).
Proof. destruct r as [[[]|e] c]; cbn; intros H; [reflexivity|discriminate H]. Qed.

Lemma complete_childless_returns (t : ProgressTracker) (now : Q)
    (progress_id : string) (success_ : bool) (pd : progress_data) (fuel : nat)
    (Hlock : _lock t = false)
    (Hactive : _active_progress t !! progress_id = Some pd)
    (Hchildless : children pd = ∅)
    (Hquiet : quiet (client t)) :
  exists t',
    complete (S fuel) t now progress_id success_ None = Returns t'
    /\ _lock t' = false
    /\ _active_progress t' = delete progress_id (_active_progress t)
    /\ _progress_history t'
       = <[progress_id := completed pd now success_]> (_progress_history t)
    /\ duration (completed pd now success_) = Some (now - start_time pd)%Q
    /\ client t'
       = snd (progress (client t) now progress_id (label pd) (total pd) (total pd)
                [("unit", PStr (unit_ pd));
                 ("status", PStr (if success_ then "completed" else "error"));
                 ("details", PStr (if success_ then "Operation completed"
                                   else "Operation failed"))]).
Proof.
  cbn [complete]. rewrite Hlock.
  change (_active_progress (with_lock t true)) with (_active_progress t).
  rewrite Hactive, Hchildless, elements_empty. cbn [complete_children].
  cbv zeta.
  match goal with
  | |- context [after_emit ?t2 ?r] =>
      assert (Hr : fst r = Ok tt)
        by (apply progress_quiet; [exact Hquiet|reflexivity]);
      rewrite (after_emit_quiet t2 r Hr)
  end.
  eexists. split; [reflexivity|]. repeat split.
Qed.


Definition solo : ProgressTracker :=
  match start fresh 0 "job" "Job" (NInt 10) "" None with
  | Returns t => t
  | _ => fresh
  end.


(** The record that [start] creates. *)
Definition started_record (progress_id label_ : string) (total_ : number)
    (unit__ : string) (now : Q) (parent_id_ : option string) : progress_data :=
  {| id := progress_id; label := label_; total := total_; current := NInt 0;
     unit_ := unit__; start_time := now; last_update := now;
     parent_id := parent_id_; children := ∅; estimated_completion := None;
     end_time := None; success := None; duration := None |}.

(** X14.  [start] with the identifier of an active parent registers the new
    operation among the children of the parent; with a parent that is not
    active it registers nothing, and the operation is started all the
    same. *)
Theorem start_registers_child (t : ProgressTracker) (now : Q)
    (progress_id label_ : string) (total_ : number) (unit__ parent : string)
    (Hlock : _lock t = false)
    (Hquiet : quiet (client t))
    (Hname : parent <> "")
    (Hother : parent <> progress_id) :
  exists t',
    start t now progress_id label_ total_ unit__ (Some parent) = Returns t'
    /\ _lock t' = false
    /\ _active_progress t' !! progress_id
       = Some (started_record progress_id label_ total_ unit__ now (Some parent))
    /\ (forall pd, _active_progress t !! parent = Some pd ->
          _active_progress t' !! parent = Some (add_child pd progress_id)
          /\ children (add_child pd progress_id) = {[progress_id]} ∪ children pd)
    /\ (_active_progress t !! parent = None ->
        _active_progress t'
        = <[progress_id := started_record progress_id label_ total_ unit__ now
                             (Some parent)]> (_active_progress t)).
Proof.
  unfold start. rewrite Hlock. cbv zeta.
  fold (started_record progress_id label_ total_ unit__ now (Some parent)).
  assert (Ht : str_truthy parent = true).
  { unfold str_truthy. destruct (String.eqb_spec parent ""); [contradiction|reflexivity]. }
  rewrite Ht, lookup_insert_ne by (intros E; apply Hother; symmetry; exact E).
  match goal with
  | |- context [after_emit ?t2 ?r] =>
      assert (Hr : fst r = Ok tt)
        by (apply progress_quiet; [exact Hquiet|reflexivity]);
      rewrite (after_emit_quiet t2 r Hr)
  end.
  eexists. split; [reflexivity|]. split; [exact Hlock|].
  cbn [_active_progress with_client with_active].
  destruct (_active_progress t !! parent) as [pd|] eqn:Hp.
  - split.
    + rewrite lookup_insert_ne by exact Hother. apply lookup_insert_eq.
    + split.
      * intros pd' [= <-]. split; [apply lookup_insert_eq|reflexivity].
      * intros H. discriminate H.
  - split; [apply lookup_insert_eq|]. split.
    + intros pd H. discriminate H.
    + intros _. reflexivity.
Qed.

Lemma start_registers_child_witness :
  option_map children (_active_progress with_child !! "job") = Some {["part"]}
  /\ exists t',
       start solo 1 "part" "Part" (NInt 5) "" (Some "job") = Returns t'
       /\ option_map children (_active_progress t' !! "job") = Some ({["part"]} ∪ ∅).
Proof.
  split; [vm_compute; reflexivity|].
  assert (Hq : quiet (client solo)) by (left; vm_compute; reflexivity).
  destruct (start_registers_child solo 1 "part" "Part" (NInt 5) "" "job" eq_refl Hq
              ltac:(discriminate) ltac:(discriminate))
    as (t' & Hs & _ & _ & Hp & _).
  exists t'. split; [exact Hs|].
  destruct (Hp _ ltac:(vm_compute; reflexivity)) as [Hp1 Hp2].
  rewrite Hp1. cbn [option_map]. rewrite Hp2. reflexivity.
Defined.

(** X15.  Children are never unregistered.  When a child completes, its
    parent still lists it; so [complete] of the parent then blocks on the
    lock for ever, although none of its children is active any more. *)
Theorem completed_child_still_blocks_parent (t : ProgressTracker) (now later : Q)
    (parent child : string) (success_ : bool) (pd_parent pd_child : progress_data)
    (fuel : nat)
    (Hlock : _lock t = false)
    (Hquiet : quiet (client t))
    (Hparent : _active_progress t !! parent = Some pd_parent)
    (Hchild : _active_progress t !! child = Some pd_child)
    (Hlisted : child ∈ children pd_parent)
    (Hleaf : children pd_child = ∅) :
  exists t',
    complete (S fuel) t now child success_ None = Returns t'
    /\ _active_progress t' !! child = None
    /\ _active_progress t' !! parent = Some pd_parent
    /\ forall fuel', complete (S (S fuel')) t' later parent success_ None
                     = Blocks (with_lock t' true).
Proof.
  assert (Hne : parent <> child).
  { intros ->. rewrite Hparent in Hchild. injection Hchild as ->.
    rewrite Hleaf in Hlisted. set_solver. }
  destruct (complete_childless_returns t now child success_ pd_child fuel Hlock Hchild
              Hleaf Hquiet) as (t' & Hc & Hl & Ha & _).
  exists t'. split; [exact Hc|].
  assert (Hp' : _active_progress t' !! parent = Some pd_parent)
    by (rewrite Ha, lookup_delete_ne by (intros E; apply Hne; symmetry; exact E);
        exact Hparent).
  split; [rewrite Ha; apply lookup_delete_eq|]. split; [exact Hp'|].
  intros fuel'. cbn [complete]. rewrite Hl.
  change (_active_progress (with_lock t' true)) with (_active_progress t').
  rewrite Hp'.
  rewrite (complete_children_blocks _ (with_lock t' true)); [reflexivity| |].
  - intros E. apply elements_empty_inv in E. apply leibniz_equiv in E.
    rewrite E in Hlisted. set_solver.
  - intros child_id. reflexivity.
Qed.

Lemma part_listed : "part" ∈ children job_record.
Proof. change ("part" ∈ ({["part"]} : gset string)). set_solver. Qed.

Lemma completed_child_still_blocks_parent_witness :
  exists t',
    complete 5 with_child 2 "part" true None = Returns t'
    /\ _active_progress t' !! "part" = None
    /\ complete 5 t' 3 "job" true None = Blocks (with_lock t' true).
Proof.
  assert (Hq : quiet (client with_child)) by (left; vm_compute; reflexivity).
  destruct (completed_child_still_blocks_parent with_child 2 3 "job" "part" true
              job_record
              (started_record "part" "Part" (NInt 5) "" 1 (Some "job")) 4
              with_child_lock Hq with_child_job ltac:(vm_compute; reflexivity)
              part_listed eq_refl)
    as (t' & H1 & H2 & _ & H4).
  exists t'. split; [exact H1|]. split; [exact H2|]. exact (H4 3%nat).
Defined.

End ProgressMore.

(** * Further properties of [AuditLogger] *)
Module AuditMore.
Import Py Hawk AuditLogger ConfigProps AuditProps.
Local Open Scope Z_scope.

Lemma warn_quiet c now msg :
  quiet c -> fst (warn c now msg) = Ok tt /\ quiet (snd (warn c now msg)).
Proof. intros Hq. unfold warn, log. apply send_quiet. exact Hq. Qed.

Lemma event_quiet c now event_type title message severity data kwargs :
  quiet c ->
  fst (event c now event_type title message severity data kwargs) = Ok tt
  /\ quiet (snd (event c now event_type title message severity data kwargs)).
Proof. intros Hq. unfold event. apply send_quiet. exact Hq. Qed.

(** A line that the check counts, as verified or as corrupted. *)
Definition counted (line : string) : Prop :=
  verify_line line = Verified \/ exists warned, verify_line line = Corrupted warned.

(** Over lines that are counted, the loop goes through to the end. *)
Lemma verify_lines_counted before : forall c now rest line_num verified corrupted,
  quiet c -> Forall counted before ->
  exists c' verified' corrupted',
    verify_lines c now (before ++ rest) line_num verified corrupted
    = verify_lines c' now rest (line_num + Z.of_nat (length before)) verified' corrupted'
    /\ quiet c'
    /\ verified' + corrupted' = verified + corrupted + Z.of_nat (length before)
    /\ verified <= verified' /\ corrupted <= corrupted'.
Proof.
  induction before as [|b before IH]; intros c now rest n v k Hq Hall.
  - exists c, v, k. cbn [app length Z.of_nat]. rewrite Z.add_0_r.
    repeat split; try lia; assumption.
  - inversion Hall as [|? ? Hb Hrest]; subst.
    cbn [app verify_lines].
    assert (Hshift : forall m, m + 1 + Z.of_nat (length before)
                               = m + Z.of_nat (length (b :: before)))
      by (intros m; cbn [length]; lia).
    destruct Hb as [Hb|[w Hb]]; rewrite Hb.
    + destruct (IH c now rest (n + 1) (v + 1) k Hq Hrest)
        as (c' & v' & k' & Heq & Hq' & Hsum & Hv & Hk).
      exists c', v', k'. rewrite Heq, Hshift. cbn [length]. repeat split; try lia; assumption.
    + destruct w.
      * destruct (warn_quiet c now ("Audit log corruption detected at line "
                                    +:+ str_int n) Hq) as [Hok Hq1].
        destruct (warn c now _) as [r c1]. cbn [fst snd] in Hok, Hq1. subst r.
        destruct (IH c1 now rest (n + 1) v (k + 1) Hq1 Hrest)
          as (c' & v' & k' & Heq & Hq' & Hsum & Hv & Hk).
        exists c', v', k'. rewrite Heq, Hshift. cbn [length]. repeat split; try lia; assumption.
      * destruct (IH c now rest (n + 1) v (k + 1) Hq Hrest)
          as (c' & v' & k' & Heq & Hq' & Hsum & Hv & Hk).
        exists c', v', k'. rewrite Heq, Hshift. cbn [length]. repeat split; try lia; assumption.
Qed.

Lemma verify_lines_completed lines : forall c now line_num verified corrupted v k c',
  verify_lines c now lines line_num verified corrupted = Some (Ok (v, k), c') ->
  v + k = verified + corrupted + Z.of_nat (length lines)
  /\ verified <= v /\ corrupted <= k.
Proof.
  induction lines as [|line lines IH]; intros c now n v0 k0 v k c' H.
  - cbn in H. injection H as <- <- _. cbn. lia.
  - cbn [verify_lines] in H. destruct (verify_line line) as [|[]|e|].
    + apply IH in H. cbn [length]. lia.
    + destruct (warn c now _) as [[[]|e] c1].
      * apply IH in H. cbn [length]. lia.
      * discriminate H.
    + apply IH in H. cbn [length]. lia.
    + discriminate H.
    + discriminate H.
Qed.

(** X16.  Every line is counted once: when [verify_integrity] completes,
    [verified + corrupted] is the number of lines of the audit file (blank
    lines included), and neither count is negative. *)
Theorem verify_integrity_counts_every_line (l l' : AuditLogger) (now : Q)
    (report : dict pyval)
    (Hrun : verify_integrity l now = Some (report, l'))
    (Hdone : dict_get report "status" = Some (PStr "completed")) :
  exists path text verified corrupted,
    audit_file l = Some path
    /\ contents (fs l) !! path = Some text
    /\ dict_get report "verified" = Some (PInt verified)
    /\ dict_get report "corrupted" = Some (PInt corrupted)
    /\ 0 <= verified /\ 0 <= corrupted
    /\ verified + corrupted = Z.of_nat (length (readlines (chars text) [])).
Proof.
  unfold verify_integrity in Hrun.
  destruct (audit_file l) as [path|] eqn:Hf;
    [|injection Hrun as <- _; discriminate Hdone].
  destruct (contents (fs l) !! path) as [text|] eqn:Hc;
    [|injection Hrun as <- _; discriminate Hdone].
  destruct (verify_lines (client l) now (readlines (chars text) []) 1 0 0)
    as [[[[v k]|e] c]|] eqn:Hv; [| |discriminate Hrun].
  - injection Hrun as <- _. apply verify_lines_completed in Hv.
    destruct Hv as (Hsum & Hv & Hk).
    exists path, text, v, k.
    split; [reflexivity|]. split; [exact Hc|]. split; [reflexivity|].
    split; [reflexivity|]. split; [exact Hv|]. split; [exact Hk|]. lia.
  - injection Hrun as <- _. discriminate Hdone.
Qed.

Lemma verify_integrity_counts_every_line_witness :
  exists verified corrupted,
    option_map (fun r => dict_get (fst r) "verified") (verify_integrity three_records 103)
    = Some (Some (PInt verified))
    /\ option_map (fun r => dict_get (fst r) "corrupted")
         (verify_integrity three_records 103)
       = Some (Some (PInt corrupted))
    /\ verified + corrupted = 3.
Proof.
  destruct (verify_integrity three_records 103) as [[report l']|] eqn:Hrun;
    [|vm_compute in Hrun; discriminate Hrun].
  assert (Hdone : dict_get report "status" = Some (PStr "completed")).
  { vm_compute in Hrun. injection Hrun as <- _. reflexivity. }
  destruct (verify_integrity_counts_every_line three_records l' 103 report Hrun Hdone)
    as (path & text & v & k & Hp & Ht & Hv & Hk & _ & _ & Hsum).
  exists v, k. cbn [option_map fst]. rewrite Hv, Hk.
  split; [reflexivity|]. split; [reflexivity|].
  rewrite Hsum. vm_compute in Hp. injection Hp as <-.
  vm_compute in Ht. injection Ht as <-. vm_compute. reflexivity.
Defined.

(** X17.  One line that is valid JSON but not an object aborts the whole
    verification: [event.pop("checksum", None)] raises on a list, a number,
    a string, [true], [false] or [null], the outer handler catches it, and
    the result is [{"status": "error", ...}] without any count, whatever
    the lines before and after. *)
Theorem non_object_line_aborts_verification (l : AuditLogger) (now : Q)
    (path text : string) (before after : list string) (line : string) (v : pyval)
    (Hfile : audit_file l = Some path)
    (Htext : contents (fs l) !! path = Some text)
    (Hlines : readlines (chars text) [] = before ++ line :: after)
    (Hquiet : quiet (client l))
    (Hbefore : Forall counted before)
    (Hline : Json.loads (strip line) = Json.Loaded v)
    (Hvalue : forall d, v <> PDict d) :
  exists e l',
    pop_checksum v = Raise e
    /\ verify_integrity l now
       = Some ([("status", PStr "error"); ("error", PStr (exn_str e))], l').
Proof.
  assert (He : exists e, pop_checksum v = Raise e).
  { destruct v; try (eexists; reflexivity). exfalso. exact (Hvalue d eq_refl). }
  destruct He as [e He]. exists e.
  unfold verify_integrity. rewrite Hfile, Htext, Hlines.
  destruct (verify_lines_counted before (client l) now (line :: after) 1 0 0 Hquiet
              Hbefore) as (c' & v' & k' & -> & _).
  cbn [verify_lines]. unfold verify_line. rewrite Hline, He.
  eexists. split; reflexivity.
Qed.

(** The log of [three_records] with the line [[1, 2]] added at its end. *)
Definition with_list_line : AuditLogger :=
  with_fs three_records
    {| contents := <["audit.log" :=
                       match contents (fs three_records) !! "audit.log" with
                       | Some text => text +:+ "[1, 2]" +:+ String (chr 10) ""
                       | None => ""
                       end]> (contents (fs three_records));
       read_only := ∅ |}.

Lemma non_object_line_aborts_witness :
  option_map fst (verify_integrity with_list_line 103)
  = Some [("status", PStr "error");
          ("error", PStr "pop expected at most 1 argument, got 2")].
Proof.
  assert (Htext : exists text, contents (fs with_list_line) !! "audit.log" = Some text)
    by (eexists; vm_compute; reflexivity).
  destruct Htext as [text Htext].
  assert (Hlines : exists a b c,
             readlines (chars text) [] = [a; b; c] ++ "[1, 2]" :: []
             /\ Forall counted [a; b; c]).
  { vm_compute in Htext. injection Htext as <-.
    eexists _, _, _. split; [vm_compute; reflexivity|].
    constructor; [right; exists true; vm_compute; reflexivity|].
    constructor; [right; exists true; vm_compute; reflexivity|].
    constructor; [right; exists true; vm_compute; reflexivity|].
    constructor. }
  destruct Hlines as (a & b & c & Hlines & Hall).
  destruct (non_object_line_aborts_verification with_list_line 103 "audit.log" text
              [a; b; c] [] "[1, 2]" (PList [PInt 1; PInt 2]) eq_refl Htext Hlines
              ltac:(left; vm_compute; reflexivity) Hall ltac:(vm_compute; reflexivity)
              ltac:(discriminate)) as (e & l' & He & Hv).
  rewrite Hv. cbn [option_map fst]. injection He as <-. reflexivity.
Defined.

Lemma log_audit_event_sequence l now source_ip event_type data :
  _sequence (snd (_log_audit_event l now source_ip event_type data)) = _sequence l + 1.
Proof.
  unfold _log_audit_event. cbv zeta.
  destruct (Json.dumps None true _) as [event_str|e]; [|reflexivity].
  cbn [audit_file with_sequence fs client].
  destruct (audit_file l) as [path|].
  - destruct (append_to (fs l) path "") as [opened|msg].
    + destruct (Json.dumps None false _) as [line|e].
      * destruct (append_to opened path _) as [written|msg].
        -- cbv beta iota. destruct (Hawk.event _ _ _ _ _ _ _ _) as [r c]. reflexivity.
        -- destruct (error _ _ _) as [[[]|e] c]; cbv beta iota;
             [destruct (Hawk.event _ _ _ _ _ _ _ _) as [r c']|]; reflexivity.
      * destruct (error _ _ _) as [[[]|e'] c]; cbv beta iota;
          [destruct (Hawk.event _ _ _ _ _ _ _ _) as [r c']|]; reflexivity.
    + destruct (error _ _ _) as [[[]|e] c]; cbv beta iota;
        [destruct (Hawk.event _ _ _ _ _ _ _ _) as [r c']|]; reflexivity.
  - cbv beta iota. destruct (Hawk.event _ _ _ _ _ _ _ _) as [r c]. reflexivity.
Qed.

(** X18.  Every call of [_log_audit_event] takes a sequence number, also a
    call whose data cannot be serialized: then the exception leaves the
    method before anything is written or sent, and the numbers of the
    records in the file have a gap. *)
Theorem unserializable_event_leaves_gap (l : AuditLogger) (now : Q)
    (source_ip event_type : string) (data : dict pyval) :
  _sequence (snd (_log_audit_event l now source_ip event_type data)) = _sequence l + 1
  /\ (forall e,
        Json.dumps None true (PDict (audit_event l now source_ip event_type data))
        = Raise e ->
        fst (_log_audit_event l now source_ip event_type data) = Raise e
        /\ fs (snd (_log_audit_event l now source_ip event_type data)) = fs l
        /\ client (snd (_log_audit_event l now source_ip event_type data)) = client l).
Proof.
  split; [apply log_audit_event_sequence|].
  intros e He. unfold _log_audit_event. cbv zeta. rewrite He.
  repeat split.
Qed.

(** X19.  When the audit file cannot be opened for appending, the record is
    not written but it is not lost to the TUI: the failure is reported by an
    error log and the audit event is sent after it; the call returns
    normally on a client that does not raise. *)
Theorem write_failure_still_sends_event (l : AuditLogger) (now : Q)
    (source_ip event_type path event_str : string) (data : dict pyval)
    (Hfile : audit_file l = Some path)
    (Hdenied : path ∈ read_only (fs l))
    (Hquiet : quiet (client l))
    (Hdumps : Json.dumps None true (PDict (audit_event l now source_ip event_type data))
              = Ok event_str) :
  fst (_log_audit_event l now source_ip event_type data) = Ok tt
  /\ fs (snd (_log_audit_event l now source_ip event_type data)) = fs l
  /\ client (snd (_log_audit_event l now source_ip event_type data))
     = snd (Hawk.event
              (snd (error (client l) now
                      ("Audit log write failed: [Errno 13] Permission denied: '"
                       +:+ path +:+ "'")))
              now "audit_event" ("Audit: " +:+ event_type) None "info"
              (Some (dict_set (audit_event l now source_ip event_type data)
                       "checksum" (PStr (checksum_of event_str)))) []).
Proof.
  unfold _log_audit_event. cbv zeta. rewrite Hdumps.
  cbn [audit_file with_sequence fs client]. rewrite Hfile.
  assert (Happ : append_to (fs l) path ""
                 = inr ("[Errno 13] Permission denied: '" +:+ path +:+ "'"))
    by (unfold append_to; rewrite decide_True by exact Hdenied; reflexivity).
  rewrite Happ.
  destruct (error_quiet (client l) now
              ("Audit log write failed: "
               +:+ ("[Errno 13] Permission denied: '" +:+ path +:+ "'")) Hquiet)
    as [Hok Hq1].
  change ("Audit log write failed: [Errno 13] Permission denied: '" +:+ path +:+ "'")
    with ("Audit log write failed: "
          +:+ ("[Errno 13] Permission denied: '" +:+ path +:+ "'")).
  destruct (error (client l) now _) as [r c]. cbn [fst snd] in Hok, Hq1 |- *. subst r.
  cbv beta iota. cbn [client with_client].
  match goal with
  | |- context [Hawk.event c ?t ?a ?b ?m ?s ?d ?k] =>
      destruct (event_quiet c t a b m s d k Hq1) as [Hok2 _];
      destruct (Hawk.event c t a b m s d k) as [r2 c2]
  end.
  cbn [fst snd] in *. subst r2.
  split; [reflexivity|]. split; reflexivity.
Qed.

(** A logger whose audit file is read-only. *)
Definition locked_out : AuditLogger :=
  new_logger (Some "audit.log") (new_client default_config 0) "s-1"
    {| contents := ∅; read_only := {["audit.log"]} |}.

Lemma locked_out_denied : "audit.log" ∈ read_only (fs locked_out).
Proof. change ("audit.log" ∈ ({["audit.log"]} : gset string)). set_solver. Qed.

Lemma write_failure_still_sends_event_witness :
  fst (log_access locked_out 100 "10.0.0.1" "alice" "/etc/passwd" "read" "success" None)
  = Ok tt
  /\ contents (fs (snd (log_access locked_out 100 "10.0.0.1" "alice" "/etc/passwd"
                          "read" "success" None))) = ∅
  /\ map (fun m => (method m, dict_get (params m) "message"))
       (_buffer (client (snd (log_access locked_out 100 "10.0.0.1" "alice"
                                "/etc/passwd" "read" "success" None))))
     = [("hawk.log",
         Some (PStr "Audit log write failed: [Errno 13] Permission denied: 'audit.log'"));
        ("hawk.event", None)].
Proof.
  assert (Hd : exists event_str,
             Json.dumps None true
               (PDict (audit_event locked_out 100 "10.0.0.1" "access"
                         [("user", PStr "alice"); ("resource", PStr "/etc/passwd");
                          ("action", PStr "read"); ("result", PStr "success");
                          ("details", PDict [])])) = Ok event_str)
    by (eexists; vm_compute; reflexivity).
  destruct Hd as [event_str Hd].
  destruct (write_failure_still_sends_event locked_out 100 "10.0.0.1" "access"
              "audit.log" event_str _ eq_refl
              locked_out_denied
              ltac:(left; vm_compute; reflexivity) Hd) as (H1 & H2 & _).
  split; [exact H1|]. split; [unfold log_access; rewrite H2; reflexivity|].
  vm_compute. reflexivity.
Defined.

End AuditMore.

(** * Properties of [BatchOperations] *)
Module BatchProps.
Import Py Hawk BatchOperations.
Local Open Scope Z_scope.

(** What is serialized for a batch: the message itself when it is alone. *)
Definition payload (first : pyval) (others : list pyval) : pyval :=
  match others with [] => first | _ => PList (first :: others) end.

Ltac flush_cases :=
  cbv beta iota;
  repeat match goal with
         | |- context [if debug ?c then _ else _] => destruct (debug c)
         | |- context [if sys_imported ?b then _ else _] => destruct (sys_imported b)
         end;
  cbn [fst snd].

Lemma flush_now_empties b now : _message_batch (snd (_flush_now b now)) = [].
Proof.
  unfold _flush_now. destruct (_message_batch b) as [|first others] eqn:Hb; [exact Hb|].
  cbv zeta. destruct (Json.dumps _ _ _) as [json_str|e].
  - destruct (update_stats _ _) as [[s|e] s']; flush_cases; reflexivity.
  - flush_cases; reflexivity.
Qed.

Lemma flush_now_size b now : batch_size (snd (_flush_now b now)) = batch_size b.
Proof.
  unfold _flush_now. destruct (_message_batch b) as [|first others]; [reflexivity|].
  cbv zeta. destruct (Json.dumps _ _ _) as [json_str|e].
  - destruct (update_stats _ _) as [[s|e] s']; flush_cases; reflexivity.
  - flush_cases; reflexivity.
Qed.

(** X20.  The batch never reaches its limit: with a batch size of one or
    more, the batch is shorter than [batch_size] after every
    [_add_message], because a batch that reaches the size is flushed, or
    dropped, at once. *)
Theorem batch_stays_below_size (b : BatchOperations) (now : Q) (method_ : string)
    (params_ : dict pyval) (batch_id : string)
    (Hsize : 1 <= batch_size b) :
  Z.of_nat (length (_message_batch (snd (_add_message b now method_ params_ batch_id))))
  < batch_size b
  /\ batch_size (snd (_add_message b now method_ params_ batch_id)) = batch_size b.
Proof.
  unfold _add_message, _get_next_sequence. cbv beta iota zeta.
  set (b1 := with_batch _ _).
  assert (Hb1 : batch_size b1 = batch_size b) by reflexivity.
  destruct (batch_size b1 <=? Z.of_nat (length (_message_batch b1))) eqn:E.
  - rewrite flush_now_empties, flush_now_size. split; [cbn [length]; lia|exact Hb1].
  - cbn [snd]. apply Z.leb_gt in E. split; [lia|exact Hb1].
Qed.

Definition demo_config : HawkConfig :=
  {| app_name := "demo"; buffer_size := 100; Hawk.flush_interval := 1 # 10;
     auto_detect := false; graceful_fallback := true; thread_safe := true;
     debug := false |}.

(** A batcher of size 2 on a fresh client. *)
Definition fresh : BatchOperations :=
  new_batch (new_client demo_config 0) 2 1000 0 false.

Definition one_log (b : BatchOperations) (message : string) : BatchOperations :=
  snd (add_log b 5 message "INFO" [] "abcdefgh").

Lemma batch_stays_below_size_witness :
  length (_message_batch (one_log fresh "one")) = 1%nat
  /\ length (_message_batch (one_log (one_log fresh "one") "two")) = 0%nat
  /\ Z.of_nat (length (_message_batch
                         (snd (_add_message (one_log fresh "one") 5 "hawk.log" []
                                 "abcdefgh"))))
     < 2.
Proof.
  split; [vm_compute; reflexivity|]. split; [vm_compute; reflexivity|].
  apply (batch_stays_below_size (one_log fresh "one") 5 "hawk.log" [] "abcdefgh").
  vm_compute. discriminate.
Defined.

(** X21.  A batch that cannot be serialized is lost: [_flush_now] empties
    [_message_batch] before it serializes, so when [json.dumps] raises,
    nothing is printed on the standard output, the messages are gone, and
    one more [flush_errors] is counted; the counts of messages and batches
    sent do not move.  The call still returns normally and sets
    [_last_flush], unless the client is in debug mode and [sys] is not
    bound in the module: then the handler itself fails, the [NameError]
    leaves [_flush_now] and [_last_flush] keeps its old value. *)
Theorem failed_flush_loses_batch (b : BatchOperations) (now : Q)
    (first : pyval) (others : list pyval) (e : exn)
    (Hbatch : _message_batch b = first :: others)
    (Hraise : Json.dumps (Some _json_serializer) false (payload first others) = Raise e) :
  _message_batch (snd (_flush_now b now)) = []
  /\ stdout (client (snd (_flush_now b now))) = stdout (client b)
  /\ flush_errors (_stats (snd (_flush_now b now))) = flush_errors (_stats b) + 1
  /\ messages_sent (_stats (snd (_flush_now b now))) = messages_sent (_stats b)
  /\ batches_sent (_stats (snd (_flush_now b now))) = batches_sent (_stats b)
  /\ (if debug (_config (client b)) && negb (sys_imported b)
      then fst (_flush_now b now) = Raise (NameError "name 'sys' is not defined")
           /\ _last_flush (snd (_flush_now b now)) = _last_flush b
           /\ stderr (client (snd (_flush_now b now))) = stderr (client b)
      else fst (_flush_now b now) = Ok tt
           /\ _last_flush (snd (_flush_now b now)) = now).
Proof.
  split; [apply flush_now_empties|].
  unfold _flush_now. rewrite Hbatch. cbv zeta.
  change (match others with [] => first | _ :: _ => PList (first :: others) end)
    with (payload first others).
  rewrite Hraise. cbv beta iota.
  cbn [client with_stats with_batch sys_imported].
  destruct (debug (_config (client b))), (sys_imported b); cbn [fst snd andb negb];
    repeat split.
Qed.

(** A batch of one message whose context is a set. *)
Definition bad_batch : list pyval :=
  [PDict [("jsonrpc", PStr "2.0"); ("method", PStr "hawk.log");
          ("params", PDict [("message", PStr "bad");
                            ("context", PSet [PInt 1; PInt 2])])]].

Definition stuck : BatchOperations := with_batch fresh bad_batch.

(** The same batch on a client in debug mode, the module imported in the
    usual way: [sys] is not bound. *)
Definition debug_config : HawkConfig :=
  {| app_name := "demo"; buffer_size := 100; Hawk.flush_interval := 1 # 10;
     auto_detect := false; graceful_fallback := true; thread_safe := true;
     debug := true |}.

Definition stuck_debug : BatchOperations :=
  with_batch (new_batch (new_client debug_config 0) 2 1000 0 false) bad_batch.

Lemma failed_flush_loses_batch_witness :
  (_message_batch (snd (flush stuck 6)) = []
   /\ stdout (client (snd (flush stuck 6))) = []
   /\ flush_errors (_stats (snd (flush stuck 6))) = 1
   /\ fst (flush stuck 6) = Ok tt
   /\ _last_flush (snd (flush stuck 6)) = 6%Q)
  /\ (fst (flush stuck_debug 6) = Raise (NameError "name 'sys' is not defined")
      /\ _message_batch (snd (flush stuck_debug 6)) = []
      /\ _last_flush (snd (flush stuck_debug 6)) = 0%Q)
  /\ _stats (snd (add_log (one_log fresh "one") 5 "bad" "INFO"
                    [("context", PSet [PInt 1; PInt 2])] "abcdefgh"))
     = {| messages_sent := 0; batches_sent := 0; avg_batch_size := NInt 0;
          flush_errors := 1 |}.
Proof.
  assert (Hraise : Json.dumps (Some _json_serializer) false
                     (payload (PDict [("jsonrpc", PStr "2.0"); ("method", PStr "hawk.log");
                                      ("params", PDict [("message", PStr "bad");
                                                        ("context", PSet [PInt 1; PInt 2])])])
                        [])
                   = Raise (TypeError "Object of type <class 'set'> is not JSON serializable"))
    by (vm_compute; reflexivity).
  destruct (failed_flush_loses_batch stuck 6 _ [] _ eq_refl Hraise)
    as (H1 & H2 & H3 & _ & _ & H6).
  destruct (failed_flush_loses_batch stuck_debug 6 _ [] _ eq_refl Hraise)
    as (D1 & _ & _ & _ & _ & D6).
  change (debug (_config (client stuck)) && negb (sys_imported stuck)) with false in H6.
  change (debug (_config (client stuck_debug)) && negb (sys_imported stuck_debug))
    with true in D6.
  cbv beta iota in H6, D6. destruct H6 as [H6 H7]. destruct D6 as (D6 & D7 & _).
  split; [repeat split; assumption|].
  split; [repeat split; assumption|].
  vm_compute. reflexivity.
Defined.

(** The two ways a flush of a batch that is not empty can end. *)
Lemma flush_now_outcome b now first others :
  _message_batch b = first :: others ->
  (flush_errors (_stats (snd (_flush_now b now))) = flush_errors (_stats b)
   /\ messages_sent (_stats (snd (_flush_now b now)))
      = messages_sent (_stats b) + Z.of_nat (length (first :: others))
   /\ batches_sent (_stats (snd (_flush_now b now))) = batches_sent (_stats b) + 1
   /\ avg_batch_size (_stats (snd (_flush_now b now)))
      = NFloat (Fin (inject_Z (messages_sent (_stats (snd (_flush_now b now))))
                     / inject_Z (batches_sent (_stats (snd (_flush_now b now)))))))
  \/ flush_errors (_stats (snd (_flush_now b now))) = flush_errors (_stats b) + 1.
Proof.
  intros Hb. unfold _flush_now. rewrite Hb. cbv zeta.
  destruct (Json.dumps _ _ _) as [json_str|e].
  - unfold update_stats. cbn [_stats with_client with_batch].
    destruct (batches_sent (_stats b) + 1 =? 0); cbv beta iota.
    + right. flush_cases; reflexivity.
    + left. repeat split.
  - right. flush_cases; reflexivity.
Qed.

Lemma flush_now_errors_mono b now :
  flush_errors (_stats b) <= flush_errors (_stats (snd (_flush_now b now))).
Proof.
  destruct (_message_batch b) as [|first others] eqn:Hb.
  - unfold _flush_now. rewrite Hb. cbn [snd]. lia.
  - destruct (flush_now_outcome b now first others Hb) as [(H & _)|H]; lia.
Qed.

(** One [_add_message]: the errors do not go down, and without a new error
    the message is either in the batch or counted as sent. *)
Lemma add_message_accounts b now method_ params_ batch_id :
  flush_errors (_stats b)
  <= flush_errors (_stats (snd (_add_message b now method_ params_ batch_id)))
  /\ (flush_errors (_stats (snd (_add_message b now method_ params_ batch_id)))
      = flush_errors (_stats b) ->
      messages_sent (_stats (snd (_add_message b now method_ params_ batch_id)))
      + Z.of_nat (length (_message_batch (snd (_add_message b now method_ params_ batch_id))))
      = messages_sent (_stats b) + Z.of_nat (length (_message_batch b)) + 1).
Proof.
  unfold _add_message, _get_next_sequence. cbv beta iota zeta.
  set (b1 := with_batch _ _).
  assert (Hs : _stats b1 = _stats b) by reflexivity.
  assert (Hl : exists first others,
             _message_batch b1 = first :: others
             /\ Z.of_nat (length (first :: others))
                = Z.of_nat (length (_message_batch b)) + 1).
  { subst b1. cbn [_message_batch with_batch].
    destruct (_message_batch b) as [|x l]; cbn [app].
    - eexists _, _. split; [reflexivity|]. cbn. lia.
    - eexists _, _. split; [reflexivity|]. cbn [length]. rewrite length_app. cbn. lia. }
  destruct Hl as (first & others & Hb1 & Hlen).
  destruct (batch_size b1 <=? Z.of_nat (length (_message_batch b1))).
  - pose proof (flush_now_errors_mono b1 now) as Hm. rewrite Hs in Hm.
    split; [exact Hm|]. intros Hsame.
    destruct (flush_now_outcome b1 now first others Hb1) as [(_ & Hsent & _)|Herr].
    + rewrite flush_now_empties, Hsent, Hs, Hlen. cbn [length]. lia.
    + rewrite Hs in Herr. lia.
  - cbn [snd]. rewrite Hs. split; [lia|]. intros _. rewrite Hb1, Hlen. lia.
Qed.

(** A call of [_add_message]: the clock reading, the method, the parameters
    and the batch identifier. *)
Definition request : Type := Q * string * dict pyval * string.

Definition add_all (b : BatchOperations) (requests : list request) : BatchOperations :=
  fold_left (fun b r => let '(now, method_, params_, batch_id) := r in
                        snd (_add_message b now method_ params_ batch_id))
            requests b.

Lemma add_all_errors_mono requests : forall b,
  flush_errors (_stats b) <= flush_errors (_stats (add_all b requests)).
Proof.
  induction requests as [|[[[now m] ps] id] rs IH]; intros b; [cbn; lia|].
  cbn [add_all fold_left]. fold (add_all (snd (_add_message b now m ps id)) rs).
  pose proof (IH (snd (_add_message b now m ps id))).
  pose proof (proj1 (add_message_accounts b now m ps id)). lia.
Qed.

(** X22.  The statistics account for every message as long as no flush
    fails: after any run of [_add_message] during which [flush_errors] did
    not move, the messages counted as sent and those still in the batch
    are the ones there were before plus the ones added. *)
Theorem stats_account_for_messages (requests : list request) (b : BatchOperations)
    (Hclean : flush_errors (_stats (add_all b requests)) = flush_errors (_stats b)) :
  messages_sent (_stats (add_all b requests))
  + Z.of_nat (length (_message_batch (add_all b requests)))
  = messages_sent (_stats b) + Z.of_nat (length (_message_batch b))
    + Z.of_nat (length requests).
Proof.
  revert b Hclean. induction requests as [|[[[now m] ps] id] rs IH]; intros b Hclean.
  - cbn. lia.
  - cbn [add_all fold_left] in *. fold (add_all (snd (_add_message b now m ps id)) rs) in *.
    pose proof (add_all_errors_mono rs (snd (_add_message b now m ps id))) as Hm.
    destruct (add_message_accounts b now m ps id) as [Hle Hacc].
    assert (Hstep : flush_errors (_stats (snd (_add_message b now m ps id)))
                    = flush_errors (_stats b)) by lia.
    rewrite (IH (snd (_add_message b now m ps id))) by lia.
    rewrite (Hacc Hstep). cbn [length]. lia.
Qed.

Definition five_logs : list request :=
  map (fun n => (5%Q, "hawk.log", [("message", PStr "note"); ("n", PInt n)], "abcdefgh"))
      [1; 2; 3; 4; 5].

Lemma stats_account_for_messages_witness :
  messages_sent (_stats (add_all fresh five_logs)) = 4
  /\ length (_message_batch (add_all fresh five_logs)) = 1%nat
  /\ messages_sent (_stats (add_all fresh five_logs))
     + Z.of_nat (length (_message_batch (add_all fresh five_logs))) = 0 + 0 + 5.
Proof.
  split; [vm_compute; reflexivity|]. split; [vm_compute; reflexivity|].
  apply (stats_account_for_messages five_logs fresh). vm_compute. reflexivity.
Defined.

End BatchProps.

(** * The JSON round trip *)
Module JsonRoundTrip.
Import Py Json JsonMore.
Local Open Scope Z_scope.

(** ** Integers *)

(** What may follow a value inside an encoded text: nothing, a comma, or a
    closing bracket or brace. *)
Definition delimited (rest : list ascii) : bool :=
  match rest with
  | [] => true
  | c :: _ => (code c =? 44) || (code c =? 93) || (code c =? 125)
  end.

Lemma delimiter_char (c : ascii) :
  (code c =? 44) || (code c =? 93) || (code c =? 125) = true ->
  is_digit c = false /\ is_json_space c = false
  /\ (code c =? 46) = false /\ (code c =? 101) = false /\ (code c =? 69) = false.
Proof.
  destruct c as [[] [] [] [] [] [] [] []]; cbn; intros H;
    try discriminate H; repeat split.
Qed.

Definition digit_chars (u : Decimal.uint) : list ascii :=
  chars (NilEmpty.string_of_uint u).

Lemma digit_chars_digits (u : Decimal.uint) :
  Forall (fun c => is_digit c = true) (digit_chars u).
Proof.
  unfold digit_chars. induction u; cbn; constructor; try reflexivity; assumption.
Qed.

Lemma digits_val_acc (u : Decimal.uint) : forall acc : positive,
  fold_left (fun a c => 10 * a + digit_val c) (digit_chars u) (Z.pos acc)
  = Z.pos (Pos.of_uint_acc u acc).
Proof.
  unfold digit_chars.
  induction u; intros acc; cbn [NilEmpty.string_of_uint chars list_ascii_of_string
                                  fold_left Pos.of_uint_acc];
    try reflexivity;
    match goal with
    | |- fold_left _ _ ?a = Z.pos (Pos.of_uint_acc _ ?b) =>
        replace a with (Z.pos b) by (unfold digit_val, code; cbn; lia)
    end; apply IHu.
Qed.

Lemma digits_val_uint (u : Decimal.uint) :
  digits_val (digit_chars u) = Z.of_N (Pos.of_uint u).
Proof.
  unfold digits_val, digit_chars.
  induction u; cbn [NilEmpty.string_of_uint chars list_ascii_of_string fold_left
                      Pos.of_uint]; try reflexivity;
    try (match goal with
         | |- fold_left _ _ ?a = Z.of_N (N.pos (Pos.of_uint_acc _ ?b)) =>
             replace a with (Z.pos b) by (unfold digit_val, code; cbn; lia)
         end; apply (digits_val_acc u)).
  exact IHu.
Qed.

Lemma span_digits_app (ds rest : list ascii) :
  Forall (fun c => is_digit c = true) ds ->
  match rest with [] => true | c :: _ => negb (is_digit c) end = true ->
  span_digits (ds ++ rest) = (ds, rest).
Proof.
  intros Hd Hr. induction Hd as [|c ds Hc Hds IH].
  - destruct rest as [|c r]; [reflexivity|]. cbn [app span_digits].
    apply negb_true_iff in Hr. rewrite Hr. reflexivity.
  - cbn [app span_digits]. rewrite Hc, IH. reflexivity.
Qed.

(** The digits of a positive number do not start with a zero. *)
Lemma to_uint_head (p : positive) :
  exists d ds, digit_chars (Pos.to_uint p) = d :: ds
               /\ is_digit d = true /\ (code d =? 48) = false.
Proof.
  assert (Hn : Pos.to_uint p = Decimal.nzhead (Pos.to_uint p)).
  { pose proof (DecimalPos.Unsigned.to_of (Pos.to_uint p)) as H.
    rewrite DecimalPos.Unsigned.of_to in H. cbn [N.to_uint] in H.
    unfold Decimal.unorm in H.
    destruct (Decimal.nzhead (Pos.to_uint p)) eqn:E; try exact H.
    exfalso. exact (DecimalPos.Unsigned.to_uint_nonzero p H). }
  pose proof (DecimalFacts.nzhead_nonzero (Pos.to_uint p)) as Hz.
  pose proof (DecimalPos.Unsigned.to_uint_nonnil p) as Hnil.
  rewrite <- Hn in Hz. unfold digit_chars.
  destruct (Pos.to_uint p) as [|u|u|u|u|u|u|u|u|u|u];
    [contradiction|exfalso; exact (Hz u eq_refl)|..];
    eexists _, _; (split; [reflexivity|split; reflexivity]).
Qed.

(** [str(z)] as a sign and digits. *)
Lemma str_int_chars (z : Z) :
  exists d ds,
    chars (str_int z) = (if z <? 0 then ["-"%char] else []) ++ d :: ds
    /\ Forall (fun c => is_digit c = true) (d :: ds)
    /\ ((code d =? 48) = true -> ds = [])
    /\ digits_val (d :: ds) = Z.abs z.
Proof.
  unfold str_int. destruct z as [|p|p]; cbn [Z.to_int NilZero.string_of_int Z.ltb
                                              Z.compare Z.abs].
  - exists "0"%char, []. repeat split; try reflexivity. repeat constructor.
  - destruct (to_uint_head p) as (d & ds & Hc & Hd & H0).
    exists d, ds. unfold NilZero.string_of_uint.
    assert (Hs : chars match Pos.to_uint p with
                       | Decimal.Nil => "0"%string
                       | _ => NilEmpty.string_of_uint (Pos.to_uint p)
                       end = d :: ds).
    { pose proof (DecimalPos.Unsigned.to_uint_nonnil p).
      destruct (Pos.to_uint p); [contradiction|..]; exact Hc. }
    rewrite Hs. cbn [app]. split; [reflexivity|].
    split; [rewrite <- Hc; apply digit_chars_digits|].
    split; [intros H; congruence|].
    rewrite <- Hc, digits_val_uint, DecimalPos.Unsigned.of_to. reflexivity.
  - destruct (to_uint_head p) as (d & ds & Hc & Hd & H0).
    exists d, ds. unfold NilZero.string_of_uint.
    assert (Hs : chars match Pos.to_uint p with
                       | Decimal.Nil => "0"%string
                       | _ => NilEmpty.string_of_uint (Pos.to_uint p)
                       end = d :: ds).
    { pose proof (DecimalPos.Unsigned.to_uint_nonnil p).
      destruct (Pos.to_uint p); [contradiction|..]; exact Hc. }
    cbn [chars list_ascii_of_string]. fold (chars match Pos.to_uint p with
                       | Decimal.Nil => "0"%string
                       | _ => NilEmpty.string_of_uint (Pos.to_uint p)
                       end).
    rewrite Hs. cbn [app]. split; [reflexivity|].
    split; [rewrite <- Hc; apply digit_chars_digits|].
    split; [intros H; congruence|].
    rewrite <- Hc, digits_val_uint, DecimalPos.Unsigned.of_to. reflexivity.
Qed.

Lemma digit_code (d : ascii) :
  is_digit d = true -> (code d =? 45) = false /\ 48 <= code d <= 57.
Proof.
  unfold is_digit. intros H. apply andb_true_iff in H. destruct H as [H1 H2].
  apply Z.leb_le in H1, H2. split; [apply Z.eqb_neq|]; lia.
Qed.

Lemma delimited_head (rest : list ascii) :
  delimited rest = true ->
  match rest with [] => true | c :: _ => negb (is_digit c) end = true
  /\ skip_whitespace rest = rest
  /\ match rest with
     | c :: r =>
         if code c =? 46 then
           match span_digits r with
           | ([], _) => ([], rest)
           | (f, rest0) => (f, rest0)
           end
         else ([], rest)
     | [] => ([], rest)
     end = (@nil ascii, rest)
  /\ match rest with
     | c :: r => (code c =? 101) || (code c =? 69)
     | [] => false
     end = false.
Proof.
  destruct rest as [|c r]; [repeat split|].
  cbn [delimited]. intros H.
  destruct (delimiter_char c H) as (H1 & H2 & H3 & H4 & H5).
  cbn [skip_whitespace]. rewrite H1, H2, H3, H4, H5. repeat split.
Qed.

(** The decoder reads a run of digits that is followed by a delimiter as
    the [int] of these digits. *)
Lemma match_number_digits (neg : bool) (d : ascii) (ds rest : list ascii) :
  Forall (fun c => is_digit c = true) (d :: ds) ->
  ((code d =? 48) = true -> ds = []) ->
  delimited rest = true ->
  (length (d :: ds) <= int_max_str_digits)%nat ->
  match_number ((if neg then ["-"%char] else []) ++ d :: ds ++ rest)
  = Scanned (PInt (if neg then - digits_val (d :: ds) else digits_val (d :: ds))) rest.
Proof.
  intros Hall H0 Hdel Hlen.
  assert (Hd : is_digit d = true) by (inversion Hall; assumption).
  destruct (digit_code d Hd) as [H45 _].
  destruct (delimited_head rest Hdel) as (Hnd & _ & Hfrac & Hexp).
  assert (Hspan : span_digits (d :: ds ++ rest) = (d :: ds, rest))
    by (apply (span_digits_app (d :: ds) rest Hall Hnd)).
  assert (Hint : match d :: ds ++ rest with
                 | c :: r => if code c =? 48 then Some ([c], r)
                             else if is_digit c then Some (span_digits (d :: ds ++ rest))
                             else None
                 | [] => None
                 end = Some (d :: ds, rest)).
  { cbv beta iota. destruct (code d =? 48) eqn:E.
    - rewrite (H0 eq_refl). reflexivity.
    - rewrite Hd, Hspan. reflexivity. }
  assert (Hbig : (int_max_str_digits <? length (d :: ds))%nat = false)
    by (apply Nat.ltb_ge; exact Hlen).
  unfold match_number. destruct neg; cbn [app].
  - change (code "-"%char =? 45) with true. cbv beta iota.
    rewrite Hint. cbv beta iota. rewrite Hfrac. cbv beta iota.
    destruct rest as [|c r].
    + cbv beta iota. rewrite Hbig. reflexivity.
    + cbv beta iota in Hexp |- *. rewrite Hexp. cbv beta iota. rewrite Hbig. reflexivity.
  - rewrite H45. cbv beta iota.
    rewrite Hint. cbv beta iota. rewrite Hfrac. cbv beta iota.
    destruct rest as [|c r].
    + cbv beta iota. rewrite Hbig. reflexivity.
    + cbv beta iota in Hexp |- *. rewrite Hexp. cbv beta iota. rewrite Hbig. reflexivity.
Qed.

Lemma match_number_int (z : Z) (rest : list ascii) :
  delimited rest = true ->
  (length (chars (str_int z)) <= int_max_str_digits)%nat ->
  match_number (chars (str_int z) ++ rest) = Scanned (PInt z) rest.
Proof.
  intros Hdel Hlen.
  destruct (str_int_chars z) as (d & ds & Hc & Hall & H0 & Hv).
  rewrite Hc in *. rewrite <- List.app_assoc.
  change ((d :: ds) ++ rest) with (d :: ds ++ rest).
  rewrite (match_number_digits (z <? 0) d ds rest Hall H0 Hdel).
  - rewrite Hv. f_equal. f_equal. destruct (Z.ltb_spec z 0); lia.
  - rewrite length_app in Hlen. lia.
Qed.

Lemma str_int_abs (z : Z) :
  chars (str_int z) = (if z <? 0 then ["-"%char] else []) ++ chars (str_int (Z.abs z)).
Proof. destruct z; reflexivity. Qed.

Lemma scan_once_digit (f depth : nat) (c : ascii) (r : list ascii) :
  is_digit c = true -> scan_once (S f) depth (c :: r) = match_number (c :: r).
Proof.
  intros H. destruct c as [[] [] [] [] [] [] [] []]; vm_compute in H;
    try discriminate H; reflexivity.
Qed.

Lemma scan_once_minus (f depth : nat) (c : ascii) (r : list ascii) :
  is_digit c = true ->
  scan_once (S f) depth ("-"%char :: c :: r) = match_number ("-"%char :: c :: r).
Proof.
  intros H. destruct c as [[] [] [] [] [] [] [] []]; vm_compute in H;
    try discriminate H; reflexivity.
Qed.

(** An [int] of at most 4300 digits is read back. *)
Lemma scan_once_int (f depth : nat) (z : Z) (rest : list ascii) :
  delimited rest = true ->
  (length (chars (str_int (Z.abs z))) <= int_max_str_digits)%nat ->
  scan_once (S f) depth (chars (str_int z) ++ rest) = Scanned (PInt z) rest.
Proof.
  intros Hdel Hlen.
  destruct (str_int_chars z) as (d & ds & Hc & Hall & H0 & Hv).
  assert (Habs : chars (str_int (Z.abs z)) = d :: ds).
  { pose proof (str_int_abs z) as H. rewrite Hc in H.
    apply app_inv_head in H. symmetry. exact H. }
  assert (Hd : is_digit d = true) by (inversion Hall; assumption).
  rewrite Habs in Hlen. rewrite Hc, <- List.app_assoc.
  change ((d :: ds) ++ rest) with (d :: ds ++ rest).
  transitivity (match_number ((if z <? 0 then ["-"%char] else []) ++ d :: ds ++ rest)).
  - destruct (z <? 0); cbn [app];
      [apply scan_once_minus | apply scan_once_digit]; exact Hd.
  - rewrite (match_number_digits (z <? 0) d ds rest Hall H0 Hdel Hlen).
    rewrite Hv. f_equal. f_equal. destruct (Z.ltb_spec z 0); lia.
Qed.

(** ** Values *)

Fixpoint distinct (l : list string) : bool :=
  match l with
  | [] => true
  | k :: r => negb (existsb (String.eqb k) r) && distinct r
  end.

(** The values with a JSON form of their own that the decoder gives back as
    they are: [None], booleans, strings, the [int]s of at most 4300 digits,
    lists of such values and dicts of such values (a dict has each key once).
    Floats are left out, and so is everything that needs the [default]
    hook. *)
Fixpoint plain (v : pyval) : bool :=
  match v with
  | PNone | PBool _ | PStr _ => true
  | PInt z => (length (chars (str_int (Z.abs z))) <=? int_max_str_digits)%nat
  | PList l => forallb plain l
  | PDict d => distinct (map fst d) && forallb (fun kv => plain (snd kv)) d
  | PFloat _ | PDatetime _ | PObject _ | PSet _ => false
  end.

Lemma distinct_middle (a : list string) (k : string) (r : list string) :
  distinct (a ++ k :: r) = true -> existsb (String.eqb k) a = false.
Proof.
  induction a as [|x a IH]; [reflexivity|].
  cbn [app distinct existsb]. intros H.
  apply andb_true_iff in H. destruct H as [H1 H2].
  apply negb_true_iff in H1. rewrite existsb_app in H1.
  apply orb_false_iff in H1. destruct H1 as [_ H1].
  cbn [existsb] in H1. apply orb_false_iff in H1. destruct H1 as [H1 _].
  rewrite String.eqb_sym, H1. exact (IH H2).
Qed.

Lemma dict_set_fresh {A} (acc : dict A) (k : string) (v : A) :
  existsb (String.eqb k) (map fst acc) = false ->
  dict_set acc k v = acc ++ [(k, v)].
Proof.
  induction acc as [|[k' v'] acc IH]; [reflexivity|].
  cbn [map fst existsb dict_set app]. intros H.
  apply orb_false_iff in H. destruct H as [H1 H2].
  rewrite String.eqb_sym, H1, (IH H2). reflexivity.
Qed.

Lemma sequence_cons {A} (x : result A) (l : list (result A)) (parts : list A) :
  sequence (x :: l) = Ok parts ->
  exists a r, x = Ok a /\ sequence l = Ok r /\ parts = a :: r.
Proof.
  cbn [sequence]. destruct x as [a|e]; [|discriminate].
  destruct (sequence l) as [r|e]; [|discriminate].
  intros H. injection H as <-. exists a, r. repeat split.
Qed.

Lemma encode_str_chars (k : string) :
  exists body, chars (encode_str k) = "034"%char :: body
               /\ forall rest, scanstring (body ++ rest) [] = Scanned k rest.
Proof.
  exists (List.concat (map (fun c => chars (escape_char c)) (chars k)) ++ chars dquote).
  split.
  - unfold encode_str. rewrite !chars_app, chars_concat, map_map. reflexivity.
  - intros rest. rewrite <- List.app_assoc.
    rewrite (scanstring_escaped (chars k) rest []). cbn [rev app].
    rewrite str_of_chars. reflexivity.
Qed.

(** An encoded value starts with a character of its own: white space before
    it is skipped up to this character, and the character does not close an
    array. *)
Lemma encode_head (n : nat) (default : option (pyval -> result pyval))
    (v : pyval) (s : string) :
  plain v = true -> encode n default false v = Ok s ->
  exists c r, chars s = c :: r /\ is_json_space c = false /\ (code c =? 93) = false.
Proof.
  destruct n as [|n]; [discriminate|].
  destruct v; cbn [plain encode]; try discriminate; intros Hp He.
  - injection He as <-. eexists _, _. repeat split.
  - injection He as <-. destruct b; eexists _, _; repeat split.
  - injection He as <-.
    destruct (str_int_chars z) as (d & ds & Hc & Hall & _ & _).
    rewrite Hc. destruct (z <? 0); cbn [app]; eexists _, _;
      (split; [reflexivity|]); [split; reflexivity|].
    assert (Hd : is_digit d = true) by (inversion Hall; assumption).
    destruct (digit_code d Hd) as [_ Hr]. unfold is_json_space.
    split; [|apply Z.eqb_neq; lia].
    repeat (apply orb_false_iff; split); apply Z.eqb_neq; lia.
  - injection He as <-.
    destruct (encode_str_chars s0) as (body & Hb & _). rewrite Hb.
    eexists _, _. repeat split.
  - destruct (sequence _) as [parts|e]; [|discriminate]. injection He as <-.
    rewrite chars_app. eexists _, _. repeat split.
  - destruct (sequence _) as [parts|e]; [|discriminate]. injection He as <-.
    rewrite chars_app. eexists _, _. repeat split.
Qed.

Lemma skip_whitespace_head (c : ascii) (r : list ascii) :
  is_json_space c = false -> skip_whitespace (c :: r) = c :: r.
Proof. intros H. cbn [skip_whitespace]. rewrite H. reflexivity. Qed.

(** One turn of the loops of the decoder. *)
Lemma scan_array_last (fuel depth : nat) (s : list ascii) (values : list pyval)
    (v : pyval) (rest : list ascii) :
  scan_once fuel depth s = Scanned v ("]"%char :: rest) ->
  scan_array (S fuel) depth s values = Scanned (PList (rev (v :: values))) rest.
Proof. intros H. cbn [scan_array]. rewrite H. reflexivity. Qed.

Lemma scan_array_next (fuel depth : nat) (s : list ascii) (values : list pyval)
    (v : pyval) (next : list ascii) :
  scan_once fuel depth s = Scanned v (","%char :: " "%char :: next) ->
  skip_whitespace next = next ->
  scan_array (S fuel) depth s values = scan_array fuel depth next (v :: values).
Proof.
  intros H Hn. cbn [scan_array]. rewrite H. cbn [expecting_value].
  change (skip_whitespace (","%char :: " "%char :: next))
    with (","%char :: " "%char :: next).
  cbv beta iota.
  change (code ","%char =? 93) with false. change (code ","%char =? 44) with true.
  cbv beta iota.
  change (skip_whitespace (" "%char :: next)) with (skip_whitespace next).
  rewrite Hn. reflexivity.
Qed.

Lemma scan_object_last (fuel depth : nat) (k : string) (body text : list ascii)
    (pairs : dict pyval) (v : pyval) (rest : list ascii) :
  (forall r, scanstring (body ++ r) [] = Scanned k r) ->
  skip_whitespace text = text ->
  scan_once fuel depth text = Scanned v ("}"%char :: rest) ->
  scan_object (S fuel) depth
    ("034"%char :: body ++ ":"%char :: " "%char :: text) pairs
  = Scanned (PDict (dict_set pairs k v)) rest.
Proof.
  intros Hk Ht H. cbn [scan_object].
  change (code "034"%char =? 34) with true. cbv beta iota.
  rewrite Hk.
  change (skip_whitespace (":"%char :: " "%char :: text))
    with (":"%char :: " "%char :: text).
  cbv beta iota. change (code ":"%char =? 58) with true. cbv beta iota.
  change (skip_whitespace (" "%char :: text)) with (skip_whitespace text).
  rewrite Ht, H. reflexivity.
Qed.

Lemma scan_object_next (fuel depth : nat) (k : string) (body text : list ascii)
    (pairs : dict pyval) (v : pyval) (next : list ascii) :
  (forall r, scanstring (body ++ r) [] = Scanned k r) ->
  skip_whitespace text = text ->
  scan_once fuel depth text = Scanned v (","%char :: " "%char :: next) ->
  skip_whitespace next = next ->
  scan_object (S fuel) depth
    ("034"%char :: body ++ ":"%char :: " "%char :: text) pairs
  = scan_object fuel depth next (dict_set pairs k v).
Proof.
  intros Hk Ht H Hn. cbn [scan_object].
  change (code "034"%char =? 34) with true. cbv beta iota.
  rewrite Hk.
  change (skip_whitespace (":"%char :: " "%char :: text))
    with (":"%char :: " "%char :: text).
  cbv beta iota. change (code ":"%char =? 58) with true. cbv beta iota.
  change (skip_whitespace (" "%char :: text)) with (skip_whitespace text).
  rewrite Ht, H. cbn [expecting_value].
  change (skip_whitespace (","%char :: " "%char :: next))
    with (","%char :: " "%char :: next).
  cbv beta iota.
  change (code ","%char =? 125) with false. change (code ","%char =? 44) with true.
  cbv beta iota.
  change (skip_whitespace (" "%char :: next)) with (skip_whitespace next).
  rewrite Hn. reflexivity.
Qed.

Section RoundTrip.
Variable default : option (pyval -> result pyval).

(** The text of one item of a dict. *)
Definition item (n : nat) (kv : string * pyval) : result string :=
  match encode n default false (snd kv) with
  | Ok s => Ok (encode_str (fst kv) +:+ ": " +:+ s)
  | Raise e => Raise e
  end.

Lemma encode_list (n : nat) (l : list pyval) :
  encode (S n) default false (PList l)
  = match sequence (map (encode n default false) l) with
    | Ok parts => Ok ("[" +:+ String.concat ", " parts +:+ "]")
    | Raise e => Raise e
    end.
Proof. reflexivity. Qed.

Lemma encode_dict (n : nat) (d : dict pyval) :
  encode (S n) default false (PDict d)
  = match sequence (map (item n) d) with
    | Ok parts => Ok ("{" +:+ String.concat ", " parts +:+ "}")
    | Raise e => Raise e
    end.
Proof. reflexivity. Qed.

Section Step.
Variables n depth : nat.
Hypothesis IH : forall v s fuel rest,
  plain v = true -> encode n default false v = Ok s ->
  (length (chars s) < fuel)%nat -> delimited rest = true ->
  scan_once fuel depth (chars s ++ rest) = Scanned v rest.

Lemma scan_array_encode : forall (l : list pyval) (parts : list string)
    (acc : list pyval) (fuel : nat) (rest : list ascii),
  l <> [] -> forallb plain l = true ->
  sequence (map (encode n default false) l) = Ok parts ->
  (length (chars (String.concat ", " parts)) + 1 < fuel)%nat ->
  scan_array fuel depth (chars (String.concat ", " parts) ++ "]"%char :: rest) acc
  = Scanned (PList (rev acc ++ l)) rest.
Proof.
  induction l as [|v l IHl]; intros parts acc fuel rest Hne Hp Hs Hf;
    [contradiction|].
  cbn [map] in Hs. apply sequence_cons in Hs.
  destruct Hs as (p & ps & Hv & Hs & ->).
  cbn [forallb] in Hp. apply andb_true_iff in Hp. destruct Hp as [Hpv Hpl].
  destruct fuel as [|fuel]; [lia|].
  destruct l as [|v2 l].
  - cbn [map sequence] in Hs. injection Hs as <-.
    cbn [String.concat] in Hf |- *. cbn [rev].
    apply scan_array_last. apply (IH v p fuel _ Hpv Hv); [lia|reflexivity].
  - pose proof Hs as Hs'. cbn [map] in Hs'. apply sequence_cons in Hs'.
    destruct Hs' as (p2 & ps2 & Hv2 & Hs2 & ->).
    cbn [forallb] in Hpl. pose proof Hpl as Hpl'.
    apply andb_true_iff in Hpl'. destruct Hpl' as [Hpv2 _].
    destruct (encode_head n default v2 p2 Hpv2 Hv2) as (c & r & Hc & Hsp & H93).
    remember (v2 :: l) as l2 eqn:El2.
    remember (p2 :: ps2) as parts2 eqn:Ep2.
    assert (Hcat : chars (String.concat ", " (p :: parts2))
                   = chars p ++ ","%char :: " "%char :: chars (String.concat ", " parts2)).
    { rewrite Ep2. cbn [String.concat]. fold (String.concat ", " (p2 :: ps2)).
      rewrite !chars_app. reflexivity. }
    assert (Hhead : exists r', chars (String.concat ", " parts2) = c :: r').
    { rewrite Ep2. cbn [String.concat]. destruct ps2 as [|p3 ps3].
      - exists r. exact Hc.
      - rewrite chars_app, Hc. eexists. reflexivity. }
    destruct Hhead as (r' & Hhead).
    rewrite Hcat in Hf |- *. rewrite length_app in Hf. cbn [length] in Hf.
    rewrite <- List.app_assoc. cbn [app].
    rewrite (scan_array_next fuel depth _ acc v
               (chars (String.concat ", " parts2) ++ "]"%char :: rest)).
    + rewrite (IHl parts2 (v :: acc) fuel rest); [| rewrite El2; discriminate
                                                  | rewrite El2; exact Hpl
                                                  | exact Hs | lia].
      cbn [rev]. rewrite <- List.app_assoc. reflexivity.
    + apply (IH v p fuel _ Hpv Hv); [lia|reflexivity].
    + rewrite Hhead. cbn [app]. apply skip_whitespace_head. exact Hsp.
Qed.

Lemma item_chars (k : string) (v : pyval) (p : string) :
  item n (k, v) = Ok p ->
  exists body sv,
    encode n default false v = Ok sv
    /\ chars p = "034"%char :: body ++ ":"%char :: " "%char :: chars sv
    /\ forall r, scanstring (body ++ r) [] = Scanned k r.
Proof.
  unfold item. cbn [fst snd].
  destruct (encode n default false v) as [sv|e]; [|discriminate].
  intros H. injection H as <-.
  destruct (encode_str_chars k) as (body & Hb & Hk).
  exists body, sv. split; [reflexivity|]. split; [|exact Hk].
  rewrite !chars_app, Hb. reflexivity.
Qed.

Lemma scan_object_encode : forall (d : dict pyval) (parts : list string)
    (acc : dict pyval) (fuel : nat) (rest : list ascii),
  d <> [] -> distinct (map fst (acc ++ d)) = true ->
  forallb (fun kv => plain (snd kv)) d = true ->
  sequence (map (item n) d) = Ok parts ->
  (length (chars (String.concat ", " parts)) + 1 < fuel)%nat ->
  scan_object fuel depth (chars (String.concat ", " parts) ++ "}"%char :: rest) acc
  = Scanned (PDict (acc ++ d)) rest.
Proof.
  induction d as [|[k v] d IHd]; intros parts acc fuel rest Hne Hd Hp Hs Hf;
    [contradiction|].
  cbn [map] in Hs. apply sequence_cons in Hs.
  destruct Hs as (p & ps & Hv & Hs & ->).
  cbn [forallb snd] in Hp. apply andb_true_iff in Hp. destruct Hp as [Hpv Hpl].
  destruct (item_chars k v p Hv) as (body & sv & Hsv & Hcp & Hk).
  destruct (encode_head n default v sv Hpv Hsv) as (c & r & Hc & Hsp & _).
  assert (Hfresh : dict_set acc k v = acc ++ [(k, v)]).
  { apply dict_set_fresh. rewrite map_app in Hd. cbn [map fst] in Hd.
    exact (distinct_middle _ _ _ Hd). }
  destruct fuel as [|fuel]; [lia|].
  destruct d as [|kv2 d].
  - cbn [map sequence] in Hs. injection Hs as <-.
    cbn [String.concat] in Hf |- *. rewrite Hcp in Hf |- *.
    cbn [length] in Hf. rewrite length_app in Hf. cbn [length] in Hf.
    cbn [app]. rewrite <- List.app_assoc. cbn [app].
    rewrite (scan_object_last fuel depth k body (chars sv ++ "}"%char :: rest)
               acc v rest Hk).
    + rewrite Hfresh. reflexivity.
    + rewrite Hc. cbn [app]. apply skip_whitespace_head. exact Hsp.
    + apply (IH v sv fuel _ Hpv Hsv); [lia|reflexivity].
  - pose proof Hs as Hs'. cbn [map] in Hs'. apply sequence_cons in Hs'.
    destruct Hs' as (p2 & ps2 & Hv2 & _ & Ep2).
    destruct kv2 as [k2 v2].
    destruct (item_chars k2 v2 p2 Hv2) as (body2 & sv2 & _ & Hcp2 & _).
    remember ((k2, v2) :: d) as d2 eqn:Ed2.
    assert (Hcat : chars (String.concat ", " (p :: ps))
                   = chars p ++ ","%char :: " "%char :: chars (String.concat ", " ps)).
    { rewrite Ep2. cbn [String.concat]. fold (String.concat ", " (p2 :: ps2)).
      rewrite !chars_app. reflexivity. }
    assert (Hhead : exists r', chars (String.concat ", " ps) = "034"%char :: r').
    { rewrite Ep2. cbn [String.concat]. destruct ps2 as [|p3 ps3].
      - rewrite Hcp2. eexists. reflexivity.
      - rewrite chars_app, Hcp2. eexists. reflexivity. }
    destruct Hhead as (r' & Hhead).
    rewrite Hcat in Hf |- *. rewrite length_app in Hf. cbn [length] in Hf.
    rewrite Hcp in Hf |- *. cbn [length] in Hf. rewrite length_app in Hf.
    cbn [length] in Hf.
    cbn [app]. rewrite <- !List.app_assoc. cbn [app].
    rewrite (scan_object_next fuel depth k body
               (chars sv ++ ","%char :: " "%char
                  :: chars (String.concat ", " ps) ++ "}"%char :: rest)
               acc v (chars (String.concat ", " ps) ++ "}"%char :: rest) Hk).
    + rewrite Hfresh.
      rewrite (IHd ps (acc ++ [(k, v)]) fuel rest);
        [| rewrite Ed2; discriminate
         | rewrite <- List.app_assoc; exact Hd
         | exact Hpl | exact Hs | lia].
      rewrite <- List.app_assoc. reflexivity.
    + rewrite Hc. cbn [app]. apply skip_whitespace_head. exact Hsp.
    + apply (IH v sv fuel _ Hpv Hsv); [lia|reflexivity].
    + rewrite Hhead. reflexivity.
Qed.

End Step.

Lemma scan_once_array (fuel depth : nat) (c : ascii) (r : list ascii) :
  is_json_space c = false -> (code c =? 93) = false ->
  scan_once (S fuel) (S depth) ("["%char :: c :: r) = scan_array fuel depth (c :: r) [].
Proof.
  intros Hsp H93. cbn [scan_once].
  change (code "["%char =? 34) with false. change (code "["%char =? 123) with false.
  change (code "["%char =? 91) with true. cbv beta iota.
  rewrite (skip_whitespace_head c r Hsp), H93. reflexivity.
Qed.

Lemma scan_once_object (fuel depth : nat) (r : list ascii) :
  scan_once (S fuel) (S depth) ("{"%char :: "034"%char :: r)
  = scan_object fuel depth ("034"%char :: r) [].
Proof. reflexivity. Qed.

(** The decoder reads the text of a plain value back as the value and stops
    at its end, when the text is followed by a delimiter, the fuel exceeds
    the length of the text and the depth allows what the encoder allowed. *)
Lemma scan_once_encode : forall (n depth : nat) (v : pyval) (s : string)
    (fuel : nat) (rest : list ascii),
  (n <= depth)%nat ->
  plain v = true -> encode n default false v = Ok s ->
  (length (chars s) < fuel)%nat -> delimited rest = true ->
  scan_once fuel depth (chars s ++ rest) = Scanned v rest.
Proof.
  induction n as [|n IHn]; intros depth v s fuel rest Hn Hp He Hf Hdel;
    [discriminate|].
  destruct fuel as [|fuel]; [lia|].
  destruct depth as [|depth]; [lia|].
  assert (IH := IHn depth).
  assert (Hnd : (n <= depth)%nat) by lia.
  destruct v; cbn [plain] in Hp; try discriminate.
  - injection He as <-. reflexivity.
  - injection He as <-. destruct b; reflexivity.
  - injection He as <-. apply scan_once_int; [exact Hdel|].
    apply Nat.leb_le. exact Hp.
  - injection He as <-.
    destruct (encode_str_chars s0) as (body & Hb & Hk).
    rewrite Hb. cbn [app]. rewrite scan_once_quote, Hk. reflexivity.
  - rewrite encode_list in He.
    destruct (sequence (map (encode n default false) l)) as [parts|e] eqn:Hs;
      [|discriminate].
    injection He as <-. rewrite !chars_app in Hf |- *.
    cbn [chars list_ascii_of_string app length] in Hf |- *.
    fold (chars (String.concat ", " parts)) in Hf |- *.
    rewrite length_app in Hf. cbn [length] in Hf.
    rewrite <- List.app_assoc. cbn [app].
    destruct l as [|v l].
    + cbn [map sequence] in Hs. injection Hs as <-. reflexivity.
    + pose proof Hs as Hs'. cbn [map] in Hs'. apply sequence_cons in Hs'.
      destruct Hs' as (p & ps & Hv & _ & Ep).
      pose proof Hp as Hp'. cbn [forallb] in Hp'.
      apply andb_true_iff in Hp'. destruct Hp' as [Hpv _].
      destruct (encode_head n default v p Hpv Hv) as (c & r & Hc & Hsp & H93).
      assert (Hhead : exists r', chars (String.concat ", " parts) = c :: r').
      { rewrite Ep. cbn [String.concat]. destruct ps as [|p3 ps3].
        - exists r. exact Hc.
        - rewrite chars_app, Hc. eexists. reflexivity. }
      destruct Hhead as (r' & Hhead).
      transitivity (scan_array fuel depth
                      (chars (String.concat ", " parts) ++ "]"%char :: rest) []).
      * rewrite Hhead. cbn [app]. apply scan_once_array; assumption.
      * apply (scan_array_encode n depth (fun v s fuel rest => IH v s fuel rest Hnd)
                 (v :: l) parts [] fuel rest);
          [discriminate|exact Hp|exact Hs|lia].
  - apply andb_true_iff in Hp. destruct Hp as [Hdis Hp].
    rewrite encode_dict in He.
    destruct (sequence (map (item n) d)) as [parts|e] eqn:Hs; [|discriminate].
    injection He as <-. rewrite !chars_app in Hf |- *.
    cbn [chars list_ascii_of_string app length] in Hf |- *.
    fold (chars (String.concat ", " parts)) in Hf |- *.
    rewrite length_app in Hf. cbn [length] in Hf.
    rewrite <- List.app_assoc. cbn [app].
    destruct d as [|[k v] d].
    + cbn [map sequence] in Hs. injection Hs as <-. reflexivity.
    + pose proof Hs as Hs'. cbn [map] in Hs'. apply sequence_cons in Hs'.
      destruct Hs' as (p & ps & Hv & _ & Ep).
      destruct (item_chars n k v p Hv) as (body & sv & _ & Hcp & _).
      assert (Hhead : exists r', chars (String.concat ", " parts) = "034"%char :: r').
      { rewrite Ep. cbn [String.concat]. destruct ps as [|p3 ps3].
        - rewrite Hcp. eexists. reflexivity.
        - rewrite chars_app, Hcp. eexists. reflexivity. }
      destruct Hhead as (r' & Hhead).
      transitivity (scan_object fuel depth
                      (chars (String.concat ", " parts) ++ "}"%char :: rest) []).
      * rewrite Hhead. cbn [app]. apply scan_once_object.
      * apply (scan_object_encode n depth (fun v s fuel rest => IH v s fuel rest Hnd)
                 ((k, v) :: d) parts [] fuel rest);
          [discriminate|exact Hdis|exact Hp|exact Hs|lia].
Qed.

Lemma loads_scanned (s : string) (v : pyval) :
  skip_whitespace (chars s) = chars s ->
  scan_once (2 * length (chars s) + 2) recursion_limit (chars s) = Scanned v [] ->
  loads s = Loaded v.
Proof. intros Hs H. unfold loads. cbv zeta. rewrite Hs, H. reflexivity. Qed.

Lemma loads_encode (n : nat) (v : pyval) (s : string) :
  (n <= recursion_limit)%nat ->
  plain v = true -> encode n default false v = Ok s -> loads s = Loaded v.
Proof.
  intros Hn Hp He. apply loads_scanned.
  - destruct (encode_head _ _ _ _ Hp He) as (c & r & Hc & Hsp & _).
    rewrite Hc. apply skip_whitespace_head. exact Hsp.
  - assert (Hf : (length (chars s) < 2 * length (chars s) + 2)%nat) by lia.
    pose proof (scan_once_encode n recursion_limit v s _ [] Hn Hp He Hf eq_refl) as H.
    rewrite app_nil_r in H. exact H.
Qed.

Lemma dumps_encode (sort_keys : bool) (v : pyval) :
  dumps default sort_keys v = encode recursion_limit default sort_keys v.
Proof. exact (eq_refl (encode recursion_limit default sort_keys v)). Qed.

(** The JSON round trip on the values of the model: when [json.dumps(v)]
    succeeds on a value made of [None], booleans, strings, [int]s of at
    most 4300 digits, lists and dicts (no key twice), [json.loads] of the
    text gives the value back. *)
Lemma loads_dumps (v : pyval) (s : string) :
  plain v = true -> dumps default false v = Ok s -> loads s = Loaded v.
Proof.
  intros Hp He. rewrite dumps_encode in He.
  exact (loads_encode recursion_limit v s (Nat.le_refl _) Hp He).
Qed.

(** The text of a dict starts and ends with its braces. *)
Lemma dumps_dict_braces (d : dict pyval) (s : string) :
  dumps default false (PDict d) = Ok s ->
  exists mid, chars s = "{"%char :: mid ++ ["}"%char].
Proof.
  rewrite dumps_encode. unfold recursion_limit. rewrite encode_dict.
  destruct (sequence _) as [parts|e]; [|discriminate].
  intros H. injection H as <-. rewrite !chars_app. eexists. reflexivity.
Qed.

End RoundTrip.

(** ** What the check of an audit line compares *)

Lemma strip_braces (mid : list ascii) :
  strip_chars ("{"%char :: mid ++ ["}"%char]) = "{"%char :: mid ++ ["}"%char].
Proof.
  unfold strip_chars.
  change (lstrip ("{"%char :: mid ++ ["}"%char])) with ("{"%char :: mid ++ ["}"%char]).
  change (rev ("{"%char :: mid ++ ["}"%char])) with (rev (mid ++ ["}"%char]) ++ ["{"%char]).
  rewrite rev_app_distr.
  change ((rev ["}"%char] ++ rev mid) ++ ["{"%char])
    with ("}"%char :: rev mid ++ ["{"%char]).
  change (lstrip ("}"%char :: rev mid ++ ["{"%char]))
    with ("}"%char :: rev mid ++ ["{"%char]).
  change (rev ("}"%char :: rev mid ++ ["{"%char]))
    with (rev (rev mid ++ ["{"%char]) ++ ["}"%char]).
  rewrite rev_app_distr, rev_involutive. reflexivity.
Qed.

(** X24.  What [verify_integrity] checks on a line: when the line is the
    JSON text of a record (a dict of plain values), the line counts as
    verified exactly when the checksum stored in the record is the hash of
    the sorted text of the record without its checksum member. *)
Theorem verify_line_of_record (d : dict pyval) (line : string) :
  plain (PDict d) = true -> dumps None false (PDict d) = Ok line ->
  AuditLogger.verify_line line
  = match dumps None true (PDict (dict_del d "checksum")) with
    | Raise e => AuditLogger.Escapes e
    | Ok text =>
        if AuditLogger.checksum_eqb
             match dict_get d "checksum" with Some v => v | None => PNone end
             (AuditLogger.checksum_of text)
        then AuditLogger.Verified else AuditLogger.Corrupted true
    end.
Proof.
  intros Hp He.
  assert (Hs : strip line = line).
  { destruct (dumps_dict_braces None d line He) as (mid & Hm).
    unfold strip. rewrite Hm, strip_braces, <- Hm. apply str_of_chars. }
  unfold AuditLogger.verify_line.
  rewrite Hs, (loads_dumps None (PDict d) line Hp He). reflexivity.
Qed.

Definition record : dict pyval :=
  [("sequence", PInt 1); ("event_type", PStr "access");
   ("data", PDict [("user", PStr "ann")]);
   ("checksum", PStr "0123456789abcdef")].

Definition record_line : string :=
  Eval vm_compute in
    match dumps None false (PDict record) with Ok s => s | Raise _ => "" end.

Lemma verify_line_of_record_witness :
  plain (PDict record) = true /\ dumps None false (PDict record) = Ok record_line
  /\ AuditLogger.verify_line record_line
     = match dumps None true (PDict (dict_del record "checksum")) with
       | Raise e => AuditLogger.Escapes e
       | Ok text =>
           if AuditLogger.checksum_eqb
                match dict_get record "checksum" with Some v => v | None => PNone end
                (AuditLogger.checksum_of text)
           then AuditLogger.Verified else AuditLogger.Corrupted true
       end.
Proof.
  split; [vm_compute; reflexivity|]. split; [vm_compute; reflexivity|].
  apply (verify_line_of_record record record_line); vm_compute; reflexivity.
Defined.

End JsonRoundTrip.
